(** * The Crosscat metamodel of bayeslite ([src/crosscat.py])

    A shallow embedding of [CrosscatMetamodel] and of the helper functions
    of [crosscat.py]: the relational store is a record of tables, each a
    list of rows; Python exceptions are an error type; a savepoint gives
    back the store it started from when its body raises.  The inference
    engine ([self._crosscat]) and the Python builtins on floats are
    interfaces, as they are in the source. *)

From Stdlib Require Import ZArith QArith Qround Sorted.
From Stdlib Require OrderedTypeEx.
From stdpp Require Import base option list strings pretty gmap fin_maps.

#[local] Open Scope string_scope.
#[local] Open Scope list_scope.
#[local] Open Scope Z_scope.

(** ** Python values *)

(** A Python float: NaN or a number.  Numbers are exact rationals: the
    rounding of IEEE doubles and the infinities are outside the model. *)
Inductive pyfloat : Type :=
| FNaN
| FNum (q : Q).

(** What a cell of an SQL table holds, as the sqlite3 binding hands it to
    Python: [None], an [int], a [float] or a [unicode] string. *)
Inductive pyval : Type :=
| PNone
| PInt (z : Z)
| PFloat (f : pyfloat)
| PStr (s : string).

(** The exceptions the module can raise, by class. *)
Inductive pyerr : Type :=
| ValueError (msg : string)
| KeyError
| TypeError (msg : string)
| NameError (name : string)
| IndexError
| ZeroDivisionError
| AssertionError
| OperationalError (msg : string)
| IntegrityError (msg : string)
| EngineError
| OverflowError.

(** ** Computations that may raise *)

Inductive result (A : Type) : Type :=
| Ok (a : A)
| Raise (e : pyerr).
Arguments Ok {A} a.
Arguments Raise {A} e.

Definition bind {A B} (r : result A) (k : A -> result B) : result B :=
  match r with
  | Ok a => k a
  | Raise e => Raise e
  end.

Notation "'let*' x ':=' r 'in' k" := (bind r (fun x => k))
  (at level 10, x pattern, r at level 100, k at level 200).

(** A lookup that raises [e] when it finds nothing. *)
Definition or_raise {A} (o : option A) (e : pyerr) : result A :=
  match o with Some a => Ok a | None => Raise e end.

(** A list comprehension whose body may raise: the first failure wins. *)
Fixpoint mapM {A B} (f : A -> result B) (l : list A) : result (list B) :=
  match l with
  | [] => Ok []
  | x :: l' => let* y := f x in let* ys := mapM f l' in Ok (y :: ys)
  end.

(** [enumerate(l)], counting from [i]. *)
Fixpoint enumerate_from {A} (i : Z) (l : list A) : list (Z * A) :=
  match l with
  | [] => []
  | x :: l' => (i, x) :: enumerate_from (i + 1) l'
  end.
Definition enumerate {A} (l : list A) : list (Z * A) := enumerate_from 0 l.

(** [l[i]] on a Python list: a negative index counts from the end, an index
    out of range raises [IndexError]. *)
Definition py_index {A} (l : list A) (i : Z) : result A :=
  let n := Z.of_nat (length l) in
  if (0 <=? i) then or_raise (l !! Z.to_nat i) IndexError
  else if (0 <=? n + i) then or_raise (l !! Z.to_nat (n + i)) IndexError
  else Raise IndexError.

(** The SQL clause [ORDER BY key]: a stable insertion sort. *)
Fixpoint insert_by {A} (key : A -> Z) (x : A) (l : list A) : list A :=
  match l with
  | [] => [x]
  | y :: l' => if key x <? key y then x :: l else y :: insert_by key x l'
  end.

Fixpoint sort_by {A} (key : A -> Z) (l : list A) : list A :=
  match l with
  | [] => []
  | x :: l' => insert_by key x (sort_by key l')
  end.

(** [cursor.next()] on the rows a query yields: the first one, if any. *)
Definition cursor_next {A} (rows : list A) : option A := head rows.

(** ** Builtins on floats

    [float()] on text, [unicode()] and [repr()] of a float, [math.exp],
    the text SQLite gives a REAL, and [bayeslite.util.arithmetic_mean] are
    not defined in this module: they are an interface here. *)
Class PyFloats : Type := {
  (** [float(s)] for a string [s]; [None] is [ValueError]. *)
  float_of_str : string -> option pyfloat;
  (** [unicode(f)] for a float [f]. *)
  str_of_float : pyfloat -> string;
  (** [repr(f)], which [json.dumps] uses for a float that is a dict key. *)
  repr_of_float : pyfloat -> string;
  (** The text a REAL becomes in a column of TEXT affinity. *)
  sqlite_text_of_float : pyfloat -> string;
  (** [math.exp]. *)
  math_exp : pyfloat -> pyfloat;
  (** [arithmetic_mean] of [bayeslite.util]. *)
  arithmetic_mean : list pyfloat -> pyfloat;
}.

(** The number an integer stands for, as a float.  This is [float(i)]
    for the integers the module itself makes (a count, an index, a code),
    which a double holds exactly. *)
Definition float_of_Z (z : Z) : pyfloat := FNum (inject_Z z).

(** The double nearest to an integer, ties to the even mantissa: below
    [2^53] in magnitude every integer is a double; above, the 53 leading
    bits are kept and the rest is rounded. *)
Definition round_to_double (z : Z) : Z :=
  let a := Z.abs z in
  if a <? 2 ^ 53 then z
  else
    let e := Z.log2 a - 52 in
    let m := a / 2 ^ e in
    let r := a mod 2 ^ e in
    let half := 2 ^ (e - 1) in
    let m' := if r <? half then m
              else if half <? r then m + 1
              else if Z.even m then m else m + 1 in
    Z.sgn z * (m' * 2 ^ e).

(** [float(i)] for any integer [i]: the nearest double, [OverflowError]
    when that is beyond the largest double. *)
Definition float_of_int (z : Z) : result pyfloat :=
  let d := round_to_double z in
  if 2 ^ 1024 <=? Z.abs d then Raise OverflowError
  else Ok (FNum (inject_Z d)).

(** [math.isnan]. *)
Definition isnan (f : pyfloat) : bool :=
  match f with FNaN => true | FNum _ => false end.

(** [int(f)]: truncation toward zero ([int(NaN)] raises [ValueError]). *)
Definition int_of_float (f : pyfloat) : result Z :=
  match f with
  | FNaN => Raise (ValueError "cannot convert float NaN to integer")
  | FNum q => Ok (if Qle_bool 0 q then Qfloor q else Qceiling q)
  end.


(** [a / b] on floats: a zero divisor raises. *)
Definition float_div (a b : pyfloat) : result pyfloat :=
  match a, b with
  | FNum x, FNum y =>
      if Qeq_bool y 0 then Raise ZeroDivisionError else Ok (FNum (x / y))
  | _, _ => Ok FNaN
  end.

(** [a == b] on floats: NaN equals nothing. *)
Definition float_eqb (a b : pyfloat) : bool :=
  match a, b with
  | FNum x, FNum y => Qeq_bool x y
  | _, _ => false
  end.


(** [a == b] on lists, element by element. *)
Fixpoint list_eqb {A} (eqb : A -> A -> bool) (a b : list A) : bool :=
  match a, b with
  | [], [] => true
  | x :: a', y :: b' => eqb x y && list_eqb eqb a' b'
  | _, _ => false
  end.

(** [float(v)]: [TypeError] on [None], [ValueError] on text that is not
    a number, the nearest double for an integer. *)
Definition py_float `{PyFloats} (v : pyval) : result pyfloat :=
  match v with
  | PNone => Raise (TypeError "float() argument must be a string or a number")
  | PInt z => float_of_int z
  | PFloat f => Ok f
  | PStr s =>
      or_raise (float_of_str s) (ValueError "could not convert string to float")
  end.

(** [unicode(v)]. *)
Definition unicode `{PyFloats} (v : pyval) : string :=
  match v with
  | PNone => "None"
  | PInt z => pretty z
  | PFloat f => str_of_float f
  | PStr s => s
  end.

(** The member name [json.dumps] writes for a dict key [v]. *)
Definition json_key `{PyFloats} (v : pyval) : string :=
  match v with
  | PNone => "null"
  | PInt z => pretty z
  | PFloat f => repr_of_float f
  | PStr s => s
  end.

(** [dict(items)], later items replacing earlier ones of the same key. *)
Definition dict_of_items {V} (items : list (string * V)) : gmap string V :=
  foldl (fun m kv => <[kv.1 := kv.2]> m) ∅ items.

(** Modelled from the spec: [bayeslite.util.casefold] is not among the
    sources; section 4.6 matches column names by case-insensitive
    equality.  Here the ASCII capitals are lowered. *)
Definition ascii_lower (c : Ascii.ascii) : Ascii.ascii :=
  let n := Ascii.nat_of_ascii c in
  if ((65 <=? n)%nat && (n <=? 90)%nat)%bool
  then Ascii.ascii_of_nat (n + 32) else c.

Fixpoint casefold (s : string) : string :=
  match s with
  | EmptyString => EmptyString
  | String c s' => String (ascii_lower c) (casefold s')
  end.

(** ** The engine's latent state and the persisted documents *)

(** [X_L], the structural state of one model: the view each compacted
    column is assigned to ([X_L['column_partition']['assignments']]); the
    rest of the document is the engine's own and is kept as a token. *)
Record XL : Type := {
  column_partition_assignments : list Z;
  XL_rest : Z;
}.

(** [X_D], the row-cluster assignment of every row, per view. *)
Definition XD : Type := list (list Z).

(** The model configuration dictionary. *)
Record model_config : Type := {
  kernel_list : list string;
  initialization : string;
  row_initialization : string;
}.

(** The theta document of one model. *)
Record theta : Type := {
  X_L : XL;
  X_D : XD;
  iterations : Z;
  column_crp_alpha : list pyfloat;
  logscore : list pyfloat;
  num_views : list Z;
  theta_config : model_config;
}.

(** An SQL value bound to a [?] or held in the [theta_json] column: an
    integer, or the text [json.dumps] wrote for a theta. *)
Inductive sqlarg : Type :=
| AInt (z : Z)
| AJson (t : theta).

(** [json.loads] of such a value. *)
Definition json_loads_theta (a : sqlarg) : result theta :=
  match a with
  | AJson t => Ok t
  | AInt _ => Raise (TypeError "expected string or buffer")
  end.

(** [column = ?] for a column of INTEGER affinity: the text of a JSON
    object is not a number and equals no integer. *)
Definition int_column_eqb (column : Z) (a : sqlarg) : bool :=
  match a with
  | AInt z => column =? z
  | AJson _ => false
  end.

(** The metadata of one column as [json.loads] returns it.  In the source
    the two maps are named backwards: [code_to_value] takes the text of a
    value to its code and [value_to_code] takes the text of a code to its
    value. *)
Record column_metadata : Type := {
  modeltype : string;
  value_to_code : gmap string pyval;
  code_to_value : gmap string Z;
}.

(** [M_c], the metadata document of a generator. *)
Record metadata : Type := {
  name_to_idx : gmap string Z;
  idx_to_name : gmap string string;
  column_metadata_list : list column_metadata;
}.

(** The data matrix [T]: one row of codes per table row. *)
Definition data_matrix : Type := list (list pyfloat).

(** ** The inference engine

    [self._crosscat]: the capabilities the module calls.  Any of them may
    raise. *)
Class CrosscatEngine : Type := {
  (** [analyze(M_c, T, kernel_list, X_L, X_D, n_steps)]; the diagnostics
      it also returns are dropped by the caller. *)
  engine_analyze :
    metadata -> data_matrix -> list string -> list XL -> list XD -> Z ->
    result (list XL * list XD);
  (** [insert(M_c, T, X_L_list, X_D_list, new_rows)]. *)
  engine_insert :
    metadata -> data_matrix -> list XL -> list XD -> data_matrix ->
    result (list XL * list XD * data_matrix);
  (** [mutual_information(M_c, X_L_list, X_D_list, Q, n_samples)]: per
      query, the estimates per model and the Linfoot statistics. *)
  engine_mutual_information :
    metadata -> list XL -> list XD -> list (Z * Z) -> Z ->
    result (list (list pyfloat * list pyfloat));
  (** [simple_predictive_probability_multistate(M_c, X_L_list, X_D_list,
      Y, Q)]: a log-probability. *)
  engine_simple_predictive_probability_multistate :
    metadata -> list XL -> list XD -> list (Z * Z * pyfloat) ->
    list (Z * Z * pyfloat) -> result pyfloat;
}.

(** ** The store *)

(** [bayesdb_generator]. *)
Record generator_row : Type := { g_id : Z; g_tabname : string }.

(** [bayesdb_column]. *)
Record column_row : Type := {
  c_tabname : string; c_colno : Z; c_name : string }.

(** [bayesdb_generator_column]. *)
Record generator_column_row : Type := {
  gc_generator_id : Z; gc_colno : Z; gc_stattype : string }.

(** [bayesdb_generator_model]. *)
Record generator_model_row : Type := {
  gm_generator_id : Z; gm_modelno : Z; gm_iterations : Z }.

(** [bayesdb_crosscat_metadata]. *)
Record crosscat_metadata_row : Type := {
  md_generator_id : Z; md_metadata_json : metadata }.

(** [bayesdb_crosscat_column]. *)
Record crosscat_column_row : Type := {
  ccol_generator_id : Z; ccol_colno : Z; ccol_cc_colno : Z;
  ccol_disttype : string }.

(** [bayesdb_crosscat_column_codemap]. *)
Record crosscat_codemap_row : Type := {
  cm_generator_id : Z; cm_cc_colno : Z; cm_code : Z; cm_value : string }.

(** [bayesdb_crosscat_theta]. *)
Record crosscat_theta_row : Type := {
  th_generator_id : Z; th_modelno : Z; th_theta_json : sqlarg }.

(** A user table: its column names and its rows, in rowid order. *)
Record user_table : Type := {
  ut_columns : list string;
  ut_rows : list (list pyval);
}.

Record store : Type := {
  bayesdb_generator : list generator_row;
  bayesdb_column : list column_row;
  bayesdb_generator_column : list generator_column_row;
  bayesdb_generator_model : list generator_model_row;
  user_tables : gmap string user_table;
  bayesdb_crosscat_metadata : list crosscat_metadata_row;
  bayesdb_crosscat_column : list crosscat_column_row;
  bayesdb_crosscat_column_codemap : list crosscat_codemap_row;
  bayesdb_crosscat_theta : list crosscat_theta_row;
}.

(** The store with one table replaced. *)
Definition with_user_tables (db : store) (x : gmap string user_table)
  : store :=
  {| bayesdb_generator := bayesdb_generator db;
     bayesdb_column := bayesdb_column db;
     bayesdb_generator_column := bayesdb_generator_column db;
     bayesdb_generator_model := bayesdb_generator_model db;
     user_tables := x;
     bayesdb_crosscat_metadata := bayesdb_crosscat_metadata db;
     bayesdb_crosscat_column := bayesdb_crosscat_column db;
     bayesdb_crosscat_column_codemap := bayesdb_crosscat_column_codemap db;
     bayesdb_crosscat_theta := bayesdb_crosscat_theta db |}.

Definition with_generator_model (db : store) (x : list generator_model_row)
  : store :=
  {| bayesdb_generator := bayesdb_generator db;
     bayesdb_column := bayesdb_column db;
     bayesdb_generator_column := bayesdb_generator_column db;
     bayesdb_generator_model := x;
     user_tables := user_tables db;
     bayesdb_crosscat_metadata := bayesdb_crosscat_metadata db;
     bayesdb_crosscat_column := bayesdb_crosscat_column db;
     bayesdb_crosscat_column_codemap := bayesdb_crosscat_column_codemap db;
     bayesdb_crosscat_theta := bayesdb_crosscat_theta db |}.

Definition with_crosscat_metadata (db : store)
    (x : list crosscat_metadata_row) : store :=
  {| bayesdb_generator := bayesdb_generator db;
     bayesdb_column := bayesdb_column db;
     bayesdb_generator_column := bayesdb_generator_column db;
     bayesdb_generator_model := bayesdb_generator_model db;
     user_tables := user_tables db;
     bayesdb_crosscat_metadata := x;
     bayesdb_crosscat_column := bayesdb_crosscat_column db;
     bayesdb_crosscat_column_codemap := bayesdb_crosscat_column_codemap db;
     bayesdb_crosscat_theta := bayesdb_crosscat_theta db |}.

Definition with_crosscat_column (db : store) (x : list crosscat_column_row)
  : store :=
  {| bayesdb_generator := bayesdb_generator db;
     bayesdb_column := bayesdb_column db;
     bayesdb_generator_column := bayesdb_generator_column db;
     bayesdb_generator_model := bayesdb_generator_model db;
     user_tables := user_tables db;
     bayesdb_crosscat_metadata := bayesdb_crosscat_metadata db;
     bayesdb_crosscat_column := x;
     bayesdb_crosscat_column_codemap := bayesdb_crosscat_column_codemap db;
     bayesdb_crosscat_theta := bayesdb_crosscat_theta db |}.

Definition with_crosscat_column_codemap (db : store)
    (x : list crosscat_codemap_row) : store :=
  {| bayesdb_generator := bayesdb_generator db;
     bayesdb_column := bayesdb_column db;
     bayesdb_generator_column := bayesdb_generator_column db;
     bayesdb_generator_model := bayesdb_generator_model db;
     user_tables := user_tables db;
     bayesdb_crosscat_metadata := bayesdb_crosscat_metadata db;
     bayesdb_crosscat_column := bayesdb_crosscat_column db;
     bayesdb_crosscat_column_codemap := x;
     bayesdb_crosscat_theta := bayesdb_crosscat_theta db |}.

Definition with_crosscat_theta (db : store) (x : list crosscat_theta_row)
  : store :=
  {| bayesdb_generator := bayesdb_generator db;
     bayesdb_column := bayesdb_column db;
     bayesdb_generator_column := bayesdb_generator_column db;
     bayesdb_generator_model := bayesdb_generator_model db;
     user_tables := user_tables db;
     bayesdb_crosscat_metadata := bayesdb_crosscat_metadata db;
     bayesdb_crosscat_column := bayesdb_crosscat_column db;
     bayesdb_crosscat_column_codemap := bayesdb_crosscat_column_codemap db;
     bayesdb_crosscat_theta := x |}.

(** [with bdb.savepoint(): body]: the body's store when it returns, the
    store the savepoint started from when it raises. *)
Definition savepoint {A} (body : store -> result (A * store)) (db : store)
  : result A * store :=
  match body db with
  | Ok (a, db') => (Ok a, db')
  | Raise e => (Raise e, db)
  end.

(** ** The host framework's catalogue *)

(** Modelled from the spec: [bayeslite.core] is not among the sources.
    [bayesdb_generator_table] is the table a generator is over (section 3:
    a generator identifies a table and its modelled columns). *)
Definition bayesdb_generator_table (db : store) (generator_id : Z)
  : result string :=
  or_raise
    (g_tabname <$>
       cursor_next (filter (fun g => g_id g = generator_id)
                      (bayesdb_generator db)))
    (ValueError "No such generator").

(** Modelled from the spec: [bayeslite.core] is not among the sources.
    The names of a table's columns, in column order. *)
Definition bayesdb_table_column_names (db : store) (table : string)
  : list string :=
  c_name <$>
    sort_by c_colno (filter (fun c => c_tabname c = table) (bayesdb_column db)).

(** Modelled from the spec: [bayeslite.core] is not among the sources.
    The name of the column of a table with a given number. *)
Definition bayesdb_table_column_name (db : store) (table : string) (colno : Z)
  : result string :=
  or_raise
    (c_name <$>
       cursor_next (filter (fun c => c_tabname c = table /\ c_colno c = colno)
                      (bayesdb_column db)))
    (ValueError "No such column in table").

(** The query [columns_sql] of [crosscat_data]: the name and number of
    each column of the generator, in column order. *)
Definition columns_sql (db : store) (generator_id : Z) : list (string * Z) :=
  c ← sort_by c_colno (bayesdb_column db);
  g ← filter (fun g => g_id g = generator_id /\ c_tabname c = g_tabname g)
        (bayesdb_generator db);
  gc ← filter (fun gc => c_colno c = gc_colno gc /\
                         gc_generator_id gc = g_id g)
         (bayesdb_generator_column db);
  [(c_name c, c_colno c)].

(** Modelled from the spec: [bayeslite.core] is not among the sources.
    The names of a generator's columns, in column order: the join that
    [crosscat_data] writes out. *)
Definition bayesdb_generator_column_names (db : store) (generator_id : Z)
  : list string :=
  fst <$> columns_sql db generator_id.

(** Modelled from the spec: [bayeslite.core] is not among the sources.
    The statistical type of a column of a generator. *)
Definition bayesdb_generator_column_stattype (db : store)
    (generator_id colno : Z) : result string :=
  or_raise
    (gc_stattype <$>
       cursor_next
         (filter (fun gc => gc_generator_id gc = generator_id /\
                            gc_colno gc = colno)
            (bayesdb_generator_column db)))
    (ValueError "No such column in generator").

(** Modelled from the spec: [bayeslite.util.unique] is not among the
    sources; section 4.6 counts a block that spans more than one
    row-cluster, so [unique] yields the distinct elements. *)
Definition unique (l : list Z) : list Z := remove_dups l.

(** ** Statements on a user table *)

(** The position of a named column; SQL names match without regard to
    case. *)
Definition column_index (columns : list string) (name : string)
  : option nat :=
  fst <$> list_find (fun n => casefold n = casefold name) columns.

Definition user_table_of (db : store) (table : string) : result user_table :=
  or_raise (user_tables db !! table) (OperationalError "no such table").

(** [SELECT names FROM table]: every row, in rowid order. *)
Definition select_columns (db : store) (table : string) (names : list string)
  : result (list (list pyval)) :=
  match names with
  | [] => Raise (OperationalError "syntax error")
  | _ :: _ =>
      let* t := user_table_of db table in
      let* idxs := mapM (fun n => or_raise (column_index (ut_columns t) n)
                              (OperationalError "no such column")) names in
      Ok ((fun row => (fun i => default PNone (row !! i)) <$> idxs)
            <$> ut_rows t)
  end.

(** [INSERT INTO table (names) VALUES (?, ..., ?)] with [row] bound: a new
    last row.  The types the table declares for its columns are outside the
    model, so the values are stored as they are given. *)
Definition insert_row (db : store) (table : string) (names : list string)
    (row : list pyval) : result store :=
  match names with
  | [] => Raise (OperationalError "syntax error")
  | _ :: _ =>
      let* t := user_table_of db table in
      let* _ := mapM (fun n => or_raise (column_index (ut_columns t) n)
                           (OperationalError "no such column")) names in
      if bool_decide (length row = length names) then
        let new_row :=
          (fun c => match column_index names c with
                    | Some k => default PNone (row !! k)
                    | None => PNone
                    end) <$> ut_columns t in
        let t' := {| ut_columns := ut_columns t;
                     ut_rows := ut_rows t ++ [new_row] |} in
        Ok (with_user_tables db (<[table := t']> (user_tables db)))
      else Raise (OperationalError "Incorrect number of bindings supplied")
  end.

(** ** Readers of the crosscat tables *)

(** [crosscat_metadata]. *)
Definition crosscat_metadata (db : store) (generator_id : Z)
  : result metadata :=
  or_raise
    (md_metadata_json <$>
       cursor_next (filter (fun r => md_generator_id r = generator_id)
                      (bayesdb_crosscat_metadata db)))
    (ValueError "No crosscat metadata for generator").

(** [crosscat_cc_colno]. *)
Definition crosscat_cc_colno (db : store) (generator_id colno : Z)
  : result Z :=
  or_raise
    (ccol_cc_colno <$>
       cursor_next (filter (fun r => ccol_generator_id r = generator_id /\
                                     ccol_colno r = colno)
                      (bayesdb_crosscat_column db)))
    (ValueError "Column not modelled in generator").

(** The rows [crosscat_thetas] selects: the [theta_json] of every model of
    the generator. *)
Definition crosscat_theta_cells (db : store) (generator_id : Z)
  : list sqlarg :=
  th_theta_json <$>
    filter (fun r => th_generator_id r = generator_id)
      (bayesdb_crosscat_theta db).

(** [list(crosscat_thetas(bdb, generator_id))]. *)
Definition crosscat_thetas (db : store) (generator_id : Z)
  : result (list theta) :=
  mapM json_loads_theta (crosscat_theta_cells db generator_id).

(** [list(crosscat_latent_state(bdb, generator_id))]. *)
Definition crosscat_latent_state (db : store) (generator_id : Z)
  : result (list XL) :=
  let* thetas := crosscat_thetas db generator_id in Ok (X_L <$> thetas).

(** [list(crosscat_latent_data(bdb, generator_id))]. *)
Definition crosscat_latent_data (db : store) (generator_id : Z)
  : result (list XD) :=
  let* thetas := crosscat_thetas db generator_id in Ok (X_D <$> thetas).

(** [crosscat_row_id]. *)
Definition crosscat_row_id (rowid : Z) : Z := rowid - 1.

(** ** The value codec *)

(** [crosscat_value_to_code]. *)
Definition crosscat_value_to_code `{PyFloats} (db : store) (generator_id : Z)
    (M_c : metadata) (colno : Z) (value : pyval) : result pyfloat :=
  let* stattype := bayesdb_generator_column_stattype db generator_id colno in
  if bool_decide (stattype = "categorical") then
    match value with
    | PNone => Ok FNaN
    | _ =>
        let* cc := crosscat_cc_colno db generator_id colno in
        let key := unicode value in
        let* cm := py_index (column_metadata_list M_c) cc in
        let* code := or_raise (code_to_value cm !! key) KeyError in
        Ok (float_of_Z code)
    end
  else if bool_decide (stattype = "cyclic" \/ stattype = "numerical") then
    match py_float value with
    | Ok f => Ok f
    | Raise (ValueError _) | Raise (TypeError _) => Ok FNaN
    | Raise e => Raise e
    end
  else Raise KeyError.

(** [crosscat_code_to_value]. *)
Definition crosscat_code_to_value `{PyFloats} (db : store) (generator_id : Z)
    (M_c : metadata) (colno : Z) (code : pyfloat) : result pyval :=
  let* stattype := bayesdb_generator_column_stattype db generator_id colno in
  if bool_decide (stattype = "categorical") then
    if isnan code then Ok PNone
    else
      let* cc := crosscat_cc_colno db generator_id colno in
      let* i := int_of_float code in
      let key := unicode (PInt i) in
      let* cm := py_index (column_metadata_list M_c) cc in
      or_raise (value_to_code cm !! key) KeyError
  else if bool_decide (stattype = "cyclic" \/ stattype = "numerical") then
    if isnan code then Ok PNone else Ok (PFloat code)
  else Raise KeyError.

(** [crosscat_data]: the codes of every row of the generator's table. *)
Definition crosscat_data `{PyFloats} (db : store) (generator_id : Z)
    (M_c : metadata) : result data_matrix :=
  let* table_name := bayesdb_generator_table db generator_id in
  let columns := columns_sql db generator_id in
  let* rows := select_columns db table_name (fst <$> columns) in
  mapM (fun row =>
          mapM (fun vc : pyval * (string * Z) =>
                  crosscat_value_to_code db generator_id M_c (vc.2.2) (vc.1))
            (zip row columns))
    rows.

(** ** Queries *)

(** The loop of [column_dependence_probability] over the thetas, which the
    generator [crosscat_latent_stata] decodes one at a time. *)
Fixpoint dependence_loop (cc_colno0 cc_colno1 : Z) (cells : list sqlarg)
    (count nmodels : Z) : result (Z * Z) :=
  match cells with
  | [] => Ok (count, nmodels)
  | cell :: cells' =>
      let* t := json_loads_theta cell in
      let nmodels := nmodels + 1 in
      let assignments := column_partition_assignments (X_L t) in
      let* a0 := py_index assignments cc_colno0 in
      let* a1 := py_index assignments cc_colno1 in
      if negb (a0 =? a1) then
        dependence_loop cc_colno0 cc_colno1 cells' count nmodels
      else
        let* a := py_index assignments cc_colno0 in
        let* clusters := py_index (X_D t) a in
        if Z.of_nat (length (unique clusters)) <=? 1 then
          dependence_loop cc_colno0 cc_colno1 cells' count nmodels
        else
          dependence_loop cc_colno0 cc_colno1 cells' (count + 1) nmodels
  end.

(** [CrosscatMetamodel.column_dependence_probability]. *)
Definition column_dependence_probability (db : store)
    (generator_id colno0 colno1 : Z) : result pyval :=
  if colno0 =? colno1 then Ok (PInt 1)
  else
    let* cc_colno0 := crosscat_cc_colno db generator_id colno0 in
    let* cc_colno1 := crosscat_cc_colno db generator_id colno1 in
    let* cn := dependence_loop cc_colno0 cc_colno1
                 (crosscat_theta_cells db generator_id) 0 0 in
    let '(count, nmodels) := cn in
    if nmodels =? 0 then Ok (PFloat FNaN)
    else
      let* q := float_div (float_of_Z count) (float_of_Z nmodels) in
      Ok (PFloat q).


(** [CrosscatMetamodel.column_value_probability]. *)
Definition column_value_probability `{PyFloats} `{CrosscatEngine}
    (db : store) (generator_id colno : Z) (value : pyval) : result pyval :=
  let* M_c := crosscat_metadata db generator_id in
  match crosscat_value_to_code db generator_id M_c colno value with
  | Raise KeyError => Ok (PInt 0)
  | Raise e => Raise e
  | Ok code =>
      let* X_L_list := crosscat_latent_state db generator_id in
      let* X_D_list := crosscat_latent_data db generator_id in
      let* X_D0 := py_index X_D_list 0 in
      let* view0 := py_index X_D0 0 in
      let fake_row_id := Z.of_nat (length view0) in
      let* cc := crosscat_cc_colno db generator_id colno in
      let* r := engine_simple_predictive_probability_multistate
                  M_c X_L_list X_D_list [] [(fake_row_id, cc, code)] in
      Ok (PFloat (math_exp r))
  end.

(** ** Creating a generator *)

(** The metadata of one column as the creators build it, before
    [json.dumps]: [value_to_code] is [dict(zip(range(ncodes), codes))] and
    [code_to_value] is [dict(zip(codes, range(ncodes)))], kept as their
    lists of items. *)
Record raw_column_metadata : Type := {
  raw_modeltype : string;
  raw_value_to_code : list (Z * pyval);
  raw_code_to_value : list (pyval * Z);
}.

Record raw_metadata : Type := {
  raw_name_to_idx : list (string * Z);
  raw_idx_to_name : list (string * string);
  raw_column_metadata_list : list raw_column_metadata;
}.

(** [json.loads(json.dumps(metadata))]: every key becomes text.  Two keys
    with one text form leave one member, which one being up to Python's
    dict order; here the later item is kept. *)
Definition json_column_metadata `{PyFloats} (m : raw_column_metadata)
  : column_metadata :=
  {| modeltype := raw_modeltype m;
     value_to_code :=
       dict_of_items ((fun kv : Z * pyval => (pretty kv.1, kv.2))
                        <$> raw_value_to_code m);
     code_to_value :=
       dict_of_items ((fun kv : pyval * Z => (json_key kv.1, kv.2))
                        <$> raw_code_to_value m) |}.

Definition json_metadata `{PyFloats} (m : raw_metadata) : metadata :=
  {| name_to_idx := dict_of_items (raw_name_to_idx m);
     idx_to_name := dict_of_items (raw_idx_to_name m);
     column_metadata_list :=
       json_column_metadata <$> raw_column_metadata_list m |}.

(** [a IS NOT NULL]; SQLite stores a NaN as NULL. *)
Definition sql_not_null (v : pyval) : bool :=
  match v with
  | PNone | PFloat FNaN => false
  | _ => true
  end.

(** The order of [ORDER BY] on values that are not NULL: numbers by value
    before text, text by its characters. *)
Definition sql_compare (a b : pyval) : comparison :=
  let num (v : pyval) : option Q :=
    match v with
    | PInt z => Some (inject_Z z)
    | PFloat (FNum q) => Some q
    | _ => None
    end in
  match num a, num b with
  | Some x, Some y => Qcompare x y
  | Some _, None => Lt
  | None, Some _ => Gt
  | None, None =>
      match a, b with
      | PStr s, PStr t => String.compare s t
      | _, _ => Eq
      end
  end.

Fixpoint insert_distinct (x : pyval) (l : list pyval) : list pyval :=
  match l with
  | [] => [x]
  | y :: l' =>
      match sql_compare x y with
      | Lt => x :: l
      | Eq => l
      | Gt => y :: insert_distinct x l'
      end
  end.

(** [SELECT DISTINCT c FROM t WHERE c IS NOT NULL ORDER BY c], given the
    values of the column. *)
Definition select_distinct_ordered (values : list pyval) : list pyval :=
  foldl (fun acc v => insert_distinct v acc) []
    (List.filter sql_not_null values).

(** [range(n)]. *)
Definition range (n : nat) : list Z := Z.of_nat <$> seq 0 n.

(** [create_metadata_categorical]. *)
Definition create_metadata_categorical (db : store) (generator_id colno : Z)
  : result raw_column_metadata :=
  let* table := bayesdb_generator_table db generator_id in
  let* column_name := bayesdb_table_column_name db table colno in
  let* rows := select_columns db table [column_name] in
  let codes := select_distinct_ordered (mjoin rows) in
  let ncodes := length codes in
  Ok {| raw_modeltype := "symmetric_dirichlet_discrete";
        raw_value_to_code := zip (range ncodes) codes;
        raw_code_to_value := zip codes (range ncodes) |}.

(** [create_metadata_numerical]. *)
Definition create_metadata_numerical (_db : store)
    (_generator_id _colno : Z) : result raw_column_metadata :=
  Ok {| raw_modeltype := "normal_inverse_gamma";
        raw_value_to_code := [];
        raw_code_to_value := [] |}.

(** [create_metadata_cyclic]. *)
Definition create_metadata_cyclic (_db : store) (_generator_id _colno : Z)
  : result raw_column_metadata :=
  Ok {| raw_modeltype := "vonmises";
        raw_value_to_code := [];
        raw_code_to_value := [] |}.

(** [create_metadata_ignore]. *)
Definition create_metadata_ignore (db : store) (generator_id colno : Z)
  : result raw_column_metadata :=
  let* metadata := create_metadata_categorical db generator_id colno in
  Ok {| raw_modeltype := "ignore";
        raw_value_to_code := raw_value_to_code metadata;
        raw_code_to_value := raw_code_to_value metadata |}.

(** [create_metadata_key(bdb, table, colno)]: its body names
    [generator_id], which is neither a parameter nor a global of the
    module, so evaluating the call's arguments raises [NameError]. *)
Definition create_metadata_key (db : store) (table colno : Z)
  : result raw_column_metadata :=
  let* metadata :=
    (let* generator_id := Raise (NameError "generator_id") in
     create_metadata_categorical db generator_id colno) in
  Ok {| raw_modeltype := "key";
        raw_value_to_code := raw_value_to_code metadata;
        raw_code_to_value := raw_code_to_value metadata |}.

(** [metadata_creators[stattype]]. *)
Definition metadata_creators (stattype : string)
  : result (store -> Z -> Z -> result raw_column_metadata) :=
  if bool_decide (stattype = "categorical") then Ok create_metadata_categorical
  else if bool_decide (stattype = "cyclic") then Ok create_metadata_cyclic
  else if bool_decide (stattype = "ignore") then Ok create_metadata_ignore
  else if bool_decide (stattype = "key") then Ok create_metadata_key
  else if bool_decide (stattype = "numerical") then Ok create_metadata_numerical
  else Raise KeyError.

(** A column of [column_list]: its number, name and statistical type. *)
Definition column_spec : Type := Z * string * string.

(** [create_metadata]. *)
Definition create_metadata (db : store) (generator_id : Z)
    (column_list : list column_spec) : result raw_metadata :=
  let ncols := length column_list in
  let column_names := (fun c : column_spec => c.1.2) <$> column_list in
  let* column_metadata :=
    mapM (fun c : column_spec =>
            let* creator := metadata_creators (casefold c.2) in
            creator db generator_id c.1.1)
      column_list in
  Ok {| raw_name_to_idx := zip column_names (range ncols);
        raw_idx_to_name := zip (pretty <$> range ncols) column_names;
        raw_column_metadata_list := column_metadata |}.

(** The statements of [create_generator].  The PRIMARY KEY, UNIQUE, CHECK
    and NOT NULL clauses of [crosscat_schema_v1] are enforced; its foreign
    keys, which SQLite enforces only under a pragma of the connection, are
    not modelled. *)

(** [INSERT INTO bayesdb_crosscat_metadata (generator_id, metadata_json)]. *)
Definition insert_metadata_sql (db : store) (generator_id : Z)
    (metadata_json : metadata) : result store :=
  if bool_decide (Exists (fun r => md_generator_id r = generator_id)
                    (bayesdb_crosscat_metadata db))
  then Raise (IntegrityError "PRIMARY KEY must be unique")
  else Ok (with_crosscat_metadata db
             (bayesdb_crosscat_metadata db ++
                [{| md_generator_id := generator_id;
                    md_metadata_json := metadata_json |}])).

(** [INSERT INTO bayesdb_crosscat_column
      (generator_id, colno, cc_colno, disttype)]. *)
Definition insert_column_sql (db : store) (generator_id colno cc_colno : Z)
    (disttype : string) : result store :=
  if negb ((0 <=? colno) && (0 <=? cc_colno)) then
    Raise (IntegrityError "CHECK constraint failed")
  else if bool_decide (Exists (fun r => ccol_generator_id r = generator_id /\
                                        ccol_colno r = colno)
                         (bayesdb_crosscat_column db)) then
    Raise (IntegrityError "PRIMARY KEY must be unique")
  else if bool_decide (Exists (fun r => ccol_generator_id r = generator_id /\
                                        ccol_cc_colno r = cc_colno)
                         (bayesdb_crosscat_column db)) then
    Raise (IntegrityError "columns generator_id, cc_colno are not unique")
  else Ok (with_crosscat_column db
             (bayesdb_crosscat_column db ++
                [{| ccol_generator_id := generator_id;
                    ccol_colno := colno;
                    ccol_cc_colno := cc_colno;
                    ccol_disttype := disttype |}])).

(** The text a value becomes in a column of TEXT affinity; [None] is
    NULL. *)
Definition sqlite_text `{PyFloats} (v : pyval) : option string :=
  match v with
  | PNone | PFloat FNaN => None
  | PInt z => Some (pretty z)
  | PFloat f => Some (sqlite_text_of_float f)
  | PStr s => Some s
  end.

(** [INSERT INTO bayesdb_crosscat_column_codemap
      (generator_id, cc_colno, code, value)]. *)
Definition insert_codemap_sql `{PyFloats} (db : store)
    (generator_id cc_colno code : Z) (value : pyval) : result store :=
  match sqlite_text value with
  | None => Raise (IntegrityError "value may not be NULL")
  | Some text =>
      if negb (0 <=? cc_colno) then
        Raise (IntegrityError "CHECK constraint failed")
      else if bool_decide
                (Exists (fun r => cm_generator_id r = generator_id /\
                                  cm_cc_colno r = cc_colno /\
                                  (cm_code r = code \/ cm_value r = text))
                   (bayesdb_crosscat_column_codemap db)) then
        Raise (IntegrityError "codemap columns are not unique")
      else Ok (with_crosscat_column_codemap db
                 (bayesdb_crosscat_column_codemap db ++
                    [{| cm_generator_id := generator_id;
                        cm_cc_colno := cc_colno;
                        cm_code := code;
                        cm_value := text |}]))
  end.

(** [for code in codemap: ... codemap[code]]. *)
Fixpoint insert_codemap_rows `{PyFloats} (db : store)
    (generator_id cc_colno : Z) (codemap : list (Z * pyval)) : result store :=
  match codemap with
  | [] => Ok db
  | (code, value) :: codemap' =>
      let* db := insert_codemap_sql db generator_id cc_colno code value in
      insert_codemap_rows db generator_id cc_colno codemap'
  end.

(** [for cc_colno, (colno, name, _stattype) in enumerate(column_list)]. *)
Fixpoint insert_columns `{PyFloats} (db : store) (generator_id : Z)
    (metadata : raw_metadata) (columns : list (Z * column_spec))
  : result store :=
  match columns with
  | [] => Ok db
  | (cc_colno, (colno, _name, _stattype)) :: columns' =>
      let* column_metadata :=
        py_index (raw_column_metadata_list metadata) cc_colno in
      let disttype := raw_modeltype column_metadata in
      let* db := insert_column_sql db generator_id colno cc_colno disttype in
      let codemap := raw_value_to_code column_metadata in
      let* db := insert_codemap_rows db generator_id cc_colno codemap in
      insert_columns db generator_id metadata columns'
  end.

(** [CrosscatMetamodel.create_generator]. *)
Definition create_generator `{PyFloats} (db : store) (generator_id : Z)
    (column_list : list column_spec) : result unit * store :=
  savepoint
    (fun db =>
       let* metadata := create_metadata db generator_id column_list in
       let metadata_json := json_metadata metadata in
       let* db := insert_metadata_sql db generator_id metadata_json in
       let* db :=
         insert_columns db generator_id metadata (enumerate column_list) in
       Ok (tt, db))
    db.

(** ** Analysis *)

(** The query [models_sql]: the number and the [theta_json] of every model
    of the generator, by model number. *)
Definition models_sql (db : store) (generator_id : Z) : list (Z * sqlarg) :=
  m ← sort_by gm_modelno
        (filter (fun m => gm_generator_id m = generator_id)
           (bayesdb_generator_model db));
  ct ← filter (fun ct => gm_generator_id m = th_generator_id ct /\
                         gm_modelno m = th_modelno ct)
         (bayesdb_crosscat_theta db);
  [(gm_modelno m, th_theta_json ct)].

(** A column of [bayesdb_crosscat_theta] by name, as the schema declares
    them; SQLite refuses a statement that names another. *)
Definition crosscat_theta_column (name : string)
  : result (crosscat_theta_row -> sqlarg) :=
  if bool_decide (name = "generator_id") then
    Ok (fun r => AInt (th_generator_id r))
  else if bool_decide (name = "modelno") then Ok (fun r => AInt (th_modelno r))
  else if bool_decide (name = "theta_json") then Ok th_theta_json
  else Raise (OperationalError "no such column").

(** The query [theta_sql]:
    [SELECT theta FROM bayesdb_crosscat_theta
       WHERE generator_id = ? AND modelno = ?]. *)
Definition theta_sql (db : store) (generator_id modelno : Z)
  : result (list sqlarg) :=
  let* column := crosscat_theta_column "theta" in
  Ok (column <$>
        filter (fun r => th_generator_id r = generator_id /\
                         th_modelno r = modelno)
          (bayesdb_crosscat_theta db)).

(** The statement [update_iterations_sql], its three [?] in the order of
    the text:
    [UPDATE bayesdb_generator_model SET iterations = iterations + ?
       WHERE generator_id = ? AND modelno = ?]. *)
Definition update_iterations_sql (db : store) (p1 p2 p3 : Z) : store :=
  with_generator_model db
    ((fun m =>
        if bool_decide (gm_generator_id m = p2 /\ gm_modelno m = p3)
        then {| gm_generator_id := gm_generator_id m;
                gm_modelno := gm_modelno m;
                gm_iterations := gm_iterations m + p1 |}
        else m) <$> bayesdb_generator_model db).

(** The statement [update_theta_sql], its three [?] in the order of the
    text:
    [UPDATE bayesdb_crosscat_theta SET theta_json = ?
       WHERE generator_id = ? AND modelno = ?]. *)
Definition update_theta_sql (db : store) (p1 p2 p3 : sqlarg) : store :=
  with_crosscat_theta db
    ((fun r =>
        if int_column_eqb (th_generator_id r) p2 &&
           int_column_eqb (th_modelno r) p3
        then {| th_generator_id := th_generator_id r;
                th_modelno := th_modelno r;
                th_theta_json := p1 |}
        else r) <$> bayesdb_crosscat_theta db).

(** [zip] of four lists. *)
Definition zip4 {A B C D} (a : list A) (b : list B) (c : list C) (d : list D)
  : list (A * B * C * D) :=
  zip (zip (zip a b) c) d.

(** The loop that ends a batch of [analyze]: the parameters are bound in
    the order the source lists them. *)
Fixpoint analyze_updates (db : store) (generator_id n_steps : Z)
    (items : list (Z * theta * XL * XD)) : store :=
  match items with
  | [] => db
  | (modelno, th, xl, xd) :: items' =>
      let th' := {| X_L := xl;
                    X_D := xd;
                    iterations := iterations th + n_steps;
                    column_crp_alpha := column_crp_alpha th;
                    logscore := logscore th;
                    num_views := num_views th;
                    theta_config := theta_config th |} in
      let db := update_iterations_sql db generator_id modelno n_steps in
      let db := update_theta_sql db (AInt generator_id) (AInt modelno)
                  (AJson th') in
      analyze_updates db generator_id n_steps items'
  end.

(** The body of one [with bdb.savepoint()] of [analyze].  When [modelnos]
    is given, [update_modelnos] is never bound. *)
Definition analyze_batch `{CrosscatEngine} (M_c : metadata) (T : data_matrix)
    (generator_id : Z) (modelnos : option (list Z)) (n_steps : Z)
    (db : store) : result (unit * store) :=
  let* loaded :=
    match modelnos with
    | None =>
        let rows := models_sql db generator_id in
        let* thetas := mapM (fun row : Z * sqlarg => json_loads_theta row.2)
                         rows in
        Ok (Some (fst <$> rows), thetas)
    | Some modelnos =>
        let* thetas :=
          mapM (fun modelno =>
                  let* cursor := theta_sql db generator_id modelno in
                  match cursor_next cursor with
                  | None => Raise (ValueError "No such model in generator")
                  | Some cell => json_loads_theta cell
                  end)
            modelnos in
        Ok (None, thetas)
    end in
  let '(update_modelnos, thetas) := loaded in
  if negb (0 <? Z.of_nat (length thetas)) then Raise AssertionError
  else
    let X_L_list := X_L <$> thetas in
    let X_D_list := X_D <$> thetas in
    let* theta0 := py_index thetas 0 in
    let* r := engine_analyze M_c T (kernel_list (theta_config theta0))
                X_L_list X_D_list n_steps in
    let '(X_L_list, X_D_list) := r in
    let* update_modelnos :=
      or_raise update_modelnos (NameError "update_modelnos") in
    Ok (tt, analyze_updates db generator_id n_steps
              (zip4 update_modelnos thetas X_L_list X_D_list)).

(** The outcome of [analyze]: what it returned or raised, the store it
    left, and the [n_steps] of each batch it entered. *)
Definition analysis : Type := result unit * store * list Z.

(** The [while] loop of [analyze].  [clock k] is what the [k]-th call of
    [time.time()] returns and [tick] counts the calls made so far; the
    loop gives [None] when [fuel] batches were not enough. *)
Fixpoint analyze_loop `{CrosscatEngine} (fuel : nat) (clock : nat -> Q)
    (tick : nat) (M_c : metadata) (T : data_matrix) (generator_id : Z)
    (modelnos : option (list Z)) (iterations : option Z)
    (max_seconds deadline : option Q) (db : store) (batches : list Z)
  : option analysis :=
  match fuel with
  | O => None
  | S fuel' =>
      if negb (match iterations with None => true | Some i => 0 <? i end)
      then Some (Ok tt, db, batches)
      else
        let '(in_time, tick) :=
          match deadline with
          | None => (true, tick)
          | Some d => (negb (Qle_bool d (clock tick)), S tick)
          end in
        if negb in_time then Some (Ok tt, db, batches)
        else
          let n_steps :=
            match iterations, max_seconds with
            | Some i, None => i
            | _, _ => 1
            end in
          match savepoint
                  (analyze_batch M_c T generator_id modelnos n_steps) db with
          | (Raise e, db') => Some (Raise e, db', batches ++ [n_steps])
          | (Ok _, db') =>
              analyze_loop fuel' clock tick M_c T generator_id modelnos
                ((fun i => i - n_steps) <$> iterations) max_seconds deadline
                db' (batches ++ [n_steps])
          end
  end.

(** [CrosscatMetamodel.analyze]. *)
Definition analyze `{PyFloats} `{CrosscatEngine} (fuel : nat)
    (clock : nat -> Q) (db : store) (generator_id : Z)
    (modelnos : option (list Z)) (iterations : option Z)
    (max_seconds : option Q) : option analysis :=
  match crosscat_metadata db generator_id with
  | Raise e => Some (Raise e, db, [])
  | Ok M_c =>
      match crosscat_data db generator_id M_c with
      | Raise e => Some (Raise e, db, [])
      | Ok T =>
          let '(deadline, tick) :=
            match max_seconds with
            | None => (None, O)
            | Some s => (Some (clock O + s)%Q, 1%nat)
            end in
          analyze_loop fuel clock tick M_c T generator_id modelnos
            iterations max_seconds deadline db []
      end
  end.

(** ** Inserting rows *)

(** The first loop of [insertmany].  The message of the error is written
    as a string applied to a tuple, so raising it raises [TypeError]. *)
Fixpoint insertmany_rows (db : store) (table_name : string)
    (sql_column_names : list string) (rows : list (list pyval))
  : result store :=
  match rows with
  | [] => Ok db
  | row :: rows' =>
      if negb (bool_decide (length row = length sql_column_names)) then
        let* message := Raise (TypeError "'str' object is not callable") in
        Raise (ValueError message)
      else
        let* db := insert_row db table_name sql_column_names row in
        insertmany_rows db table_name sql_column_names rows'
  end.

(** The loop that finds the indices of the modelled columns. *)
Fixpoint insertmany_remap (modelled_column_names : list string)
    (names : list (Z * string)) (remap : list Z) : result (list Z) :=
  match names with
  | [] => Ok remap
  | (i, name) :: names' =>
      let colno := Z.of_nat (length remap) in
      if Z.of_nat (length modelled_column_names) <=? colno then Ok remap
      else
        let* modelled := py_index modelled_column_names colno in
        if bool_decide (casefold name = casefold modelled)
        then insertmany_remap modelled_column_names names' (remap ++ [i])
        else insertmany_remap modelled_column_names names' remap
  end.

(** [CrosscatMetamodel.insertmany].  A row [models_sql] yields holds the
    text of a theta, which is indexed as if it were the decoded
    document. *)
Definition insertmany `{PyFloats} `{CrosscatEngine} (db : store)
    (generator_id : Z) (rows : list (list pyval)) : result unit * store :=
  savepoint
    (fun db =>
       let* table_name := bayesdb_generator_table db generator_id in
       let sql_column_names := bayesdb_table_column_names db table_name in
       let* db := insertmany_rows db table_name sql_column_names rows in
       let modelled_column_names :=
         bayesdb_generator_column_names db generator_id in
       let* remap :=
         insertmany_remap modelled_column_names (enumerate sql_column_names)
           [] in
       if negb (bool_decide (length remap = length modelled_column_names))
       then Raise AssertionError
       else
         let* M_c := crosscat_metadata db generator_id in
         let* modelled_rows :=
           mapM (fun row : list pyval =>
                   mapM (fun ci : Z * Z =>
                           let* value := py_index row ci.2 in
                           crosscat_value_to_code db generator_id M_c ci.1
                             value)
                     (enumerate remap))
             rows in
         let* T := crosscat_data db generator_id M_c in
         let models := models_sql db generator_id in
         let modelnos := fst <$> models in
         let thetas := snd <$> models in
         let* X_L_list :=
           mapM (fun _ : sqlarg =>
                   @Raise XL (TypeError "string indices must be integers"))
             thetas in
         let* X_D_list :=
           mapM (fun _ : sqlarg =>
                   @Raise XD (TypeError "string indices must be integers"))
             thetas in
         let* r := engine_insert M_c T X_L_list X_D_list modelled_rows in
         let '(X_L_list, X_D_list, T) := r in
         let* T' := crosscat_data db generator_id M_c in
         if negb (list_eqb (list_eqb float_eqb) T (T' ++ modelled_rows))
         then Raise AssertionError
         else
           match zip4 modelnos models X_L_list X_D_list with
           | [] => Ok (tt, db)
           | _ :: _ =>
               Raise (TypeError "object does not support item assignment")
           end)
    db.

(** ** The properties as the specification words them *)

(** A list of cluster numbers holds more than one distinct number: some
    element differs from the first. *)
Definition more_than_one_cluster (clusters : list Z) : bool :=
  match clusters with
  | [] => false
  | c :: clusters' => existsb (fun c' => negb (c' =? c)) clusters'
  end.

(** In a model, two compacted columns are dependent: they lie in the same
    view and that view's rows fall in more than one cluster. *)
Definition dependent_in (cc_colno0 cc_colno1 : Z) (t : theta) : bool :=
  match column_partition_assignments (X_L t) !! Z.to_nat cc_colno0,
        column_partition_assignments (X_L t) !! Z.to_nat cc_colno1 with
  | Some a0, Some a1 =>
      (a0 =? a1) &&
      match X_D t !! Z.to_nat a0 with
      | Some clusters => more_than_one_cluster clusters
      | None => false
      end
  | _, _ => false
  end.

(** A theta covers a compacted column: the column has a view, and the view
    has its row clusters. *)
Definition theta_covers (cc_colno : Z) (t : theta) : Prop :=
  0 <= cc_colno /\
  exists a clusters,
    column_partition_assignments (X_L t) !! Z.to_nat cc_colno = Some a /\
    0 <= a /\
    X_D t !! Z.to_nat a = Some clusters.

(** The categorical metadata [create_metadata_categorical] builds from
    the distinct values [codes], as [json.loads] gives it back. *)
Definition categorical_metadata `{PyFloats} (codes : list pyval)
  : column_metadata :=
  json_column_metadata
    {| raw_modeltype := "symmetric_dirichlet_discrete";
       raw_value_to_code := zip (range (length codes)) codes;
       raw_code_to_value := zip codes (range (length codes)) |}.


(** Batches of the given numbers of steps run one after the other, each
    in its savepoint, from the store [db]: what the last one returned or
    raised and the store it left.  A batch that raises is the last one;
    a list that goes on after it is no run. *)
Fixpoint run_batches `{CrosscatEngine} (M_c : metadata) (T : data_matrix)
    (generator_id : Z) (modelnos : option (list Z)) (steps : list Z)
    (db : store) : option (result unit * store) :=
  match steps with
  | [] => Some (Ok tt, db)
  | n :: steps' =>
      match savepoint (analyze_batch M_c T generator_id modelnos n) db with
      | (Ok _, db') => run_batches M_c T generator_id modelnos steps' db'
      | (Raise e, db') =>
          match steps' with
          | [] => Some (Raise e, db')
          | _ :: _ => None
          end
      end
  end.

(** The keys of [bayesdb_crosscat_column] are unique: its PRIMARY KEY
    [(generator_id, colno)] and its UNIQUE [(generator_id, cc_colno)]. *)
Definition crosscat_column_keys_unique (db : store) : Prop :=
  NoDup ((fun r => (ccol_generator_id r, ccol_colno r))
           <$> bayesdb_crosscat_column db) /\
  NoDup ((fun r => (ccol_generator_id r, ccol_cc_colno r))
           <$> bayesdb_crosscat_column db).

(** ** Examples: a table, a generator, two models *)

(** [float()] on decimal literals: a sign, digits, and a fraction. *)
Fixpoint span_digits (s : string) (acc : Z) (n : nat) : Z * nat * string :=
  match s with
  | String c s' =>
      let k := Ascii.nat_of_ascii c in
      if ((48 <=? k)%nat && (k <=? 57)%nat)%bool
      then span_digits s' (10 * acc + Z.of_nat (k - 48)) (S n)
      else (acc, n, s)
  | EmptyString => (acc, n, s)
  end.

Definition strip_char (k : nat) (s : string) : option string :=
  match s with
  | String c s' => if (Ascii.nat_of_ascii c =? k)%nat then Some s' else None
  | EmptyString => None
  end.

Definition parse_decimal (s : string) : option pyfloat :=
  if bool_decide (casefold s = "nan") then Some FNaN
  else
    let '(neg, body) :=
      match strip_char 45 s, strip_char 43 s with
      | Some s', _ => (true, s')
      | None, Some s' => (false, s')
      | None, None => (false, s)
      end in
    let '(ip, n1, rest) := span_digits body 0 0 in
    let sign (q : Q) := if neg : bool then Qopp q else q in
    match rest, strip_char 46 rest with
    | EmptyString, _ =>
        if (0 <? n1)%nat then Some (FNum (sign (inject_Z ip))) else None
    | _, Some rest' =>
        let '(fp, n2, rest'') := span_digits rest' 0 0 in
        match rest'' with
        | EmptyString =>
            if (0 <? n1 + n2)%nat
            then Some (FNum (sign (Qred (inject_Z ip +
                         inject_Z fp / inject_Z (10 ^ Z.of_nat n2)))))
            else None
        | _ => None
        end
    | _, None => None
    end.

(** A float as a fraction, for the examples, none of which has a float
    as the key of a code map. *)
Definition fraction_text (f : pyfloat) : string :=
  match f with
  | FNaN => "nan"
  | FNum q => pretty (Qnum q) +:+ "/" +:+ pretty (Z.pos (Qden q))
  end.

(** The builtins of the examples: decimal literals parse exactly; [exp]
    is right at 0, the one point the examples take it at, and NaN
    elsewhere; the mean is the sum of the shares. *)
Definition example_floats : PyFloats :=
  {| float_of_str := parse_decimal;
     str_of_float := fraction_text;
     repr_of_float := fraction_text;
     sqlite_text_of_float := fraction_text;
     math_exp := fun f =>
       match f with
       | FNum q => if Qeq_bool q 0 then FNum 1 else FNaN
       | FNaN => FNaN
       end;
     arithmetic_mean := fun l =>
       match l with
       | [] => FNaN
       | _ :: _ =>
           foldr (fun f acc =>
                    match f, acc with
                    | FNum x, FNum y =>
                        FNum (Qred (x / inject_Z (Z.of_nat (length l)) + y))
                    | _, _ => FNaN
                    end) (FNum 0) l
       end |}.

(** An engine for the examples: a step of analysis moves every column to
    view 0 and counts the steps in the opaque part of [X_L]; an insertion
    appends the new rows to the data it is given. *)
Definition example_engine : CrosscatEngine :=
  {| engine_analyze := fun _ _ _ X_L_list X_D_list n_steps =>
       Ok ((fun xl =>
              {| column_partition_assignments :=
                   (fun _ => 0) <$> column_partition_assignments xl;
                 XL_rest := XL_rest xl + n_steps |}) <$> X_L_list,
           X_D_list);
     engine_insert := fun _ T X_L_list X_D_list new_rows =>
       Ok (X_L_list, X_D_list, T ++ new_rows);
     engine_mutual_information := fun _ X_L_list _ Q _ =>
       Ok ((fun _ => ((fun _ => FNum 0) <$> X_L_list,
                      (fun _ => FNum 0) <$> X_L_list)) <$> Q);
     engine_simple_predictive_probability_multistate := fun _ _ _ _ _ =>
       Ok (FNum 0) |}.

(** A table [t] of three rows with the columns [color], [height] and
    [name], and a generator 1 over the first two, before
    [create_generator]. *)
Definition example_catalogue : store :=
  {| bayesdb_generator := [ {| g_id := 1; g_tabname := "t" |} ];
     bayesdb_column :=
       [ {| c_tabname := "t"; c_colno := 0; c_name := "color" |};
         {| c_tabname := "t"; c_colno := 1; c_name := "height" |};
         {| c_tabname := "t"; c_colno := 2; c_name := "name" |} ];
     bayesdb_generator_column :=
       [ {| gc_generator_id := 1; gc_colno := 0;
            gc_stattype := "categorical" |};
         {| gc_generator_id := 1; gc_colno := 1;
            gc_stattype := "numerical" |} ];
     bayesdb_generator_model := [];
     user_tables :=
       {[ "t" :=
            {| ut_columns := ["color"; "height"; "name"];
               ut_rows :=
                 [ [PStr "b"; PFloat (FNum (3 # 2)); PStr "x"];
                   [PStr "a"; PStr "3.5"; PStr "y"];
                   [PStr "a"; PInt 2; PStr "z"] ] |} ]};
     bayesdb_crosscat_metadata := [];
     bayesdb_crosscat_column := [];
     bayesdb_crosscat_column_codemap := [];
     bayesdb_crosscat_theta := [] |}.

Definition example_columns : list column_spec :=
  [ (0, "color", "categorical"); (1, "height", "numerical") ].

(** The store after [create_generator]. *)
Definition example_generator : store :=
  (@create_generator example_floats example_catalogue 1 example_columns).2.

(** A generator 2 over a table [u] whose first column is ignored. *)
Definition ignore_catalogue : store :=
  {| bayesdb_generator := [ {| g_id := 2; g_tabname := "u" |} ];
     bayesdb_column :=
       [ {| c_tabname := "u"; c_colno := 0; c_name := "name" |};
         {| c_tabname := "u"; c_colno := 1; c_name := "height" |} ];
     bayesdb_generator_column :=
       [ {| gc_generator_id := 2; gc_colno := 0; gc_stattype := "ignore" |};
         {| gc_generator_id := 2; gc_colno := 1;
            gc_stattype := "numerical" |} ];
     bayesdb_generator_model := [];
     user_tables :=
       {[ "u" :=
            {| ut_columns := ["name"; "height"];
               ut_rows := [ [PStr "x"; PInt 1]; [PStr "y"; PInt 2] ] |} ]};
     bayesdb_crosscat_metadata := [];
     bayesdb_crosscat_column := [];
     bayesdb_crosscat_column_codemap := [];
     bayesdb_crosscat_theta := [] |}.

Definition ignore_columns : list column_spec :=
  [ (0, "name", "ignore"); (1, "height", "numerical") ].

(** The same table with its first column declared a key. *)
Definition key_columns : list column_spec :=
  [ (0, "name", "key"); (1, "height", "numerical") ].

Definition example_config : model_config :=
  {| kernel_list := [];
     initialization := "from_the_prior";
     row_initialization := "from_the_prior" |}.

(** Model 0 has both columns in one view, whose rows fall in two clusters;
    model 1 has [color] and [height] in different views. *)
Definition example_theta0 : theta :=
  {| X_L := {| column_partition_assignments := [0; 0]; XL_rest := 0 |};
     X_D := [[0; 1; 0]];
     iterations := 0;
     column_crp_alpha := [];
     logscore := [];
     num_views := [];
     theta_config := example_config |}.

Definition example_theta1 : theta :=
  {| X_L := {| column_partition_assignments := [0; 1]; XL_rest := 0 |};
     X_D := [[0; 0; 0]; [0; 1; 1]];
     iterations := 0;
     column_crp_alpha := [];
     logscore := [];
     num_views := [];
     theta_config := example_config |}.

(** The store with the two models initialized. *)
Definition example_models : store :=
  with_crosscat_theta
    (with_generator_model example_generator
       [ {| gm_generator_id := 1; gm_modelno := 0; gm_iterations := 0 |};
         {| gm_generator_id := 1; gm_modelno := 1; gm_iterations := 0 |} ])
    [ {| th_generator_id := 1; th_modelno := 0;
         th_theta_json := AJson example_theta0 |};
      {| th_generator_id := 1; th_modelno := 1;
         th_theta_json := AJson example_theta1 |} ].

(** The metadata [create_generator] stored for generator 1. *)
Definition example_M_c : metadata :=
  match crosscat_metadata example_generator 1 with
  | Ok M_c => M_c
  | Raise _ =>
      {| name_to_idx := ∅; idx_to_name := ∅; column_metadata_list := [] |}
  end.

(** The store after [create_generator] on the table with an ignored
    column. *)
Definition ignore_generator : store :=
  (@create_generator example_floats ignore_catalogue 2 ignore_columns).2.

(** The data matrix of the example table, and a row to insert with its
    codes. *)
Definition example_matrix : data_matrix :=
  [ [FNum 1; FNum (3 # 2)]; [FNum 0; FNum (7 # 2)]; [FNum 0; FNum 2] ].

Definition example_row : list pyval := [PStr "b"; PInt 4; PStr "w"].

Definition example_row_codes : list pyfloat := [FNum 1; FNum 4].

(** An engine whose [insert] returns the matrix the example table had
    before the insertion with the new rows appended, whatever matrix it is
    handed. *)
Definition appending_engine : CrosscatEngine :=
  {| engine_analyze := @engine_analyze example_engine;
     engine_insert := fun _ _ X_L_list X_D_list new_rows =>
       Ok (X_L_list, X_D_list, example_matrix ++ new_rows);
     engine_mutual_information := @engine_mutual_information example_engine;
     engine_simple_predictive_probability_multistate :=
       @engine_simple_predictive_probability_multistate example_engine |}.

(** A clock that advances by one second at every reading. *)
Definition example_clock (k : nat) : Q := inject_Z (Z.of_nat k).

(** ** The rest of the module *)

(** What the engine's [initialize] returns for [n_chains] chains: one
    state when there is one chain, the lists of states otherwise (the
    source: "Fix crosscat so it doesn't do this"). *)
Definition init_result (n_chains : nat) : Type :=
  if (n_chains =? 1)%nat then (XL * XD)%type else (list XL * list XD)%type.

(** The capabilities of [self._crosscat] that [initialize], [infer] and
    [simulate] call. *)
Class CrosscatSampler : Type := {
  (** [initialize(M_c, M_r, T, n_chains, initialization,
      row_initialization)]. *)
  engine_initialize :
    metadata -> data_matrix -> forall n_chains : nat, string -> string ->
    result (init_result n_chains);
  (** [impute_and_confidence(M_c, X_L, X_D, Y, Q, n)]: a code and a
      confidence. *)
  engine_impute_and_confidence :
    metadata -> list XL -> list XD -> list (Z * Z * pyfloat) ->
    list (Z * Z) -> Z -> result (pyfloat * pyfloat);
  (** [simple_predictive_sample(M_c, X_L, X_D, Y, Q, n)]: one row of
      codes per sample; [Y] may be [None]. *)
  engine_simple_predictive_sample :
    metadata -> list XL -> list XD -> option (list (Z * Z * pyfloat)) ->
    list (Z * Z) -> Z -> result (list (list pyfloat));
}.

(** [a >= b] on floats: false when either is NaN. *)
Definition float_geb (a b : pyfloat) : bool :=
  match a, b with
  | FNum x, FNum y => Qle_bool y x
  | _, _ => false
  end.

(** [CrosscatMetamodel.drop_generator]: four DELETE statements in one
    savepoint. *)
Definition drop_generator (db : store) (generator_id : Z)
  : result unit * store :=
  savepoint
    (fun db =>
       let db :=
         with_crosscat_theta db
           (filter (fun r => th_generator_id r <> generator_id)
              (bayesdb_crosscat_theta db)) in
       let db :=
         with_crosscat_column_codemap db
           (filter (fun r => cm_generator_id r <> generator_id)
              (bayesdb_crosscat_column_codemap db)) in
       let db :=
         with_crosscat_column db
           (filter (fun r => ccol_generator_id r <> generator_id)
              (bayesdb_crosscat_column db)) in
       let db :=
         with_crosscat_metadata db
           (filter (fun r => md_generator_id r <> generator_id)
              (bayesdb_crosscat_metadata db)) in
       Ok (tt, db))
    db.

(** [crosscat_gen_colno].  When no row is found the handler names
    [colno], which the function does not bind. *)
Definition crosscat_gen_colno (db : store) (generator_id cc_colno : Z)
  : result Z :=
  or_raise
    (ccol_colno <$>
       cursor_next (filter (fun r => ccol_generator_id r = generator_id /\
                                     ccol_cc_colno r = cc_colno)
                      (bayesdb_crosscat_column db)))
    (NameError "colno").

(** The configuration [initialize] uses when it is given [None]. *)
Definition default_model_config : model_config :=
  {| kernel_list := [];
     initialization := "from_the_prior";
     row_initialization := "from_the_prior" |}.

(** [if len(modelnos) == 1: X_L_list = [X_L_list]; X_D_list = [X_D_list]]
    on what the engine returned. *)
Definition initial_states (n_chains : nat)
  : init_result n_chains -> list XL * list XD :=
  match (n_chains =? 1)%nat as b
        return (if b then (XL * XD)%type else (list XL * list XD)%type) ->
               list XL * list XD
  with
  | true => fun s => ([s.1], [s.2])
  | false => fun s => s
  end.

(** [INSERT INTO bayesdb_crosscat_theta (generator_id, modelno,
    theta_json)], under the PRIMARY KEY [(generator_id, modelno)]. *)
Definition insert_theta_sql (db : store) (generator_id modelno : Z)
    (theta_json : sqlarg) : result store :=
  if bool_decide (Exists (fun r => th_generator_id r = generator_id /\
                                   th_modelno r = modelno)
                    (bayesdb_crosscat_theta db))
  then Raise (IntegrityError "PRIMARY KEY must be unique")
  else Ok (with_crosscat_theta db
             (bayesdb_crosscat_theta db ++
                [{| th_generator_id := generator_id;
                    th_modelno := modelno;
                    th_theta_json := theta_json |}])).

(** The loop that ends [initialize].  The function opens no savepoint:
    when an INSERT raises, the rows inserted before it are in the store
    the exception leaves. *)
Fixpoint initialize_thetas (db : store) (generator_id : Z)
    (config : model_config) (items : list (Z * (XL * XD)))
  : result unit * store :=
  match items with
  | [] => (Ok tt, db)
  | (modelno, (xl, xd)) :: items' =>
      let th := {| X_L := xl;
                   X_D := xd;
                   iterations := 0;
                   column_crp_alpha := [];
                   logscore := [];
                   num_views := [];
                   theta_config := config |} in
      match insert_theta_sql db generator_id modelno (AJson th) with
      | Raise e => (Raise e, db)
      | Ok db' => initialize_thetas db' generator_id config items'
      end
  end.

(** [CrosscatMetamodel.initialize]. *)
Definition initialize `{PyFloats} `{CrosscatSampler} (db : store)
    (generator_id : Z) (modelnos : list Z) (config : option model_config)
  : result unit * store :=
  let config := default default_model_config config in
  match crosscat_metadata db generator_id with
  | Raise e => (Raise e, db)
  | Ok M_c =>
      match crosscat_data db generator_id M_c with
      | Raise e => (Raise e, db)
      | Ok T =>
          match engine_initialize M_c T (length modelnos)
                  (initialization config) (row_initialization config) with
          | Raise e => (Raise e, db)
          | Ok states =>
              let '(X_L_list, X_D_list) :=
                initial_states (length modelnos) states in
              initialize_thetas db generator_id config
                (zip modelnos (zip X_L_list X_D_list))
          end
      end
  end.

(** Modelled from the spec: [bayeslite.core] is not among the sources.
    The name of the column of a generator with a given number. *)
Definition bayesdb_generator_column_name (db : store)
    (generator_id colno : Z) : result string :=
  or_raise
    (fst <$>
       cursor_next (filter (fun nc : string * Z => nc.2 = colno)
                      (columns_sql db generator_id)))
    (ValueError "No such column in generator").

(** [SELECT names FROM table WHERE _rowid_ = ?].  No statement of the
    module deletes a row of a user table, so the rowid of a row is its
    position, counted from 1. *)
Definition select_row (db : store) (table : string) (names : list string)
    (rowid : Z) : result (list (list pyval)) :=
  let* rows := select_columns db table names in
  Ok (if 1 <=? rowid
      then match rows !! Z.to_nat (rowid - 1) with
           | Some row => [row]
           | None => []
           end
      else []).

(** [SELECT MAX(_rowid_) FROM table]: [None] on a table without rows. *)
Definition select_max_rowid (db : store) (table : string) : result pyval :=
  let* t := user_table_of db table in
  Ok (match ut_rows t with
      | [] => PNone
      | _ :: _ => PInt (Z.of_nat (length (ut_rows t)))
      end).

(** [CrosscatMetamodel.row_column_predictive_probability]. *)
Definition row_column_predictive_probability `{PyFloats} `{CrosscatEngine}
    (db : store) (generator_id rowid colno : Z) : result pyfloat :=
  let* M_c := crosscat_metadata db generator_id in
  let* table_name := bayesdb_generator_table db generator_id in
  let* colname := bayesdb_generator_column_name db generator_id colno in
  let* cursor := select_row db table_name [colname] rowid in
  let* row := or_raise (cursor_next cursor) (ValueError "No such row") in
  if negb (bool_decide (length row = 1%nat)) then Raise AssertionError
  else
    let* value := py_index row 0 in
    let* code := crosscat_value_to_code db generator_id M_c colno value in
    let* cc := crosscat_cc_colno db generator_id colno in
    let* X_L_list := crosscat_latent_state db generator_id in
    let* X_D_list := crosscat_latent_data db generator_id in
    let* r := engine_simple_predictive_probability_multistate M_c
                X_L_list X_D_list [] [(crosscat_row_id rowid, cc, code)] in
    Ok (math_exp r).

(** The constraints [Y] of [infer]: one per value of the row that is not
    null, its position taken for a compacted column number. *)
Definition infer_constraints `{PyFloats} (db : store) (generator_id : Z)
    (M_c : metadata) (row_id : Z) (row : list pyval)
  : result (list (Z * Z * pyfloat)) :=
  mapM (fun cv : Z * pyval =>
          let* colno := crosscat_gen_colno db generator_id cv.1 in
          let* colno' := crosscat_gen_colno db generator_id cv.1 in
          let* code := crosscat_value_to_code db generator_id M_c colno'
                         cv.2 in
          Ok (row_id, colno, code))
    (List.filter (fun cv : Z * pyval =>
                    match cv.2 with PNone => false | _ => true end)
       (enumerate row)).

(** [CrosscatMetamodel.infer].  The messages of its two errors format
    [repr(rowid)], a string, with [%d], so building either raises
    [TypeError]. *)
Definition infer `{PyFloats} `{CrosscatSampler} (db : store)
    (generator_id colno rowid : Z) (value : pyval) (threshold : pyfloat)
    (numsamples : Z) : result pyval :=
  match value with
  | PNone =>
      let* M_c := crosscat_metadata db generator_id in
      let column_names := bayesdb_generator_column_names db generator_id in
      let* table_name := bayesdb_generator_table db generator_id in
      let* cursor := select_row db table_name column_names rowid in
      match cursor with
      | [] =>
          let* generator := bayesdb_generator_table db generator_id in
          Raise (TypeError "%d format: a number is required, not str")
      | [row] =>
          let row_id := crosscat_row_id rowid in
          let* cc := crosscat_cc_colno db generator_id colno in
          let* X_L_list := crosscat_latent_state db generator_id in
          let* X_D_list := crosscat_latent_data db generator_id in
          let* Y := infer_constraints db generator_id M_c row_id row in
          let* r := engine_impute_and_confidence M_c X_L_list X_D_list Y
                      [(row_id, cc)] numsamples in
          let '(code, confidence) := r in
          if float_geb confidence threshold
          then crosscat_code_to_value db generator_id M_c colno code
          else Ok PNone
      | _ :: _ :: _ =>
          let* generator := bayesdb_generator_table db generator_id in
          Raise (TypeError "%d format: a number is required, not str")
      end
  | _ => Ok value
  end.

(** [CrosscatMetamodel.simulate]. *)
Definition simulate `{PyFloats} `{CrosscatSampler} (db : store)
    (generator_id : Z) (constraints : option (list (Z * pyval)))
    (colnos : list Z) (numpredictions : Z) : result (list (list pyval)) :=
  let* M_c := crosscat_metadata db generator_id in
  let* table_name := bayesdb_generator_table db generator_id in
  let* max_rowid := select_max_rowid db table_name in
  let* fake_rowid :=
    match max_rowid with
    | PInt n => Ok (n + 1)
    | _ => Raise (TypeError "unsupported operand type(s) for +")
    end in
  let fake_row_id := crosscat_row_id fake_rowid in
  let* Y :=
    match constraints with
    | None => Ok None
    | Some constraints =>
        let* Y := mapM (fun cv : Z * pyval =>
                          let* code := crosscat_value_to_code db
                                         generator_id M_c cv.1 cv.2 in
                          Ok (fake_row_id, cv.1, code))
                    constraints in
        Ok (Some Y)
    end in
  let* X_L_list := crosscat_latent_state db generator_id in
  let* X_D_list := crosscat_latent_data db generator_id in
  let* Q := mapM (fun colno =>
                    let* cc := crosscat_cc_colno db generator_id colno in
                    Ok (fake_row_id, cc))
              colnos in
  let* raw_outputs := engine_simple_predictive_sample M_c X_L_list X_D_list
                        Y Q numpredictions in
  mapM (fun raw_output : list pyfloat =>
          mapM (fun cc : Z * pyfloat =>
                  crosscat_code_to_value db generator_id M_c cc.1 cc.2)
            (zip colnos raw_output))
    raw_outputs.

(** [db'] is [db] with rows of one generator added to the metadata,
    column and code map tables, and nothing else changed. *)
Definition generator_rows_added (generator_id : Z) (db db' : store) : Prop :=
  bayesdb_generator db' = bayesdb_generator db /\
  bayesdb_column db' = bayesdb_column db /\
  bayesdb_generator_column db' = bayesdb_generator_column db /\
  bayesdb_generator_model db' = bayesdb_generator_model db /\
  user_tables db' = user_tables db /\
  bayesdb_crosscat_theta db' = bayesdb_crosscat_theta db /\
  (exists rows,
     bayesdb_crosscat_metadata db' = bayesdb_crosscat_metadata db ++ rows /\
     Forall (fun r => md_generator_id r = generator_id) rows) /\
  (exists rows,
     bayesdb_crosscat_column db' = bayesdb_crosscat_column db ++ rows /\
     Forall (fun r => ccol_generator_id r = generator_id) rows) /\
  (exists rows,
     bayesdb_crosscat_column_codemap db' =
       bayesdb_crosscat_column_codemap db ++ rows /\
     Forall (fun r => cm_generator_id r = generator_id) rows).

(** No crosscat table of [db] holds a row of the generator. *)
Definition generator_absent (generator_id : Z) (db : store) : Prop :=
  Forall (fun r => md_generator_id r <> generator_id)
    (bayesdb_crosscat_metadata db) /\
  Forall (fun r => ccol_generator_id r <> generator_id)
    (bayesdb_crosscat_column db) /\
  Forall (fun r => cm_generator_id r <> generator_id)
    (bayesdb_crosscat_column_codemap db) /\
  Forall (fun r => th_generator_id r <> generator_id)
    (bayesdb_crosscat_theta db).

(** A list of values in strictly ascending SQL order. *)
Definition sql_ascending (l : list pyval) : Prop :=
  StronglySorted (fun a b => sql_compare a b = Lt) l.

(** A sampler for the examples: every chain starts with all columns in
    view 0 and all rows in cluster 0; imputation answers code 1 with
    confidence 9/10; every sample is a row of zeros. *)
Definition example_initial_XL : XL :=
  {| column_partition_assignments := [0; 0]; XL_rest := 0 |}.

Definition example_sampler : CrosscatSampler :=
  {| engine_initialize := fun _ T n_chains _ _ =>
       Ok (match (n_chains =? 1)%nat as b
                 return (if b then (XL * XD)%type
                         else (list XL * list XD)%type)
           with
           | true => (example_initial_XL, [(fun _ => 0) <$> T])
           | false => (replicate n_chains example_initial_XL,
                       replicate n_chains [(fun _ => 0) <$> T])
           end);
     engine_impute_and_confidence := fun _ _ _ _ _ _ =>
       Ok (FNum 1, FNum (9 # 10));
     engine_simple_predictive_sample := fun _ _ _ _ Q n =>
       Ok (replicate (Z.to_nat n) ((fun _ => FNum 0) <$> Q)) |}.

(** The example table without its rows. *)
Definition empty_table_generator : store :=
  with_user_tables example_generator
    {[ "t" := {| ut_columns := ["color"; "height"; "name"];
                 ut_rows := [] |} ]}.

(** [db'] is [db] with [n] rows appended to the user table [table], and
    nothing else changed. *)
Definition rows_appended (table : string) (n : nat) (db db' : store) : Prop :=
  with_user_tables db' (user_tables db) = db /\
  (forall other : string,
     other <> table -> user_tables db' !! other = user_tables db !! other) /\
  match user_tables db !! table with
  | Some t =>
      exists new : list (list pyval),
        length new = n /\
        user_tables db' !! table =
          Some {| ut_columns := ut_columns t; ut_rows := ut_rows t ++ new |}
  | None => user_tables db' !! table = None
  end.

(** What the loop of [insertmany] over the table's column names keeps
    true of [remap] once the names before position [j] have been seen. *)
Definition remap_invariant
    (modelled_column_names sql_column_names : list string) (j : Z)
    (remap : list Z) : Prop :=
  (length remap <= length modelled_column_names)%nat /\
  (forall (k : nat) (i : Z),
     remap !! k = Some i ->
     0 <= i < j /\
     exists name modelled : string,
       sql_column_names !! Z.to_nat i = Some name /\
       modelled_column_names !! k = Some modelled /\
       casefold name = casefold modelled) /\
  (forall (k k' : nat) (i i' : Z),
     (k < k')%nat -> remap !! k = Some i -> remap !! k' = Some i' -> i < i').

(** The example generator with two models registered and not yet
    initialized. *)
Definition example_registered : store :=
  with_generator_model example_generator
    [ {| gm_generator_id := 1; gm_modelno := 0; gm_iterations := 0 |};
      {| gm_generator_id := 1; gm_modelno := 1; gm_iterations := 0 |} ].

(** The example generator with two models registered, of which model 0
    is initialized. *)
Definition example_initialized : store :=
  (@initialize example_floats example_sampler example_registered 1 [0]
     None).2.

(** The example generator over a table whose one row holds a colour the
    code map was not built from. *)
Definition unknown_category_generator : store :=
  with_user_tables example_generator
    {[ "t" := {| ut_columns := ["color"; "height"; "name"];
                 ut_rows := [ [PStr "c"; PInt 4; PStr "w"] ] |} ]}.

(** The example store after two batches of one step: the counter of
    model 1 has moved by two. *)
Definition example_analyzed : store :=
  with_generator_model example_models
    [ {| gm_generator_id := 1; gm_modelno := 0; gm_iterations := 0 |};
      {| gm_generator_id := 1; gm_modelno := 1; gm_iterations := 2 |} ].

(** ** Lemmas on the helpers *)

Lemma bind_ok {A B} (r : result A) (k : A -> result B) (b : B) :
  bind r k = Ok b -> exists a, r = Ok a /\ k a = Ok b.
Proof. destruct r as [a|e]; simpl; [eauto | discriminate]. Qed.

Lemma py_index_nonneg {A} (l : list A) (i : Z) (x : A) :
  0 <= i -> l !! Z.to_nat i = Some x -> py_index l i = Ok x.
Proof.
  intros Hi Hx. unfold py_index.
  destruct (0 <=? i) eqn:E; [| apply Z.leb_gt in E; lia].
  now rewrite Hx.
Qed.

Lemma py_index_nat {A} (l : list A) (i : nat) :
  py_index l (Z.of_nat i) = or_raise (l !! i) IndexError.
Proof.
  unfold py_index.
  destruct (0 <=? Z.of_nat i) eqn:E; [| apply Z.leb_gt in E; lia].
  now rewrite Nat2Z.id.
Qed.

Lemma mapM_lookup {A B} (f : A -> result B) (l : list A) (ys : list B) :
  mapM f l = Ok ys ->
  forall i x, l !! i = Some x -> exists y, ys !! i = Some y /\ f x = Ok y.
Proof.
  revert ys. induction l as [|a l IH]; intros ys Hm i x Hx.
  - destruct i; discriminate.
  - simpl in Hm. apply bind_ok in Hm as (y & Hy & Hm).
    apply bind_ok in Hm as (ys' & Hys & Hm). injection Hm as <-.
    destruct i as [|i]; simpl in *.
    + injection Hx as <-. eauto.
    + eauto.
Qed.

Lemma mapM_raise {A B} (f : A -> result B) (l : list A) (x : A) (e : pyerr) :
  In x l -> f x = Raise e -> exists e', mapM f l = Raise e'.
Proof.
  induction l as [|a l IH]; intros Hin Hf; [destruct Hin |].
  simpl. destruct Hin as [-> | Hin].
  - rewrite Hf. simpl. eauto.
  - destruct (f a); simpl; [| eauto].
    destruct (IH Hin Hf) as [e' ->]. simpl. eauto.
Qed.

Lemma mapM_length {A B} (f : A -> result B) (l : list A) (ys : list B) :
  mapM f l = Ok ys -> length ys = length l.
Proof.
  revert ys. induction l as [|a l IH]; intros ys Hm; simpl in Hm.
  - now injection Hm as <-.
  - apply bind_ok in Hm as (y & _ & Hm).
    apply bind_ok in Hm as (ys' & Hys & Hm). injection Hm as <-.
    simpl. f_equal. auto.
Qed.

(** A list has an element other than its first exactly when [unique]
    leaves more than one. *)
Lemma more_than_one_cluster_unique (l : list Z) :
  more_than_one_cluster l = negb (Z.of_nat (length (unique l)) <=? 1).
Proof.
  unfold unique. destruct l as [|c l]; [reflexivity |]. simpl.
  assert (Hall : forall l', existsb (fun c' => negb (c' =? c)) l' = false ->
                 forall y, y ∈ l' -> y = c).
  { intros l' He y Hy. apply list_elem_of_In in Hy.
    destruct (Z.eq_dec y c) as [|Hne]; [done |].
    assert (existsb (fun c' => negb (c' =? c)) l' = true); [| congruence].
    apply existsb_exists. exists y. split; [done |].
    apply negb_true_iff, Z.eqb_neq. done. }
  destruct (existsb _ l) eqn:He.
  - apply existsb_exists in He as (y & Hy & Hne).
    apply negb_true_iff, Z.eqb_neq in Hne. apply list_elem_of_In in Hy.
    symmetry. apply negb_true_iff, Z.leb_gt.
    destruct (decide_rel elem_of c l) as [Hc|Hc].
    + assert (Hsub : [c; y] ⊆+ remove_dups l).
      { apply NoDup_submseteq.
        - apply NoDup_cons. split; [| apply NoDup_singleton].
          rewrite list_elem_of_singleton. congruence.
        - intros z Hz. apply elem_of_remove_dups.
          apply elem_of_cons in Hz as [-> | Hz]; [done |].
          apply list_elem_of_singleton in Hz as ->. done. }
      apply submseteq_length in Hsub. simpl in Hsub. lia.
    + simpl. assert (Hy' : y ∈ remove_dups l) by now apply elem_of_remove_dups.
      destruct (remove_dups l); [by apply elem_of_nil in Hy' |]. simpl. lia.
  - specialize (Hall l He). symmetry. apply negb_false_iff, Z.leb_le.
    destruct (decide_rel elem_of c l) as [Hc|Hc].
    + pose proof (NoDup_remove_dups l) as Hnd.
      destruct (remove_dups l) as [|a [|b r]] eqn:Er; simpl; try lia.
      exfalso. apply NoDup_cons in Hnd as [Hab _]. apply Hab.
      assert (a = c) by (apply Hall, elem_of_remove_dups; rewrite Er; set_solver).
      assert (b = c) by (apply Hall, elem_of_remove_dups; rewrite Er; set_solver).
      subst. set_solver.
    + simpl. destruct l as [|y l']; [simpl; lia |].
      exfalso. apply Hc. rewrite <- (Hall y); set_solver.
Qed.

Lemma float_div_of_Z (a b : Z) :
  b <> 0 ->
  float_div (float_of_Z a) (float_of_Z b) =
    Ok (FNum (inject_Z a / inject_Z b)).
Proof.
  intros Hb. unfold float_div, float_of_Z.
  destruct (Qeq_bool (inject_Z b) 0) eqn:E; [| reflexivity].
  apply Qeq_bool_eq in E. unfold Qeq in E. simpl in E. lia.
Qed.

(** ** Column dependence *)

Lemma dependence_loop_spec (cc0 cc1 : Z) (cells : list sqlarg) :
  forall (thetas : list theta) (count nmodels : Z),
    mapM json_loads_theta cells = Ok thetas ->
    Forall (theta_covers cc0) thetas ->
    Forall (theta_covers cc1) thetas ->
    dependence_loop cc0 cc1 cells count nmodels =
      Ok (count +
            Z.of_nat (length (List.filter (dependent_in cc0 cc1) thetas)),
          nmodels + Z.of_nat (length thetas)).
Proof.
  induction cells as [|cell cells IH]; intros thetas count nmodels Hm H0 H1.
  - injection Hm as <-. clear H0 H1. simpl. f_equal. f_equal; lia.
  - simpl in Hm. apply bind_ok in Hm as (t & Ht & Hm).
    apply bind_ok in Hm as (ts & Hts & Hm). injection Hm as <-.
    apply Forall_cons in H0 as [(Hc0 & a0 & cl0 & Ha0 & Hpos0 & Hcl0) H0].
    apply Forall_cons in H1 as [(Hc1 & a1 & cl1 & Ha1 & Hpos1 & Hcl1) H1].
    assert (Hd : dependent_in cc0 cc1 t =
                 (a0 =? a1) && negb (Z.of_nat (length (unique cl0)) <=? 1)).
    { unfold dependent_in. rewrite Ha0, Ha1.
      destruct (a0 =? a1); simpl; [| done].
      rewrite Hcl0. apply more_than_one_cluster_unique. }
    cbn [dependence_loop List.filter]. rewrite Ht, Hd. simpl.
    rewrite (py_index_nonneg _ _ _ Hc0 Ha0). simpl.
    rewrite (py_index_nonneg _ _ _ Hc1 Ha1). simpl.
    destruct (a0 =? a1) eqn:Ea; simpl.
    + rewrite (py_index_nonneg _ _ _ Hpos0 Hcl0). simpl.
      destruct (Z.of_nat (length (unique cl0)) <=? 1); simpl;
        rewrite (IH ts _ _ Hts H0 H1); clear; f_equal; f_equal; lia.
    + rewrite (IH ts _ _ Hts H0 H1). clear. f_equal. f_equal; lia.
Qed.

Lemma column_dependence_probability_distinct (db : store)
    (generator_id colno0 colno1 cc0 cc1 : Z) (thetas : list theta) :
  colno0 <> colno1 ->
  crosscat_cc_colno db generator_id colno0 = Ok cc0 ->
  crosscat_cc_colno db generator_id colno1 = Ok cc1 ->
  crosscat_thetas db generator_id = Ok thetas ->
  Forall (theta_covers cc0) thetas ->
  Forall (theta_covers cc1) thetas ->
  let N := Z.of_nat (length thetas) in
  let count :=
    Z.of_nat (length (List.filter (dependent_in cc0 cc1) thetas)) in
  column_dependence_probability db generator_id colno0 colno1
    = Ok (PFloat (if N =? 0 then FNaN
                  else FNum (inject_Z count / inject_Z N))).
Proof.
  intros Hne Hcc0 Hcc1 Hth H0 H1 N count.
  unfold column_dependence_probability.
  destruct (colno0 =? colno1) eqn:E; [apply Z.eqb_eq in E; done |].
  rewrite Hcc0, Hcc1. simpl.
  unfold crosscat_thetas in Hth.
  rewrite (dependence_loop_spec cc0 cc1 _ thetas 0 0 Hth H0 H1).
  cbn [bind]. fold N. fold count. rewrite !Z.add_0_l.
  destruct (N =? 0) eqn:EN; [reflexivity |].
  apply Z.eqb_neq in EN.
  pose proof (float_div_of_Z count N EN) as Hdiv.
  unfold float_div, float_of_Z in Hdiv. rewrite Hdiv. reflexivity.
Qed.

(** C3.  [column_dependence_probability(c0, c1)] is 1 when the two columns
    are the same.  Otherwise, for two columns that have a compacted index
    and models whose state covers them, it is NaN when no model is stored,
    and else [count / N]: [N] counts every stored model and [count] the
    models in which the two columns lie in one view whose rows fall in
    more than one cluster. *)
Theorem column_dependence_probability_spec (db : store)
    (generator_id colno0 colno1 : Z) :
  (colno0 = colno1 ->
   column_dependence_probability db generator_id colno0 colno1
     = Ok (PInt 1)) /\
  (forall (cc0 cc1 : Z) (thetas : list theta),
     colno0 <> colno1 ->
     crosscat_cc_colno db generator_id colno0 = Ok cc0 ->
     crosscat_cc_colno db generator_id colno1 = Ok cc1 ->
     crosscat_thetas db generator_id = Ok thetas ->
     Forall (theta_covers cc0) thetas ->
     Forall (theta_covers cc1) thetas ->
     let N := Z.of_nat (length thetas) in
     let count :=
       Z.of_nat (length (List.filter (dependent_in cc0 cc1) thetas)) in
     column_dependence_probability db generator_id colno0 colno1
       = Ok (PFloat (if N =? 0 then FNaN
                     else FNum (inject_Z count / inject_Z N)))).
Proof.
  split.
  - intros ->. unfold column_dependence_probability.
    now rewrite Z.eqb_refl.
  - intros cc0 cc1 thetas. apply column_dependence_probability_distinct.
Qed.

(** ** Mutual information without models *)



(** ** The probability of a value *)

(** C5.  Codifying a value of a categorical column that is not null and
    has no code in the column's code map raises [KeyError], and
    [column_value_probability] of such a value is 0.  For a value that has
    a code, with at least one model stored, the engine is asked about the
    row id [len(X_D_list[0][0])], one past the rows the engine holds, and
    the result is [exp] of the log-probability it returns. *)
Theorem column_value_probability_spec `{PyFloats} `{CrosscatEngine}
    (db : store) (generator_id colno : Z) (value : pyval) (M_c : metadata) :
  crosscat_metadata db generator_id = Ok M_c ->
  (forall (cc : Z) (cm : column_metadata),
     bayesdb_generator_column_stattype db generator_id colno
       = Ok "categorical" ->
     value <> PNone ->
     crosscat_cc_colno db generator_id colno = Ok cc ->
     py_index (column_metadata_list M_c) cc = Ok cm ->
     code_to_value cm !! unicode value = None ->
     crosscat_value_to_code db generator_id M_c colno value = Raise KeyError /\
     column_value_probability db generator_id colno value = Ok (PInt 0)) /\
  (forall (code : pyfloat) (cc : Z) (t : theta) (thetas : list theta)
          (view0 : list Z) (views : list (list Z)),
     crosscat_value_to_code db generator_id M_c colno value = Ok code ->
     crosscat_thetas db generator_id = Ok (t :: thetas) ->
     X_D t = view0 :: views ->
     crosscat_cc_colno db generator_id colno = Ok cc ->
     column_value_probability db generator_id colno value =
       let* r := engine_simple_predictive_probability_multistate M_c
                   (X_L <$> t :: thetas) (X_D <$> t :: thetas) []
                   [(Z.of_nat (length view0), cc, code)] in
       Ok (PFloat (math_exp r))).
Proof.
  intros Hmeta. split.
  - intros cc cm Hst Hnn Hcc Hcm Hkey.
    assert (Hraise : crosscat_value_to_code db generator_id M_c colno value
                     = Raise KeyError).
    { unfold crosscat_value_to_code. rewrite Hst. cbn [bind].
      rewrite bool_decide_eq_true_2 by done.
      destruct value; try done; rewrite Hcc; cbn [bind]; rewrite Hcm;
        cbn [bind]; now rewrite Hkey. }
    split; [exact Hraise |].
    unfold column_value_probability. rewrite Hmeta. simpl.
    now rewrite Hraise.
  - intros code cc t thetas view0 views Hcode Hth Hview Hcc.
    unfold column_value_probability, crosscat_latent_state,
      crosscat_latent_data.
    rewrite Hmeta. simpl. rewrite Hcode, Hth. simpl.
    rewrite Hview. simpl. rewrite Hcc. reflexivity.
Qed.

(** ** Key columns *)

Lemma create_metadata_key_raises (db : store) (table colno : Z) :
  create_metadata_key db table colno = Raise (NameError "generator_id").
Proof. reflexivity. Qed.

(** C9.  [create_generator] with a column list that holds a column of
    statistical type [key] raises, whatever the store, and leaves the
    store as it was: building the metadata of a key column raises
    [NameError] for the unbound name [generator_id]. *)
Theorem create_generator_key_fails `{PyFloats} (db : store)
    (generator_id : Z) (column_list : list column_spec)
    (colno : Z) (name stattype : string) :
  In (colno, name, stattype) column_list ->
  casefold stattype = "key" ->
  (forall table, create_metadata_key db table colno
                   = Raise (NameError "generator_id")) /\
  exists e, create_generator db generator_id column_list = (Raise e, db).
Proof.
  intros Hin Hkey. split; [intros; apply create_metadata_key_raises |].
  unfold create_generator, savepoint, create_metadata.
  destruct (mapM_raise
              (fun c : column_spec =>
                 let* creator := metadata_creators (casefold c.2) in
                 creator db generator_id c.1.1)
              column_list (colno, name, stattype)
              (NameError "generator_id") Hin) as [e He].
  { simpl. rewrite Hkey. reflexivity. }
  rewrite He. simpl. eauto.
Qed.

(** ** The round trip of the codec *)

Lemma dict_of_items_notin {V} (items : list (string * V)) (k : string) :
  forall m : gmap string V,
    k ∉ items.*1 ->
    foldl (fun m kv => <[kv.1 := kv.2]> m) m items !! k = m !! k.
Proof.
  induction items as [|[k' v'] items IH]; intros m Hk; [done |].
  simpl in *. apply not_elem_of_cons in Hk as [Hne Hk].
  rewrite IH by done. now apply lookup_insert_ne.
Qed.

Lemma dict_of_items_lookup {V} (items : list (string * V)) (k : string)
    (v : V) :
  NoDup (items.*1) -> (k, v) ∈ items -> dict_of_items items !! k = Some v.
Proof.
  unfold dict_of_items. generalize (∅ : gmap string V).
  induction items as [|[k' v'] items IH]; intros m Hnd Hin.
  - by apply elem_of_nil in Hin.
  - simpl in *. apply NoDup_cons in Hnd as [Hk' Hnd].
    apply elem_of_cons in Hin as [Heq | Hin].
    + injection Heq as -> ->.
      rewrite dict_of_items_notin by done. apply lookup_insert_eq.
    + now apply IH.
Qed.

Lemma int_of_float_of_Z (i : Z) : int_of_float (float_of_Z i) = Ok i.
Proof.
  unfold int_of_float, float_of_Z.
  destruct (Qle_bool 0 (inject_Z i)); f_equal.
  - apply Qfloor_Z.
  - apply Qceiling_Z.
Qed.

Lemma range_lookup (n i : nat) :
  (i < n)%nat -> range n !! i = Some (Z.of_nat i).
Proof.
  intros Hi. unfold range. rewrite list_lookup_fmap.
  now rewrite lookup_seq_lt.
Qed.

Lemma range_length (n : nat) : length (range n) = n.
Proof. unfold range. now rewrite length_fmap, length_seq. Qed.

Lemma range_NoDup (n : nat) : NoDup (pretty <$> range n).
Proof.
  unfold range. rewrite <- list_fmap_compose.
  apply NoDup_fmap_2; [| apply NoDup_seq].
  intros a b Hab. simpl in Hab. apply (inj pretty) in Hab. lia.
Qed.

Lemma zip_keys {A B} (f : A -> string) (l : list A) :
  forall k : list B,
    (length l <= length k)%nat ->
    ((fun kv : A * B => (f kv.1, kv.2)) <$> zip l k).*1 = f <$> l.
Proof.
  induction l as [|a l IH]; intros [|b k] Hlen; simpl in *; try done;
    [lia |].
  f_equal. apply IH. lia.
Qed.

Section CategoricalCodes.
Context `{PyFloats}.
Variable codes : list pyval.
Hypothesis codes_distinct : NoDup (json_key <$> codes).

Lemma categorical_code_to_value (i : nat) (v : pyval) :
  codes !! i = Some v ->
  code_to_value (categorical_metadata codes) !! json_key v
    = Some (Z.of_nat i).
Proof.
  intros Hi. unfold categorical_metadata, json_column_metadata. simpl.
  apply dict_of_items_lookup.
  - rewrite zip_keys by (rewrite range_length; lia). done.
  - apply list_elem_of_fmap. exists (v, Z.of_nat i). split; [done |].
    apply list_elem_of_lookup. exists i.
    apply lookup_zip_with_Some. exists v, (Z.of_nat i).
    split; [done |]. split; [done |].
    apply range_lookup. now apply lookup_lt_Some in Hi.
Qed.

Lemma categorical_value_to_code (i : nat) (v : pyval) :
  codes !! i = Some v ->
  value_to_code (categorical_metadata codes) !! pretty (Z.of_nat i)
    = Some v.
Proof.
  intros Hi. unfold categorical_metadata, json_column_metadata. simpl.
  apply dict_of_items_lookup.
  - rewrite zip_keys by (rewrite range_length; lia). apply range_NoDup.
  - apply list_elem_of_fmap. exists (Z.of_nat i, v). split; [done |].
    apply list_elem_of_lookup. exists i.
    apply lookup_zip_with_Some. exists (Z.of_nat i), v.
    split; [done |]. split; [| done].
    apply range_lookup. now apply lookup_lt_Some in Hi.
Qed.

End CategoricalCodes.








(** ** The compacted column numbers of a new generator *)

Lemma enumerate_from_lookup {A} (l : list A) :
  forall (k : Z) (i : nat) (x : A),
    l !! i = Some x -> In (k + Z.of_nat i, x) (enumerate_from k l).
Proof.
  induction l as [|a l IH]; intros k i x Hi; [destruct i; discriminate |].
  destruct i as [|i]; simpl in Hi; cbn [enumerate_from].
  - injection Hi as <-. left. f_equal. lia.
  - right. replace (k + Z.of_nat (S i)) with (k + 1 + Z.of_nat i) by lia.
    now apply IH.
Qed.

Lemma savepoint_ok {A} (body : store -> result (A * store)) (db db' : store)
    (a : A) :
  savepoint body db = (Ok a, db') -> body db = Ok (a, db').
Proof.
  unfold savepoint. destruct (body db) as [[a' d]|e]; intros Heq;
    now inversion Heq.
Qed.

Lemma savepoint_raise {A} (body : store -> result (A * store))
    (db db' : store) (e : pyerr) :
  savepoint body db = (Raise e, db') -> db' = db.
Proof.
  unfold savepoint. destruct (body db) as [[a' d]|e']; intros Heq;
    now inversion Heq.
Qed.

Lemma insert_metadata_sql_columns (db db' : store) (generator_id : Z)
    (m : metadata) :
  insert_metadata_sql db generator_id m = Ok db' ->
  bayesdb_crosscat_column db' = bayesdb_crosscat_column db.
Proof.
  unfold insert_metadata_sql. case_bool_decide; [discriminate |].
  now intros [= <-].
Qed.

Lemma insert_codemap_sql_columns `{PyFloats} (db db' : store)
    (generator_id cc code : Z) (value : pyval) :
  insert_codemap_sql db generator_id cc code value = Ok db' ->
  bayesdb_crosscat_column db' = bayesdb_crosscat_column db.
Proof.
  unfold insert_codemap_sql. destruct (sqlite_text value); [| discriminate].
  destruct (negb (0 <=? cc)); [discriminate |].
  case_bool_decide; [discriminate |]. now intros [= <-].
Qed.

Lemma insert_codemap_rows_columns `{PyFloats} (generator_id cc : Z)
    (codemap : list (Z * pyval)) :
  forall db db' : store,
    insert_codemap_rows db generator_id cc codemap = Ok db' ->
    bayesdb_crosscat_column db' = bayesdb_crosscat_column db.
Proof.
  induction codemap as [|[code value] codemap IH]; intros db db' Hins;
    simpl in Hins.
  - now injection Hins as <-.
  - apply bind_ok in Hins as (db1 & H1 & Hins).
    rewrite (IH _ _ Hins). eapply insert_codemap_sql_columns, H1.
Qed.

(** What a successful [insert_column_sql] establishes. *)
Lemma insert_column_sql_ok (db db' : store) (generator_id colno cc : Z)
    (disttype : string) :
  insert_column_sql db generator_id colno cc disttype = Ok db' ->
  bayesdb_crosscat_column db' =
    bayesdb_crosscat_column db ++
      [{| ccol_generator_id := generator_id; ccol_colno := colno;
          ccol_cc_colno := cc; ccol_disttype := disttype |}] /\
  Forall (fun r => ~ (ccol_generator_id r = generator_id /\
                      ccol_colno r = colno))
    (bayesdb_crosscat_column db) /\
  Forall (fun r => ~ (ccol_generator_id r = generator_id /\
                      ccol_cc_colno r = cc))
    (bayesdb_crosscat_column db).
Proof.
  unfold insert_column_sql.
  destruct (negb ((0 <=? colno) && (0 <=? cc))); [discriminate |].
  case_bool_decide as E1; [discriminate |].
  case_bool_decide as E2; [discriminate |].
  intros [= <-]. split; [reflexivity |].
  split; apply Forall_forall; intros r Hr Hk.
  - apply E1, Exists_exists. eauto.
  - apply E2, Exists_exists. eauto.
Qed.

Lemma filter_none {A} (P : A -> Prop) `{forall x, Decision (P x)}
    (l : list A) :
  Forall (fun x => ~ P x) l -> filter P l = [].
Proof.
  induction 1 as [|x l Hx _ IH]; [reflexivity |].
  now rewrite filter_cons_False.
Qed.

Lemma crosscat_cc_colno_app (db db' : store) (generator_id colno cc : Z)
    (extra : list crosscat_column_row) :
  bayesdb_crosscat_column db' = bayesdb_crosscat_column db ++ extra ->
  crosscat_cc_colno db generator_id colno = Ok cc ->
  crosscat_cc_colno db' generator_id colno = Ok cc.
Proof.
  unfold crosscat_cc_colno, cursor_next. intros -> Hcc.
  rewrite filter_app.
  destruct (filter _ (bayesdb_crosscat_column db)) as [|r rs];
    [discriminate | exact Hcc].
Qed.

Lemma crosscat_cc_colno_fresh (db db' : store) (generator_id colno cc : Z)
    (disttype : string) :
  bayesdb_crosscat_column db' =
    bayesdb_crosscat_column db ++
      [{| ccol_generator_id := generator_id; ccol_colno := colno;
          ccol_cc_colno := cc; ccol_disttype := disttype |}] ->
  Forall (fun r => ~ (ccol_generator_id r = generator_id /\
                      ccol_colno r = colno))
    (bayesdb_crosscat_column db) ->
  crosscat_cc_colno db' generator_id colno = Ok cc.
Proof.
  unfold crosscat_cc_colno, cursor_next. intros -> Hfresh.
  rewrite filter_app.
  replace (filter _ (bayesdb_crosscat_column db)) with
    (@nil crosscat_column_row).
  - simpl. rewrite filter_cons_True by done. reflexivity.
  - symmetry. apply filter_none. exact Hfresh.
Qed.

Lemma insert_column_sql_keys_unique (db db' : store)
    (generator_id colno cc : Z) (disttype : string) :
  insert_column_sql db generator_id colno cc disttype = Ok db' ->
  crosscat_column_keys_unique db -> crosscat_column_keys_unique db'.
Proof.
  intros Hins [Hk1 Hk2].
  apply insert_column_sql_ok in Hins as (Heq & Hf1 & Hf2).
  unfold crosscat_column_keys_unique. rewrite Heq, !fmap_app. simpl.
  split; apply NoDup_app; (split; [done |]);
    (split; [| apply NoDup_singleton]);
    intros k Hk Hin; apply list_elem_of_singleton in Hin as ->;
    apply list_elem_of_fmap in Hk as (r & Hr & Hin).
  - rewrite Forall_forall in Hf1. apply (Hf1 r Hin).
    now inversion Hr.
  - rewrite Forall_forall in Hf2. apply (Hf2 r Hin).
    now inversion Hr.
Qed.

Lemma insert_columns_spec `{PyFloats} (generator_id : Z)
    (metadata : raw_metadata) (columns : list (Z * column_spec)) :
  forall db db' : store,
    insert_columns db generator_id metadata columns = Ok db' ->
    (exists extra,
       bayesdb_crosscat_column db' = bayesdb_crosscat_column db ++ extra) /\
    (forall cc colno name stattype,
       In (cc, (colno, name, stattype)) columns ->
       crosscat_cc_colno db' generator_id colno = Ok cc /\
       exists cmeta,
         py_index (raw_column_metadata_list metadata) cc = Ok cmeta /\
         In {| ccol_generator_id := generator_id; ccol_colno := colno;
               ccol_cc_colno := cc; ccol_disttype := raw_modeltype cmeta |}
           (bayesdb_crosscat_column db')) /\
    (crosscat_column_keys_unique db -> crosscat_column_keys_unique db').
Proof.
  induction columns as [|[cc0 [[colno0 name0] st0]] columns IH];
    intros db db' Hins; simpl in Hins.
  - injection Hins as <-. split; [exists []; now rewrite app_nil_r |].
    split; [intros ? ? ? ? [] | done].
  - apply bind_ok in Hins as (cmeta0 & Hmeta0 & Hins).
    apply bind_ok in Hins as (db1 & Hcol & Hins).
    apply bind_ok in Hins as (db2 & Hmap & Hins).
    pose proof (insert_column_sql_ok _ _ _ _ _ _ Hcol) as (Heq1 & Hf1 & _).
    pose proof (insert_codemap_rows_columns _ _ _ _ _ Hmap) as Heq2.
    destruct (IH _ _ Hins) as ((extra & Heq) & Hrest & Huniq).
    assert (Heq' : bayesdb_crosscat_column db' =
                   bayesdb_crosscat_column db1 ++ extra)
      by now rewrite Heq, Heq2.
    split; [| split].
    + eexists. rewrite Heq', Heq1, <- app_assoc. reflexivity.
    + intros cc colno name stattype [Hhd | Htl].
      * injection Hhd as <- <- <- <-. split.
        -- apply (crosscat_cc_colno_app db1 db' _ _ _ extra Heq').
           eapply crosscat_cc_colno_fresh; eassumption.
        -- exists cmeta0. split; [done |].
           rewrite Heq', Heq1. apply in_or_app. left.
           apply in_or_app. right. now left.
      * exact (Hrest cc colno name stattype Htl).
    + intros Hu. apply Huniq.
      pose proof (insert_column_sql_keys_unique _ _ _ _ _ _ Hcol Hu) as Hu1.
      unfold crosscat_column_keys_unique in *. now rewrite Heq2.
Qed.

(** C7, as amended.  When [create_generator] succeeds, every column of
    [column_list], ignored columns included, has as [cc_colno] its position
    in the list, so the numbers are dense from 0 in list order; an ignored
    column is stored with the disttype [ignore]; and the keys
    [(generator_id, colno)] and [(generator_id, cc_colno)] stay unique. *)
Theorem create_generator_cc_colno `{PyFloats} (db db' : store)
    (generator_id : Z) (column_list : list column_spec) :
  create_generator db generator_id column_list = (Ok tt, db') ->
  (forall (i : nat) (colno : Z) (name stattype : string),
     column_list !! i = Some (colno, name, stattype) ->
     crosscat_cc_colno db' generator_id colno = Ok (Z.of_nat i)) /\
  (forall (i : nat) (colno : Z) (name stattype : string),
     column_list !! i = Some (colno, name, stattype) ->
     casefold stattype = "ignore" ->
     In {| ccol_generator_id := generator_id; ccol_colno := colno;
           ccol_cc_colno := Z.of_nat i; ccol_disttype := "ignore" |}
       (bayesdb_crosscat_column db')) /\
  (crosscat_column_keys_unique db -> crosscat_column_keys_unique db').
Proof.
  intros Hcreate. unfold create_generator in Hcreate.
  apply savepoint_ok in Hcreate.
  apply bind_ok in Hcreate as (md & Hmd & Hcreate).
  apply bind_ok in Hcreate as (db1 & Hins & Hcreate).
  apply bind_ok in Hcreate as (db2 & Hcols & Hcreate).
  injection Hcreate as <-.
  pose proof (insert_metadata_sql_columns _ _ _ _ Hins) as Heq1.
  destruct (insert_columns_spec _ _ _ _ _ Hcols) as (_ & Hall & Huniq).
  split; [| split].
  - intros i colno name stattype Hi.
    apply (enumerate_from_lookup _ 0) in Hi.
    now destruct (Hall _ _ _ _ Hi) as [Hcc _].
  - intros i colno name stattype Hi Hignore.
    pose proof (enumerate_from_lookup _ 0 _ _ Hi) as Hin.
    destruct (Hall _ _ _ _ Hin) as (_ & cmeta & Hidx & Hrow).
    unfold create_metadata in Hmd.
    apply bind_ok in Hmd as (cms & Hcms & Hmd). injection Hmd as <-.
    simpl in Hidx.
    destruct (mapM_lookup _ _ _ Hcms _ _ Hi) as (y & Hy & Hcreator).
    simpl in Hcreator. rewrite Hignore in Hcreator. simpl in Hcreator.
    unfold create_metadata_ignore in Hcreator.
    apply bind_ok in Hcreator as (m0 & _ & Hy0). injection Hy0 as <-.
    replace (0 + Z.of_nat i) with (Z.of_nat i) in * by lia.
    rewrite py_index_nat, Hy in Hidx. injection Hidx as <-.
    exact Hrow.
  - intros Hu. apply Huniq. unfold crosscat_column_keys_unique in *.
    now rewrite Heq1.
Qed.

(** ** Termination of the analysis loop *)

Section AnalyzeLoop.
Context `{CrosscatEngine}.
Variable clock : nat -> Q.
Variables (M_c : metadata) (T : data_matrix) (generator_id : Z).
Variable modelnos : option (list Z).

(** With an iteration budget the loop returns within as many batches as
    the budget. *)
Lemma analyze_loop_iterations (max_seconds deadline : option Q) :
  forall (n : nat) (i : Z) (tick : nat) (db : store) (batches : list Z),
    (Z.to_nat i <= n)%nat ->
    exists out,
      analyze_loop (S n) clock tick M_c T generator_id modelnos (Some i)
        max_seconds deadline db batches = Some out.
Proof.
  induction n as [|n IH]; intros i tick db batches Hi;
    cbn [analyze_loop]; destruct (0 <? i) eqn:Epos; cbn [negb]; eauto.
  - apply Z.ltb_lt in Epos. lia.
  - apply Z.ltb_lt in Epos.
    destruct (match deadline with
              | Some d => (negb (Qle_bool d (clock tick)), S tick)
              | None => (true, tick)
              end) as [in_time tick'].
    destruct in_time; cbn [negb]; eauto.
    destruct (savepoint _ db) as [[u|e] db1]; eauto.
    cbn [fmap option_fmap option_map].
    apply IH. destruct max_seconds; lia.
Qed.

(** With a deadline the loop returns once a reading of the clock has
    reached it. *)
Lemma analyze_loop_deadline (s d : Q) :
  forall (m tick : nat) (iterations : option Z) (db : store)
         (batches : list Z),
    Qle d (clock (tick + m)) ->
    exists out,
      analyze_loop (S m) clock tick M_c T generator_id modelnos iterations
        (Some s) (Some d) db batches = Some out.
Proof.
  induction m as [|m IH]; intros tick its db batches Hd;
    cbn [analyze_loop];
    (destruct (negb match its with
                    | Some i => 0 <? i
                    | None => true
                    end); [eauto |]).
  - rewrite Nat.add_0_r in Hd. apply Qle_bool_iff in Hd. rewrite Hd.
    cbn [negb]. eauto.
  - destruct (Qle_bool d (clock tick)); cbn [negb]; eauto.
    destruct (savepoint _ db) as [[u|e] db1]; eauto.
    apply IH. now replace (S tick + m)%nat with (tick + S m)%nat by lia.
Qed.

(** With a budget of [k] iterations and no time bound the loop runs one
    batch, of [k] steps. *)
Lemma analyze_loop_one_batch (k : Z) (fuel tick : nat) (db : store)
    (batches : list Z) :
  0 < k ->
  exists r db',
    analyze_loop (S (S fuel)) clock tick M_c T generator_id modelnos
      (Some k) None None db batches = Some (r, db', batches ++ [k]).
Proof.
  intros Hk. cbn [analyze_loop].
  destruct (0 <? k) eqn:Epos; [| apply Z.ltb_ge in Epos; lia].
  cbn [negb]. destruct (savepoint _ db) as [[u|e] db1]; eauto.
  cbn [fmap option_fmap option_map]. rewrite Z.sub_diag. cbn. eauto.
Qed.

(** When the loop returns normally, the budget is used up or a reading of
    the clock has reached the deadline. *)
Lemma analyze_loop_stops (max_seconds deadline : option Q) :
  forall (fuel tick : nat) (iterations : option Z) (db db' : store)
         (batches bs : list Z),
    analyze_loop fuel clock tick M_c T generator_id modelnos iterations
      max_seconds deadline db batches = Some (Ok tt, db', bs) ->
    (exists i new, iterations = Some i /\ bs = batches ++ new /\
                   i - foldr Z.add 0 new <= 0) \/
    (exists d k, deadline = Some d /\ (tick <= k)%nat /\ Qle d (clock k)).
Proof.
  induction fuel as [|fuel IH]; intros tick its db db' batches bs Hloop;
    [discriminate |].
  cbn [analyze_loop] in Hloop.
  destruct (negb match its with
                 | Some i => 0 <? i
                 | None => true
                 end) eqn:Ebudget.
  { injection Hloop as <- <-. left. destruct its as [i|]; [| discriminate].
    apply negb_true_iff, Z.ltb_ge in Ebudget.
    exists i, []. rewrite app_nil_r. simpl.
    split; [done |]. split; [done | lia]. }
  destruct deadline as [d|].
  - destruct (Qle_bool d (clock tick)) eqn:Ed; cbn [negb] in Hloop.
    { right. exists d, tick. apply Qle_bool_iff in Ed.
      split; [done |]. split; [lia | done]. }
    destruct (savepoint _ db) as [[u|e] db1]; [| discriminate].
    apply IH in Hloop as [(i & new & Hi & Hbs & Hsum) | (d' & k & Hd & Hk & Hle)].
    + left. destruct its as [i0|]; [| discriminate].
      injection Hi as <-. eexists i0, (_ :: new).
      rewrite <- app_assoc in Hbs. split; [done |]. split; [exact Hbs |].
      simpl. lia.
    + right. exists d', k. split; [done |]. split; [lia | done].
  - cbn [negb] in Hloop.
    destruct (savepoint _ db) as [[u|e] db1]; [| discriminate].
    apply IH in Hloop as [(i & new & Hi & Hbs & Hsum) | (d' & k & Hd & _)];
      [| discriminate].
    left. destruct its as [i0|]; [| discriminate].
    injection Hi as <-. eexists i0, (_ :: new).
    rewrite <- app_assoc in Hbs. split; [done |]. split; [exact Hbs |].
    simpl. lia.
Qed.

End AnalyzeLoop.

(** What a run of the loop that returned has done: the batches it
    entered are those [run_batches] runs, each was entered with budget
    left and before the deadline, and a normal return found the budget
    used up or the clock at the deadline. *)
Lemma analyze_loop_runs `{CrosscatEngine} (clock : nat -> Q)
    (M_c : metadata) (T : data_matrix) (generator_id : Z)
    (modelnos : option (list Z)) (max_seconds deadline : option Q) :
  (deadline = None <-> max_seconds = None) ->
  forall (fuel tick : nat) (iterations : option Z) (db db' : store)
         (batches bs : list Z) (r : result unit),
    analyze_loop fuel clock tick M_c T generator_id modelnos iterations
      max_seconds deadline db batches = Some (r, db', bs) ->
    exists new : list Z,
      bs = batches ++ new /\
      run_batches M_c T generator_id modelnos new db = Some (r, db') /\
      (forall (j : nat) (n : Z),
         new !! j = Some n ->
         (forall i, iterations = Some i ->
                    0 < i - foldr Z.add 0 (take j new)) /\
         (forall d, deadline = Some d ->
                    Qle_bool d (clock (tick + j)%nat) = false) /\
         n = match iterations, max_seconds with
             | Some i, None => i - foldr Z.add 0 (take j new)
             | _, _ => 1
             end) /\
      (r = Ok tt ->
       (exists i, iterations = Some i /\ i - foldr Z.add 0 new <= 0) \/
       ((forall i, iterations = Some i -> 0 < i - foldr Z.add 0 new) /\
        exists d, deadline = Some d /\
                  Qle_bool d (clock (tick + length new)%nat) = true)).
Proof.
  intros Hbounds.
  induction fuel as [|fuel IH]; intros tick its db db' batches bs r Hloop;
    [discriminate |].
  cbn [analyze_loop] in Hloop.
  destruct (negb match its with
                 | Some i => 0 <? i
                 | None => true
                 end) eqn:Ebudget.
  { injection Hloop as <- <- <-. exists []. rewrite app_nil_r.
    split; [reflexivity |]. split; [reflexivity |].
    split; [intros j n Hj; destruct j; discriminate |].
    intros _. left. destruct its as [i|]; [| discriminate].
    apply negb_true_iff, Z.ltb_ge in Ebudget. exists i. cbn.
    split; [reflexivity | lia]. }
  assert (Hleft : forall i, its = Some i -> 0 < i).
  { intros i ->. now apply negb_false_iff, Z.ltb_lt in Ebudget. }
  set (n_steps := match its, max_seconds with
                  | Some i, None => i
                  | _, _ => 1
                  end) in *.
  assert (Hintime :
            (exists d, deadline = Some d /\
                       Qle_bool d (clock tick) = true /\
                       Some (Ok tt, db, batches) = Some (r, db', bs)) \/
            (exists tick' : nat,
               (forall d, deadline = Some d ->
                          Qle_bool d (clock tick) = false /\
                          tick' = S tick) /\
               match savepoint
                       (analyze_batch M_c T generator_id modelnos n_steps)
                       db
               with
               | (Raise e, db1) => Some (Raise e, db1, batches ++ [n_steps])
               | (Ok _, db1) =>
                   analyze_loop fuel clock tick' M_c T generator_id
                     modelnos ((fun i => i - n_steps) <$> its) max_seconds
                     deadline db1 (batches ++ [n_steps])
               end = Some (r, db', bs))).
  { destruct deadline as [d|].
    - destruct (Qle_bool d (clock tick)) eqn:Ed; cbn [negb] in Hloop.
      + left. exists d. auto.
      + right. exists (S tick). split; [| exact Hloop].
        intros d' [= <-]. done.
    - cbn [negb] in Hloop. right. exists tick.
      split; [discriminate | exact Hloop]. }
  clear Hloop.
  destruct Hintime as [(d & Hd & Hlate & [= <- <- <-])
                      | (tick' & Htick & Hbody)].
  { exists []. rewrite app_nil_r.
    split; [reflexivity |]. split; [reflexivity |].
    split; [intros j n Hj; destruct j; discriminate |].
    intros _. right. split.
    - intros i Hi. cbn. specialize (Hleft i Hi). lia.
    - exists d. cbn [length]. rewrite Nat.add_0_r. done. }
  assert (Hfirst : forall i, its = Some i -> max_seconds = None ->
                             n_steps = i).
  { intros i -> ->. reflexivity. }
  assert (Hone : max_seconds <> None -> n_steps = 1).
  { subst n_steps. destruct its, max_seconds; congruence. }
  assert (Hunb : its = None -> n_steps = 1).
  { intros ->. reflexivity. }
  destruct (savepoint _ db) as [[u|e] db1] eqn:Hsave.
  - apply IH in Hbody
      as (new & -> & Hrun & Hentered & Hreturn).
    exists (n_steps :: new). rewrite <- app_assoc.
    split; [reflexivity |]. split.
    { cbn [run_batches]. rewrite Hsave. exact Hrun. }
    split.
    + intros [|j] n Hj; cbn in Hj.
      * injection Hj as <-. split; [| split].
        -- intros i Hi. cbn. specialize (Hleft i Hi). lia.
        -- intros d Hd. rewrite Nat.add_0_r. now apply Htick.
        -- cbn [take foldr]. subst n_steps.
           destruct its, max_seconds; try reflexivity. lia.
      * destruct (Hentered j n Hj) as (Hbud & Hclk & Hn).
        split; [| split].
        -- intros i ->. specialize (Hbud (i - n_steps) eq_refl).
           cbn [take foldr]. lia.
        -- intros d Hd. destruct (Htick d Hd) as [_ ->].
           replace (tick + S j)%nat with (S tick + j)%nat by lia.
           now apply Hclk.
        -- rewrite Hn. cbn [take foldr].
           destruct its as [i|], max_seconds as [s|]; cbn; try reflexivity.
           lia.
    + intros Hr. destruct (Hreturn Hr) as [(i & Hi & Hsum) | [Hbud Hlate]].
      * left. destruct its as [i0|]; [| discriminate].
        cbn in Hi. injection Hi as <-. exists i0.
        split; [reflexivity |]. cbn [foldr]. lia.
      * right. split.
        -- intros i ->. specialize (Hbud (i - n_steps) eq_refl).
           cbn [foldr]. lia.
        -- destruct Hlate as (d & Hd & Hlate). exists d.
           split; [exact Hd |]. destruct (Htick d Hd) as [_ ->].
           cbn [length].
           replace (tick + S (length new))%nat
             with (S tick + length new)%nat by lia.
           exact Hlate.
  - injection Hbody as <- <- <-. exists [n_steps].
    split; [reflexivity |]. split.
    { cbn [run_batches]. now rewrite Hsave. }
    split; [| discriminate].
    intros [|j] n Hj; cbn in Hj; [| destruct j; discriminate].
    injection Hj as <-. split; [| split].
    + intros i Hi. cbn. specialize (Hleft i Hi). lia.
    + intros d Hd. rewrite Nat.add_0_r. now apply Htick.
    + cbn [take foldr]. subst n_steps.
      destruct its, max_seconds; try reflexivity. lia.
Qed.

(** C8.  When an iteration budget is given, or a time bound whose deadline
    some later reading of the clock reaches, [analyze] returns: some
    number of batches is enough.  A call that returned has run the
    batches of its trace one after the other, each in its savepoint, and
    entered each of them with budget left and, under a time bound, at a
    reading of the clock before the deadline; the steps of a batch are
    the whole remaining budget when there is no time bound and 1
    otherwise.  When it returns normally, either the budget is used up,
    or budget is left and the reading of the clock that followed the last
    batch had reached the deadline: the loop stops at whichever comes
    first, and not before.  With [iterations = k > 0] and no time bound
    the call is one batch of [k] steps, in its savepoint. *)
Theorem analyze_terminates `{PyFloats} `{CrosscatEngine} (clock : nat -> Q)
    (db : store) (generator_id : Z) (modelnos : option (list Z))
    (iterations : option Z) (max_seconds : option Q) :
  ((iterations = None ->
    exists s k, max_seconds = Some s /\ (1 <= k)%nat /\
                Qle (clock O + s) (clock k)) ->
   exists fuel out,
     analyze fuel clock db generator_id modelnos iterations max_seconds
       = Some out) /\
  (forall (M_c : metadata) (T : data_matrix) (fuel : nat) (r : result unit)
          (db' : store) (bs : list Z),
     crosscat_metadata db generator_id = Ok M_c ->
     crosscat_data db generator_id M_c = Ok T ->
     analyze fuel clock db generator_id modelnos iterations max_seconds
       = Some (r, db', bs) ->
     run_batches M_c T generator_id modelnos bs db = Some (r, db') /\
     (forall (j : nat) (n : Z),
        bs !! j = Some n ->
        (forall i, iterations = Some i ->
                   0 < i - foldr Z.add 0 (take j bs)) /\
        (forall s, max_seconds = Some s ->
                   Qlt (clock (1 + j)%nat) (clock O + s)) /\
        n = match iterations, max_seconds with
            | Some i, None => i - foldr Z.add 0 (take j bs)
            | _, _ => 1
            end) /\
     (r = Ok tt ->
      (exists i, iterations = Some i /\ i - foldr Z.add 0 bs <= 0) \/
      ((forall i, iterations = Some i -> 0 < i - foldr Z.add 0 bs) /\
       exists s, max_seconds = Some s /\
                 Qle (clock O + s) (clock (1 + length bs)%nat)))) /\
  (forall (k : Z) (M_c : metadata) (T : data_matrix) (fuel : nat),
     iterations = Some k -> 0 < k -> max_seconds = None ->
     crosscat_metadata db generator_id = Ok M_c ->
     crosscat_data db generator_id M_c = Ok T ->
     analyze (S (S fuel)) clock db generator_id modelnos iterations
       max_seconds
     = Some ((savepoint (analyze_batch M_c T generator_id modelnos k) db).1,
             (savepoint (analyze_batch M_c T generator_id modelnos k) db).2,
             [k])).
Proof.
  split; [| split].
  - intros Hbound. unfold analyze.
    destruct (crosscat_metadata db generator_id) as [M_c|e];
      [| exists O; eauto].
    destruct (crosscat_data db generator_id M_c) as [T|e];
      [| exists O; eauto].
    destruct iterations as [i|].
    + exists (S (Z.to_nat i)).
      destruct max_seconds as [s|]; apply analyze_loop_iterations; lia.
    + destruct (Hbound eq_refl) as (s & k & -> & Hk & Hle).
      destruct k as [|k]; [lia |]. exists (S k).
      apply analyze_loop_deadline. exact Hle.
  - intros M_c T fuel r db' bs Hmeta Hdata. unfold analyze.
    rewrite Hmeta, Hdata.
    destruct max_seconds as [s|]; intros Hloop;
      apply analyze_loop_runs in Hloop
        as (new & Hbs & Hrun & Hentered & Hreturn);
      try (split; intros; congruence);
      cbn [app] in Hbs; subst new.
    + split; [exact Hrun |]. split.
      * intros j n Hj. destruct (Hentered j n Hj) as (Hbud & Hclk & Hn).
        split; [exact Hbud |]. split; [| exact Hn].
        intros s' [= <-]. apply Qnot_le_lt. intros Hle.
        apply Qle_bool_iff in Hle. rewrite (Hclk _ eq_refl) in Hle.
        discriminate.
      * intros Hr.
        destruct (Hreturn Hr) as [Hused | [Hbud (d & [= <-] & Hlate)]];
          [now left | right].
        split; [exact Hbud |]. exists s. split; [reflexivity |].
        now apply Qle_bool_iff.
    + split; [exact Hrun |]. split.
      * intros j n Hj. destruct (Hentered j n Hj) as (Hbud & _ & Hn).
        split; [exact Hbud |]. split; [discriminate | exact Hn].
      * intros Hr.
        destruct (Hreturn Hr) as [Hused | [_ (d & Hd & _)]];
          [now left | discriminate].
  - intros k M_c T fuel -> Hk -> Hmeta Hdata. unfold analyze.
    rewrite Hmeta, Hdata. cbn [analyze_loop].
    destruct (0 <? k) eqn:Epos; [| apply Z.ltb_ge in Epos; lia].
    cbn [negb]. destruct (savepoint _ db) as [[[]|e] db1]; [| reflexivity].
    cbn [fmap option_fmap option_map]. rewrite Z.sub_diag. reflexivity.
Qed.

(** ** What a batch of analysis writes *)

(** The statement that should store a theta compares the model number
    with the text of the theta and changes no row. *)
Lemma update_theta_sql_json (db : store) (p1 p2 : sqlarg) (t : theta) :
  bayesdb_crosscat_theta (update_theta_sql db p1 p2 (AJson t))
    = bayesdb_crosscat_theta db.
Proof.
  unfold update_theta_sql. cbn [with_crosscat_theta bayesdb_crosscat_theta].
  induction (bayesdb_crosscat_theta db) as [|r l IH]; [done |].
  rewrite fmap_cons, IH. cbn [int_column_eqb]. now rewrite andb_false_r.
Qed.

(** No batch of [analyze] changes a stored theta. *)
Lemma analyze_updates_theta (generator_id n_steps : Z)
    (items : list (Z * theta * XL * XD)) :
  forall db : store,
    bayesdb_crosscat_theta (analyze_updates db generator_id n_steps items)
      = bayesdb_crosscat_theta db.
Proof.
  induction items as [|[[[modelno th] xl] xd] items IH]; intros db;
    [done |].
  cbn [analyze_updates]. rewrite IH. now rewrite update_theta_sql_json.
Qed.

Lemma analyze_batch_theta `{CrosscatEngine} (M_c : metadata)
    (T : data_matrix) (generator_id : Z) (modelnos : option (list Z))
    (n_steps : Z) (db db' : store) (r : result unit) :
  savepoint (analyze_batch M_c T generator_id modelnos n_steps) db
    = (r, db') ->
  bayesdb_crosscat_theta db' = bayesdb_crosscat_theta db.
Proof.
  unfold savepoint.
  destruct (analyze_batch M_c T generator_id modelnos n_steps db)
    as [[u d]|e] eqn:Hbatch; intros [= <- <-]; [| done].
  unfold analyze_batch in Hbatch.
  apply bind_ok in Hbatch as ([ums thetas] & _ & Hbatch).
  destruct (negb (0 <? Z.of_nat (length thetas))); [discriminate |].
  apply bind_ok in Hbatch as (theta0 & _ & Hbatch).
  apply bind_ok in Hbatch as ([xls xds] & _ & Hbatch).
  apply bind_ok in Hbatch as (ums' & _ & Hbatch).
  injection Hbatch as Hd. subst d. apply analyze_updates_theta.
Qed.

(** Whatever the engine computes, [analyze] leaves every stored theta as
    it found it. *)
Lemma analyze_loop_theta `{CrosscatEngine} (clock : nat -> Q)
    (M_c : metadata) (T : data_matrix) (generator_id : Z)
    (modelnos : option (list Z)) (max_seconds deadline : option Q) :
  forall (fuel tick : nat) (iterations : option Z) (db db' : store)
         (batches bs : list Z) (r : result unit),
    analyze_loop fuel clock tick M_c T generator_id modelnos iterations
      max_seconds deadline db batches = Some (r, db', bs) ->
    bayesdb_crosscat_theta db' = bayesdb_crosscat_theta db.
Proof.
  induction fuel as [|fuel IH]; intros tick its db db' batches bs r Hloop;
    [discriminate |].
  cbn [analyze_loop] in Hloop.
  destruct (negb _); [now injection Hloop as <- <- <- |].
  destruct (match deadline with
            | Some d => (negb (Qle_bool d (clock tick)), S tick)
            | None => (true, tick)
            end) as [in_time tick'].
  destruct in_time; cbn [negb] in Hloop; [| now injection Hloop as <- <- <-].
  destruct (savepoint _ db) as [[u|e] db1] eqn:Hsave;
    apply analyze_batch_theta in Hsave.
  - apply IH in Hloop. congruence.
  - injection Hloop as <- <- <-. exact Hsave.
Qed.

(** ** What [insertmany] does with the models *)

Lemma insertmany_unchanged_on_error `{PyFloats} `{CrosscatEngine}
    (db db' : store) (generator_id : Z) (rows : list (list pyval))
    (e : pyerr) :
  insertmany db generator_id rows = (Raise e, db') -> db' = db.
Proof. apply savepoint_raise. Qed.

Lemma insert_row_models (db db' : store) (table : string)
    (names : list string) (row : list pyval) (generator_id : Z) :
  insert_row db table names row = Ok db' ->
  models_sql db' generator_id = models_sql db generator_id.
Proof.
  unfold insert_row. destruct names as [|n names]; [discriminate |].
  intros Hins. apply bind_ok in Hins as (t & _ & Hins).
  apply bind_ok in Hins as (idxs & _ & Hins).
  case_bool_decide; [| discriminate]. now injection Hins as <-.
Qed.

Lemma insertmany_rows_models (table : string) (names : list string)
    (rows : list (list pyval)) (generator_id : Z) :
  forall db db' : store,
    insertmany_rows db table names rows = Ok db' ->
    models_sql db' generator_id = models_sql db generator_id.
Proof.
  induction rows as [|row rows IH]; intros db db' Hins; simpl in Hins.
  - now injection Hins as <-.
  - destruct (negb _); [discriminate |].
    apply bind_ok in Hins as (db1 & Hrow & Hins).
    rewrite (IH _ _ Hins). eapply insert_row_models, Hrow.
Qed.

Lemma mapM_raise_all {A B} (e : pyerr) (l : list A) (ys : list B) :
  mapM (fun _ : A => @Raise B e) l = Ok ys -> l = [].
Proof. destruct l; [done | discriminate]. Qed.

(** The error of a row of the wrong length is the [TypeError] of calling
    a string. *)
Lemma insertmany_rows_wrong_length (db : store) (table : string)
    (names : list string) (row : list pyval) (rows : list (list pyval)) :
  length row <> length names ->
  insertmany_rows db table names (row :: rows)
    = Raise (TypeError "'str' object is not callable").
Proof.
  intros Hlen. simpl. now rewrite bool_decide_eq_false_2 by done.
Qed.

(** With a model stored, [insertmany] raises whatever rows it is given. *)
Lemma insertmany_raises_with_models `{PyFloats} `{CrosscatEngine}
    (db : store) (generator_id : Z) (rows : list (list pyval)) :
  models_sql db generator_id <> [] ->
  exists e, insertmany db generator_id rows = (Raise e, db).
Proof.
  intros Hmodels. unfold insertmany, savepoint.
  match goal with
  | |- context [match ?b with Ok _ => _ | Raise _ => _ end] =>
      destruct b as [[u d]|e] eqn:Hbody
  end; [exfalso | eauto].
  apply bind_ok in Hbody as (table_name & _ & Hbody).
  apply bind_ok in Hbody as (db1 & Hrows & Hbody).
  apply bind_ok in Hbody as (remap & _ & Hbody).
  destruct (negb _); [discriminate |].
  apply bind_ok in Hbody as (M_c & _ & Hbody).
  apply bind_ok in Hbody as (modelled_rows & _ & Hbody).
  apply bind_ok in Hbody as (T & _ & Hbody).
  apply bind_ok in Hbody as (X_L_list & Hxl & _).
  apply mapM_raise_all in Hxl. apply fmap_nil_inv in Hxl.
  rewrite (insertmany_rows_models _ _ _ _ _ _ Hrows) in Hxl. done.
Qed.

(** ** The code on the examples *)

Section Examples.
#[local] Existing Instance example_floats.
#[local] Existing Instance example_engine.

Ltac evaluate := vm_compute; reflexivity.

Ltac covers :=
  repeat (apply Forall_cons; split;
          [split; [lia | do 2 eexists; split;
                           [reflexivity | split; [lia | reflexivity]]] |]);
  apply Forall_nil.

(** C1.  [analyze] of generator 1, all models, five iterations and no time
    bound, on the store with two models: the call returns, one batch of
    five steps was run, and the store is the one it started from.  The
    parameters of the two UPDATE statements are bound in the order
    [(generator_id, modelno, n_steps)] and [(generator_id, modelno, theta)],
    not in the order of the [?] in their text, so no iteration counter of
    generator 1 moves and no theta is stored.  With [modelnos] given the
    first batch raises, [theta_sql] naming a column the table does not
    have. *)
Theorem analyze_stores_nothing :
  analyze 2 example_clock example_models 1 None (Some 5) None
    = Some (Ok tt, example_models, [5]) /\
  analyze 2 example_clock example_models 1 (Some [0]) (Some 5) None
    = Some (Raise (OperationalError "no such column"), example_models, [5]).
Proof. split; evaluate. Qed.

(** Two batches of one step under a time bound: the counter of model 1 of
    generator 1 moves by two because its number, the generator's and the
    step count are all 1; the counter of model 0 stays at 0. *)
Example analyze_counts_by_accident :
  (fun a : option analysis =>
     match a with
     | Some (r, db, batches) => Some (r, bayesdb_generator_model db, batches)
     | None => None
     end)
    (analyze 9 example_clock example_models 1 None None (Some 3%Q))
  = Some (Ok tt,
          [ {| gm_generator_id := 1; gm_modelno := 0; gm_iterations := 0 |};
            {| gm_generator_id := 1; gm_modelno := 1; gm_iterations := 2 |} ],
          [1; 1]).
Proof. evaluate. Qed.

(** C2.  [insertmany] of one well-formed row.  With models stored it
    raises [TypeError]: the rows of [models_sql] hold the text of each
    theta, which is indexed without [json.loads].  With no model stored,
    an engine that returns the matrix the table had before the call with
    the new row appended fails the consistency check, and an engine that
    appends the new row to the matrix it is handed passes it: the matrix
    is read after the row went into the table, so the matrix the check
    accepts holds the new row twice. *)
Theorem insertmany_consistency :
  insertmany example_models 1 [example_row]
    = (Raise (TypeError "string indices must be integers"), example_models) /\
  crosscat_data example_generator 1 example_M_c = Ok example_matrix /\
  @insertmany example_floats appending_engine example_generator 1
    [example_row]
    = (Raise AssertionError, example_generator) /\
  (fun out : result unit * store =>
     (out.1, crosscat_data out.2 1 example_M_c))
    (insertmany example_generator 1 [example_row])
    = (Ok tt, Ok (example_matrix ++ [example_row_codes])).
Proof. repeat split; evaluate. Qed.

(** C6.  [insertmany] with a row of two values into the table of three
    columns: the exception is the [TypeError] of calling the message
    string, not the [ValueError] the statement means to raise; the store
    is left as it was, also when a well-formed row came first. *)
Theorem insertmany_wrong_row_length :
  insertmany example_models 1 [[PStr "b"; PInt 4]]
    = (Raise (TypeError "'str' object is not callable"), example_models) /\
  insertmany example_models 1 [example_row; [PStr "b"; PInt 4]]
    = (Raise (TypeError "'str' object is not callable"), example_models).
Proof. split; evaluate. Qed.

(** C3 at the example: model 0 has the two columns in one view with two
    clusters, model 1 has them in different views. *)
Lemma column_dependence_probability_witness :
  column_dependence_probability example_models 1 0 0 = Ok (PInt 1) /\
  column_dependence_probability example_models 1 0 1
    = Ok (PFloat (FNum (inject_Z 1 / inject_Z 2))).
Proof.
  split.
  - exact (proj1 (column_dependence_probability_spec example_models 1 0 0)
             eq_refl).
  - refine (proj2 (column_dependence_probability_spec example_models 1 0 1)
              0 1 [example_theta0; example_theta1] _ _ _ _ _ _);
      [discriminate | evaluate | evaluate | evaluate | covers | covers];
      exact I.
Defined.



(** C5 at the example: the category ["c"] is unknown, the category ["a"]
    has a code; the models hold three rows, so the row asked about is
    row 3. *)
Lemma column_value_probability_witness :
  (crosscat_value_to_code example_models 1 example_M_c 0 (PStr "c")
     = Raise KeyError /\
   column_value_probability example_models 1 0 (PStr "c") = Ok (PInt 0)) /\
  column_value_probability example_models 1 0 (PStr "a") =
    (let* r := engine_simple_predictive_probability_multistate example_M_c
                 [X_L example_theta0; X_L example_theta1]
                 [X_D example_theta0; X_D example_theta1] []
                 [(3, 0, FNum 0)] in
     Ok (PFloat (math_exp r))).
Proof.
  pose proof (column_value_probability_spec example_models 1 0 (PStr "c")
                example_M_c ltac:(evaluate)) as [Hunknown _].
  pose proof (column_value_probability_spec example_models 1 0 (PStr "a")
                example_M_c ltac:(evaluate)) as [_ Hknown].
  split.
  - refine (Hunknown 0 (categorical_metadata [PStr "a"; PStr "b"])
              _ _ _ _ _); [evaluate | discriminate | evaluate..].
  - refine (Hknown (FNum 0) 0 example_theta0 [example_theta1] [0; 1; 0] []
              _ _ _ _); evaluate.
Defined.

(** C7: the claim as stated fails on the table whose first column is
    ignored: the ignored column takes [cc_colno] 0 and the one modelled
    column takes 1, so the numbers of the modelled columns do not start
    at 0. *)
Lemma create_generator_ignore_counterexample :
  create_generator ignore_catalogue 2 ignore_columns
    = (Ok tt, ignore_generator) /\
  bayesdb_crosscat_column ignore_generator =
    [ {| ccol_generator_id := 2; ccol_colno := 0; ccol_cc_colno := 0;
         ccol_disttype := "ignore" |};
      {| ccol_generator_id := 2; ccol_colno := 1; ccol_cc_colno := 1;
         ccol_disttype := "normal_inverse_gamma" |} ] /\
  crosscat_cc_colno ignore_generator 2 1 <> Ok 0.
Proof. repeat split; try evaluate. vm_compute. discriminate. Qed.

(** C7 as amended, at the same table. *)
Lemma create_generator_cc_colno_witness :
  crosscat_cc_colno ignore_generator 2 0 = Ok 0 /\
  crosscat_cc_colno ignore_generator 2 1 = Ok 1 /\
  In {| ccol_generator_id := 2; ccol_colno := 0; ccol_cc_colno := 0;
        ccol_disttype := "ignore" |}
    (bayesdb_crosscat_column ignore_generator) /\
  crosscat_column_keys_unique ignore_generator.
Proof.
  pose proof (create_generator_cc_colno ignore_catalogue ignore_generator 2
                ignore_columns ltac:(evaluate)) as (Hcc & Hignore & Huniq).
  split; [| split; [| split]].
  - exact (Hcc 0%nat 0 "name" "ignore" eq_refl).
  - exact (Hcc 1%nat 1 "height" "numerical" eq_refl).
  - exact (Hignore 0%nat 0 "name" "ignore" eq_refl eq_refl).
  - apply Huniq. split; apply NoDup_nil_2.
Defined.

(** C8 at the example.  A time bound of three seconds and no iteration
    budget, on the clock that advances by one second at every reading:
    the call returns; it ran two batches of one step, and the third
    reading of the clock after the deadline was set had reached it.  A
    budget of five iterations with no time bound: one batch of five
    steps. *)
Lemma analyze_terminates_witness :
  (exists fuel out,
     analyze fuel example_clock example_models 1 None None (Some 3%Q)
       = Some out) /\
  (run_batches example_M_c example_matrix 1 None [1; 1] example_models
     = Some (Ok tt, example_analyzed) /\
   Qlt (example_clock 2) (example_clock 0 + 3) /\
   Qle (example_clock 0 + 3) (example_clock 3)) /\
  analyze 2 example_clock example_models 1 None (Some 5) None
    = Some ((savepoint (analyze_batch example_M_c example_matrix 1 None 5)
               example_models).1,
            (savepoint (analyze_batch example_M_c example_matrix 1 None 5)
               example_models).2,
            [5]).
Proof.
  assert (Hmeta : crosscat_metadata example_models 1 = Ok example_M_c)
    by evaluate.
  assert (Hdata : crosscat_data example_models 1 example_M_c
                  = Ok example_matrix) by evaluate.
  assert (Hrun : analyze 9 example_clock example_models 1 None None
                   (Some 3%Q) = Some (Ok tt, example_analyzed, [1; 1]))
    by evaluate.
  pose proof (analyze_terminates example_clock example_models 1 None None
                (Some 3%Q)) as (Hreturns & Hdid & _).
  pose proof (analyze_terminates example_clock example_models 1 None
                (Some 5) None) as (_ & _ & Hone).
  split; [| split].
  - apply Hreturns. intros _. exists 3%Q, 3%nat. split; [reflexivity |].
    split; [lia | vm_compute; discriminate].
  - destruct (Hdid example_M_c example_matrix 9%nat (Ok tt) example_analyzed
                [1; 1] Hmeta Hdata Hrun) as (Hbatches & Hentered & Hstop).
    split; [exact Hbatches |]. split.
    + exact (proj1 (proj2 (Hentered 1%nat 1 eq_refl)) 3%Q eq_refl).
    + destruct (Hstop eq_refl) as [(i & Hi & _) | [_ (s & [= <-] & Hlate)]];
        [discriminate | exact Hlate].
  - exact (Hone 5 example_M_c example_matrix O eq_refl ltac:(lia) eq_refl
             Hmeta Hdata).
Defined.

(** C9 at the example: the first column declared a key. *)
Lemma create_generator_key_fails_witness :
  exists e, create_generator ignore_catalogue 2 key_columns
              = (Raise e, ignore_catalogue).
Proof.
  refine (proj2 (create_generator_key_fails ignore_catalogue 2 key_columns
                   0 "name" "key" _ _)); [now left | reflexivity].
Defined.


End Examples.

(** ** Dropping a generator *)

Lemma filter_filter_none {A} (P Q : A -> Prop) `{forall x, Decision (P x)}
    `{forall x, Decision (Q x)} (l : list A) :
  (forall x, P x -> ~ Q x) -> filter P (filter Q l) = [].
Proof.
  intros Hpq. apply filter_none, Forall_forall. intros x Hx Hp.
  apply list_elem_of_filter in Hx as [Hq _]. exact (Hpq x Hp Hq).
Qed.

Lemma filter_filter_same {A} (P Q : A -> Prop) `{forall x, Decision (P x)}
    `{forall x, Decision (Q x)} (l : list A) :
  (forall x, P x -> Q x) -> filter P (filter Q l) = filter P l.
Proof.
  intros Hpq. induction l as [|a l IH]; [done |].
  destruct (decide (Q a)) as [Hq | Hq].
  - rewrite (filter_cons_True Q) by done.
    destruct (decide (P a)) as [Hp | Hp].
    + rewrite !(filter_cons_True P) by done. now rewrite IH.
    + rewrite !(filter_cons_False P) by done. exact IH.
  - rewrite (filter_cons_False Q) by done.
    rewrite (filter_cons_False P) by (intros Hp; apply Hq, Hpq, Hp).
    exact IH.
Qed.

Lemma filter_all {A} (P : A -> Prop) `{forall x, Decision (P x)}
    (l : list A) :
  Forall P l -> filter P l = l.
Proof.
  induction 1 as [|x l Hx _ IH]; [reflexivity |].
  rewrite filter_cons_True by done. now rewrite IH.
Qed.

Lemma insert_by_elem {A} (key : A -> Z) (x y : A) (l : list A) :
  y ∈ insert_by key x l <-> y = x \/ y ∈ l.
Proof.
  induction l as [|a l IH]; simpl.
  - rewrite list_elem_of_singleton, elem_of_nil. tauto.
  - destruct (key x <? key a).
    + rewrite !elem_of_cons. tauto.
    + rewrite !elem_of_cons, IH. tauto.
Qed.

Lemma sort_by_elem {A} (key : A -> Z) (y : A) (l : list A) :
  y ∈ sort_by key l <-> y ∈ l.
Proof.
  induction l as [|a l IH]; simpl; [done |].
  rewrite insert_by_elem, elem_of_cons, IH. tauto.
Qed.

Lemma list_bind_nil {A B} (f : A -> list B) (l : list A) :
  (forall x, x ∈ l -> f x = []) -> l ≫= f = [].
Proof.
  induction l as [|a l IH]; intros Hf; [done |].
  cbn [mbind list_bind]. rewrite (Hf a (list_elem_of_here _ _)).
  apply IH. intros x Hx. now apply Hf, list_elem_of_further.
Qed.

Lemma list_bind_ext_in {A B} (f g : A -> list B) (l : list A) :
  (forall x, x ∈ l -> f x = g x) -> l ≫= f = l ≫= g.
Proof.
  induction l as [|a l IH]; intros Hf; [done |].
  cbn [mbind list_bind]. rewrite (Hf a (list_elem_of_here _ _)).
  f_equal. apply IH. intros x Hx. now apply Hf, list_elem_of_further.
Qed.

(** X1.  [drop_generator] returns normally on every store, and afterwards
    the generator is gone from the crosscat tables: reading its metadata
    or the compacted number of any of its columns raises [ValueError], and
    it has no theta and no model left to analyze. *)
Theorem drop_generator_forgets (db : store) (generator_id : Z) :
  exists db',
    drop_generator db generator_id = (Ok tt, db') /\
    crosscat_metadata db' generator_id
      = Raise (ValueError "No crosscat metadata for generator") /\
    (forall colno,
       crosscat_cc_colno db' generator_id colno
         = Raise (ValueError "Column not modelled in generator")) /\
    crosscat_theta_cells db' generator_id = [] /\
    models_sql db' generator_id = [].
Proof.
  eexists. split; [reflexivity |].
  unfold crosscat_metadata, crosscat_cc_colno, crosscat_theta_cells,
    models_sql.
  cbn [bayesdb_crosscat_metadata bayesdb_crosscat_column
       bayesdb_crosscat_theta bayesdb_generator_model
       with_crosscat_metadata with_crosscat_column
       with_crosscat_column_codemap with_crosscat_theta].
  split; [| split; [| split]].
  - rewrite filter_filter_none; [reflexivity | intros x Hx Hne; done].
  - intros colno.
    rewrite filter_filter_none; [reflexivity | intros x [Hx _] Hne; done].
  - rewrite filter_filter_none; [reflexivity | intros x Hx Hne; done].
  - apply list_bind_nil. intros m Hm.
    apply sort_by_elem, list_elem_of_filter in Hm as [Hm _].
    rewrite filter_filter_none; [reflexivity |].
    intros x [Hx _] Hne. apply Hne. now rewrite <- Hx.
Qed.

(** X2.  [drop_generator] touches no other generator and no table of the
    host: for every other generator the metadata, the compacted column
    numbers, the thetas and the models to analyze read as before, and the
    catalogue and the user tables are the same. *)
Theorem drop_generator_frame (db db' : store) (generator_id other : Z)
    (r : result unit) :
  drop_generator db generator_id = (r, db') ->
  other <> generator_id ->
  crosscat_metadata db' other = crosscat_metadata db other /\
  (forall colno,
     crosscat_cc_colno db' other colno = crosscat_cc_colno db other colno) /\
  crosscat_theta_cells db' other = crosscat_theta_cells db other /\
  models_sql db' other = models_sql db other /\
  bayesdb_generator db' = bayesdb_generator db /\
  bayesdb_column db' = bayesdb_column db /\
  bayesdb_generator_column db' = bayesdb_generator_column db /\
  bayesdb_generator_model db' = bayesdb_generator_model db /\
  user_tables db' = user_tables db.
Proof.
  intros Hdrop Hother. injection Hdrop as _ <-.
  unfold crosscat_metadata, crosscat_cc_colno, crosscat_theta_cells,
    models_sql.
  cbn [bayesdb_crosscat_metadata bayesdb_crosscat_column
       bayesdb_crosscat_theta bayesdb_generator_model
       with_crosscat_metadata with_crosscat_column
       with_crosscat_column_codemap with_crosscat_theta].
  repeat split.
  - rewrite filter_filter_same; [reflexivity | intros x Hx; congruence].
  - intros colno.
    rewrite filter_filter_same; [reflexivity | intros x [Hx _]; congruence].
  - rewrite filter_filter_same; [reflexivity | intros x Hx; congruence].
  - apply list_bind_ext_in. intros m Hm.
    apply sort_by_elem, list_elem_of_filter in Hm as [Hm _].
    rewrite filter_filter_same; [reflexivity |].
    intros x [Hx _]. congruence.
Qed.

(** ** What creating a generator adds *)

Lemma generator_rows_added_refl (generator_id : Z) (db : store) :
  generator_rows_added generator_id db db.
Proof.
  unfold generator_rows_added. repeat (split; [reflexivity |]).
  repeat split; exists []; rewrite app_nil_r; auto.
Qed.

Lemma generator_rows_added_trans (generator_id : Z) (db1 db2 db3 : store) :
  generator_rows_added generator_id db1 db2 ->
  generator_rows_added generator_id db2 db3 ->
  generator_rows_added generator_id db1 db3.
Proof.
  intros (Ha1 & Ha2 & Ha3 & Ha4 & Ha5 & Ha6 & (m1 & Hm1 & Fm1) &
          (c1 & Hc1 & Fc1) & (k1 & Hk1 & Fk1))
         (Hb1 & Hb2 & Hb3 & Hb4 & Hb5 & Hb6 & (m2 & Hm2 & Fm2) &
          (c2 & Hc2 & Fc2) & (k2 & Hk2 & Fk2)).
  unfold generator_rows_added.
  rewrite Hb1, Hb2, Hb3, Hb4, Hb5, Hb6, Hm2, Hc2, Hk2, Hm1, Hc1, Hk1.
  repeat (split; [assumption |]).
  repeat split.
  - exists (m1 ++ m2). rewrite app_assoc. split; [done |].
    now apply Forall_app.
  - exists (c1 ++ c2). rewrite app_assoc. split; [done |].
    now apply Forall_app.
  - exists (k1 ++ k2). rewrite app_assoc. split; [done |].
    now apply Forall_app.
Qed.

Lemma insert_metadata_sql_added (db db' : store) (generator_id : Z)
    (m : metadata) :
  insert_metadata_sql db generator_id m = Ok db' ->
  generator_rows_added generator_id db db' /\
  Exists (fun r => md_generator_id r = generator_id)
    (bayesdb_crosscat_metadata db').
Proof.
  unfold insert_metadata_sql. case_bool_decide; [discriminate |].
  intros [= <-]. split.
  - unfold generator_rows_added. cbn. repeat (split; [reflexivity |]).
    repeat split.
    + eexists. split; [reflexivity |]. now repeat constructor.
    + exists []. now rewrite app_nil_r.
    + exists []. now rewrite app_nil_r.
  - cbn. apply Exists_app. right. now left.
Qed.

Lemma insert_column_sql_added (db db' : store) (generator_id colno cc : Z)
    (disttype : string) :
  insert_column_sql db generator_id colno cc disttype = Ok db' ->
  generator_rows_added generator_id db db'.
Proof.
  unfold insert_column_sql.
  destruct (negb _); [discriminate |].
  case_bool_decide; [discriminate |]. case_bool_decide; [discriminate |].
  intros [= <-]. unfold generator_rows_added. cbn.
  repeat (split; [reflexivity |]). repeat split.
  - exists []. now rewrite app_nil_r.
  - eexists. split; [reflexivity |]. now repeat constructor.
  - exists []. now rewrite app_nil_r.
Qed.

Lemma insert_codemap_sql_added `{PyFloats} (db db' : store)
    (generator_id cc code : Z) (value : pyval) :
  insert_codemap_sql db generator_id cc code value = Ok db' ->
  generator_rows_added generator_id db db'.
Proof.
  unfold insert_codemap_sql. destruct (sqlite_text value); [| discriminate].
  destruct (negb _); [discriminate |].
  case_bool_decide; [discriminate |].
  intros [= <-]. unfold generator_rows_added. cbn.
  repeat (split; [reflexivity |]). repeat split.
  - exists []. now rewrite app_nil_r.
  - exists []. now rewrite app_nil_r.
  - eexists. split; [reflexivity |]. now repeat constructor.
Qed.

Lemma insert_codemap_rows_added `{PyFloats} (generator_id cc : Z)
    (codemap : list (Z * pyval)) :
  forall db db' : store,
    insert_codemap_rows db generator_id cc codemap = Ok db' ->
    generator_rows_added generator_id db db'.
Proof.
  induction codemap as [|[code value] codemap IH]; intros db db' Hins;
    simpl in Hins.
  - injection Hins as <-. apply generator_rows_added_refl.
  - apply bind_ok in Hins as (db1 & H1 & Hins).
    eapply generator_rows_added_trans;
      [eapply insert_codemap_sql_added, H1 | eapply IH, Hins].
Qed.

Lemma insert_columns_added `{PyFloats} (generator_id : Z)
    (metadata : raw_metadata) (columns : list (Z * column_spec)) :
  forall db db' : store,
    insert_columns db generator_id metadata columns = Ok db' ->
    generator_rows_added generator_id db db'.
Proof.
  induction columns as [|[cc0 [[colno0 name0] st0]] columns IH];
    intros db db' Hins; simpl in Hins.
  - injection Hins as <-. apply generator_rows_added_refl.
  - apply bind_ok in Hins as (cmeta0 & _ & Hins).
    apply bind_ok in Hins as (db1 & Hcol & Hins).
    apply bind_ok in Hins as (db2 & Hmap & Hins).
    eapply generator_rows_added_trans;
      [eapply insert_column_sql_added, Hcol |].
    eapply generator_rows_added_trans;
      [eapply insert_codemap_rows_added, Hmap | eapply IH, Hins].
Qed.

Lemma create_generator_added `{PyFloats} (db db' : store) (generator_id : Z)
    (column_list : list column_spec) :
  create_generator db generator_id column_list = (Ok tt, db') ->
  generator_rows_added generator_id db db' /\
  Exists (fun r => md_generator_id r = generator_id)
    (bayesdb_crosscat_metadata db') /\
  exists m, create_metadata db generator_id column_list = Ok m.
Proof.
  intros Hcreate. unfold create_generator in Hcreate.
  apply savepoint_ok in Hcreate.
  apply bind_ok in Hcreate as (md & Hmd & Hcreate).
  apply bind_ok in Hcreate as (db1 & Hins & Hcreate).
  apply bind_ok in Hcreate as (db2 & Hcols & Hcreate).
  injection Hcreate as <-.
  apply insert_metadata_sql_added in Hins as [Hadd1 Hex].
  apply insert_columns_added in Hcols as Hadd2.
  split; [eapply generator_rows_added_trans; eassumption |].
  split; [| eauto].
  destruct Hadd2 as (_ & _ & _ & _ & _ & _ & (rows & -> & _) & _).
  apply Exists_app. now left.
Qed.

Lemma store_ext (a b : store) :
  bayesdb_generator a = bayesdb_generator b ->
  bayesdb_column a = bayesdb_column b ->
  bayesdb_generator_column a = bayesdb_generator_column b ->
  bayesdb_generator_model a = bayesdb_generator_model b ->
  user_tables a = user_tables b ->
  bayesdb_crosscat_metadata a = bayesdb_crosscat_metadata b ->
  bayesdb_crosscat_column a = bayesdb_crosscat_column b ->
  bayesdb_crosscat_column_codemap a = bayesdb_crosscat_column_codemap b ->
  bayesdb_crosscat_theta a = bayesdb_crosscat_theta b ->
  a = b.
Proof. destruct a, b. simpl. intros. now subst. Qed.

Lemma filter_added {A} (key : A -> Z) (generator_id : Z)
    (l rows : list A) :
  Forall (fun r => key r <> generator_id) l ->
  Forall (fun r => key r = generator_id) rows ->
  filter (fun r => key r <> generator_id) (l ++ rows) = l.
Proof.
  intros Hl Hrows. rewrite filter_app, (filter_all _ l Hl).
  rewrite filter_none; [apply app_nil_r |].
  eapply Forall_impl; [exact Hrows |]. intros r Hr Hne. exact (Hne Hr).
Qed.

(** X3.  Dropping a generator right after it was created, on a store that
    held no crosscat row of it before, gives back that store: creation
    adds rows of this generator only, to the metadata, column and code map
    tables, and [drop_generator] deletes exactly those. *)
Theorem create_then_drop `{PyFloats} (db db' : store) (generator_id : Z)
    (column_list : list column_spec) :
  generator_absent generator_id db ->
  create_generator db generator_id column_list = (Ok tt, db') ->
  drop_generator db' generator_id = (Ok tt, db).
Proof.
  intros (Hmd & Hcc & Hcm & Hth) Hcreate.
  apply create_generator_added in Hcreate
    as ((H1 & H2 & H3 & H4 & H5 & H6 & (m & Hm & Fm) & (c & Hc & Fc) &
         (k & Hk & Fk)) & _).
  unfold drop_generator, savepoint. f_equal.
  apply store_ext; cbn; try assumption.
  - rewrite Hm. now apply (filter_added md_generator_id).
  - rewrite Hc. now apply (filter_added ccol_generator_id).
  - rewrite Hk. now apply (filter_added cm_generator_id).
  - rewrite H6. now apply filter_all.
Qed.

Lemma mapM_ext {A B} (f g : A -> result B) (l : list A) :
  (forall x, f x = g x) -> mapM f l = mapM g l.
Proof.
  intros Hfg. induction l as [|a l IH]; [done |].
  simpl. now rewrite Hfg, IH.
Qed.

(** Building the metadata reads the catalogue and the user tables only. *)
Lemma create_metadata_reads (db db' : store) (generator_id : Z)
    (column_list : list column_spec) :
  bayesdb_generator db' = bayesdb_generator db ->
  bayesdb_column db' = bayesdb_column db ->
  user_tables db' = user_tables db ->
  create_metadata db' generator_id column_list
    = create_metadata db generator_id column_list.
Proof.
  intros Hg Hc Hu.
  assert (Hcat : forall g c, create_metadata_categorical db' g c
                             = create_metadata_categorical db g c).
  { intros g c. unfold create_metadata_categorical, bayesdb_generator_table,
      bayesdb_table_column_name, select_columns, user_table_of.
    now rewrite Hg, Hc, Hu. }
  unfold create_metadata. f_equal. apply mapM_ext. intros [[colno name] st].
  cbn [fst snd]. unfold metadata_creators.
  repeat case_bool_decide; cbn [bind]; try reflexivity.
  - apply Hcat.
  - unfold create_metadata_ignore. now rewrite Hcat.
Qed.

(** X4.  A generator cannot be created twice: after [create_generator]
    has succeeded, the same call raises [IntegrityError] on the metadata
    row and leaves the store as the first call left it. *)
Theorem create_generator_twice `{PyFloats} (db db' : store)
    (generator_id : Z) (column_list : list column_spec) :
  create_generator db generator_id column_list = (Ok tt, db') ->
  create_generator db' generator_id column_list
    = (Raise (IntegrityError "PRIMARY KEY must be unique"), db').
Proof.
  intros Hcreate.
  apply create_generator_added in Hcreate
    as ((H1 & H2 & _ & _ & H5 & _) & Hex & m & Hm).
  unfold create_generator, savepoint.
  rewrite (create_metadata_reads db db' _ _ H1 H2 H5), Hm. cbn [bind].
  unfold insert_metadata_sql.
  now rewrite bool_decide_eq_true_2 by exact Hex.
Qed.

(** X5.  A column whose statistical type is none of [categorical],
    [cyclic], [ignore], [key] and [numerical], whatever the case of its
    letters, makes [create_generator] raise and leave the store as it
    was; when it is the first column the exception is [KeyError]. *)
Theorem create_generator_unsupported_stattype `{PyFloats} (db : store)
    (generator_id colno : Z) (name stattype : string)
    (column_list : list column_spec) :
  ~ In (casefold stattype)
      ["categorical"; "cyclic"; "ignore"; "key"; "numerical"] ->
  (In (colno, name, stattype) column_list ->
   exists e, create_generator db generator_id column_list = (Raise e, db)) /\
  create_generator db generator_id ((colno, name, stattype) :: column_list)
    = (Raise KeyError, db).
Proof.
  intros Hst.
  assert (Hraise : (let* creator := metadata_creators (casefold stattype) in
                    creator db generator_id colno) = Raise KeyError).
  { unfold metadata_creators.
    repeat (case_bool_decide;
            [exfalso; apply Hst;
             match goal with E : casefold _ = _ |- _ => rewrite E end;
             simpl; tauto |]).
    reflexivity. }
  split.
  - intros Hin. unfold create_generator, savepoint, create_metadata.
    destruct (mapM_raise
                (fun c : column_spec =>
                   let* creator := metadata_creators (casefold c.2) in
                   creator db generator_id c.1.1)
                column_list (colno, name, stattype) KeyError Hin Hraise)
      as [e He].
    rewrite He. simpl. eauto.
  - unfold create_generator, savepoint, create_metadata.
    cbn [mapM fst snd]. now rewrite Hraise.
Qed.

(** ** The order of the codes *)

Lemma sql_compare_antisym (a b : pyval) :
  sql_compare b a = CompOpp (sql_compare a b).
Proof.
  destruct a as [|x|[|x]|s], b as [|y|[|y]|t]; cbn;
    try reflexivity; try (symmetry; apply Qcompare_antisym).
  apply OrderedTypeEx.String_as_OT.cmp_antisym.
Qed.

Lemma sql_compare_refl (a : pyval) :
  sql_not_null a = true -> sql_compare a a = Eq.
Proof.
  destruct a as [|x|[|x]|s]; cbn; try discriminate; intros _.
  - apply Qeq_alt. reflexivity.
  - apply Qeq_alt. reflexivity.
  - now apply OrderedTypeEx.String_as_OT.cmp_eq.
Qed.

Lemma sql_compare_trans (a b c : pyval) :
  sql_compare a b = Lt -> sql_compare b c = Lt -> sql_compare a c = Lt.
Proof.
  assert (Hq : forall x y z : Q,
             Qcompare x y = Lt -> Qcompare y z = Lt -> Qcompare x z = Lt).
  { intros x y z Hxy Hyz. apply Qlt_alt. apply Qlt_alt in Hxy, Hyz.
    eapply Qlt_trans; eassumption. }
  assert (Hs : forall s t u : string,
             String.compare s t = Lt -> String.compare t u = Lt ->
             String.compare s u = Lt).
  { intros s t u Hst Htu.
    apply OrderedTypeEx.String_as_OT.cmp_lt.
    apply OrderedTypeEx.String_as_OT.cmp_lt in Hst, Htu.
    eapply OrderedTypeEx.String_as_OT.lt_trans; eassumption. }
  destruct a as [|x|[|x]|s], b as [|y|[|y]|t], c as [|z|[|z]|u]; cbn;
    try discriminate; try reflexivity; eauto.
Qed.

Lemma insert_distinct_elem (x y : pyval) (l : list pyval) :
  y ∈ insert_distinct x l -> y = x \/ y ∈ l.
Proof.
  induction l as [|a l IH]; simpl.
  - rewrite list_elem_of_singleton. tauto.
  - destruct (sql_compare x a); rewrite ?elem_of_cons; tauto.
Qed.

Lemma insert_distinct_keeps (x y : pyval) (l : list pyval) :
  y ∈ l -> y ∈ insert_distinct x l.
Proof.
  induction l as [|a l IH]; simpl;
    [intros Hy; by apply elem_of_nil in Hy |].
  destruct (sql_compare x a); [done | apply list_elem_of_further |].
  rewrite !elem_of_cons. tauto.
Qed.

Lemma insert_distinct_represents (x : pyval) (l : list pyval) :
  sql_not_null x = true ->
  exists y, y ∈ insert_distinct x l /\ sql_compare x y = Eq.
Proof.
  intros Hx. induction l as [|a l IH]; simpl.
  - exists x. split; [apply list_elem_of_here | now apply sql_compare_refl].
  - destruct (sql_compare x a) eqn:E.
    + exists a. split; [apply list_elem_of_here | done].
    + exists x. split; [apply list_elem_of_here | now apply sql_compare_refl].
    + destruct IH as (y & Hy & Hxy). exists y.
      split; [now apply list_elem_of_further | done].
Qed.

Lemma insert_distinct_ascending (x : pyval) (l : list pyval) :
  sql_ascending l -> sql_ascending (insert_distinct x l).
Proof.
  unfold sql_ascending. induction 1 as [|a l Hl IH Ha]; simpl.
  - repeat constructor.
  - destruct (sql_compare x a) eqn:E.
    + now constructor.
    + constructor; [now constructor |].
      constructor; [done |].
      eapply Forall_impl; [exact Ha |]. intros z Hz.
      eapply sql_compare_trans; eassumption.
    + constructor; [exact IH |].
      apply Forall_forall. intros z Hz.
      apply insert_distinct_elem in Hz as [-> | Hz].
      * rewrite sql_compare_antisym, E. reflexivity.
      * rewrite Forall_forall in Ha. now apply Ha.
Qed.

Lemma select_distinct_ordered_spec (values : list pyval) :
  sql_ascending (select_distinct_ordered values) /\
  (forall c, c ∈ select_distinct_ordered values ->
             c ∈ values /\ sql_not_null c = true) /\
  (forall v, v ∈ values -> sql_not_null v = true ->
             exists c, c ∈ select_distinct_ordered values /\
                       sql_compare v c = Eq).
Proof.
  unfold select_distinct_ordered.
  assert (Hgen : forall (vs acc : list pyval),
             sql_ascending acc ->
             let out := foldl (fun acc v => insert_distinct v acc) acc vs in
             sql_ascending out /\
             (forall c, c ∈ out -> c ∈ acc \/ c ∈ vs) /\
             (forall c, c ∈ acc -> c ∈ out) /\
             (forall v, v ∈ vs -> sql_not_null v = true ->
                        exists c, c ∈ out /\ sql_compare v c = Eq)).
  { induction vs as [|v vs IH]; intros acc Hacc; cbn.
    - split; [done |]. split; [tauto |]. split; [tauto |].
      intros v Hv. by apply elem_of_nil in Hv.
    - destruct (IH (insert_distinct v acc)
                  (insert_distinct_ascending v acc Hacc))
        as (Hs & Hsub & Hkeep & Hrep).
      split; [exact Hs |]. split; [| split].
      + intros c Hc. destruct (Hsub c Hc) as [Hc' | Hc'].
        * apply insert_distinct_elem in Hc' as [-> | Hc'];
            [right; apply list_elem_of_here | tauto].
        * right. now apply list_elem_of_further.
      + intros c Hc. now apply Hkeep, insert_distinct_keeps.
      + intros w Hw Hnn. apply elem_of_cons in Hw as [-> | Hw].
        * destruct (insert_distinct_represents v acc Hnn) as (y & Hy & Hvy).
          exists y. split; [now apply Hkeep | done].
        * now apply Hrep. }
  destruct (Hgen (List.filter sql_not_null values) [])
    as (Hs & Hsub & _ & Hrep); [constructor |].
  split; [exact Hs |]. split.
  - intros c Hc. destruct (Hsub c Hc) as [Hc' | Hc'];
      [by apply elem_of_nil in Hc' |].
    rewrite list_elem_of_In in Hc'. apply filter_In in Hc' as [Hin Hnn].
    split; [now rewrite list_elem_of_In | done].
  - intros v Hv Hnn. apply Hrep; [| done].
    rewrite list_elem_of_In. apply filter_In.
    split; [now rewrite <- list_elem_of_In | done].
Qed.

(** X6.  The code map [create_metadata_categorical] builds numbers the
    values of the column from 0 in strictly ascending SQL order: its
    values are values of the column that are not null, every such value
    is equal in SQL to one of them, none comes twice, and
    [code_to_value] is [value_to_code] with keys and values swapped. *)
Theorem create_metadata_categorical_codes (db : store)
    (generator_id colno : Z) (m : raw_column_metadata) :
  create_metadata_categorical db generator_id colno = Ok m ->
  exists (table column_name : string) (rows : list (list pyval))
         (codes : list pyval),
    bayesdb_generator_table db generator_id = Ok table /\
    bayesdb_table_column_name db table colno = Ok column_name /\
    select_columns db table [column_name] = Ok rows /\
    raw_value_to_code m = zip (range (length codes)) codes /\
    raw_code_to_value m = zip codes (range (length codes)) /\
    sql_ascending codes /\
    (forall c, c ∈ codes -> c ∈ mjoin rows /\ sql_not_null c = true) /\
    (forall v, v ∈ mjoin rows -> sql_not_null v = true ->
               exists c, c ∈ codes /\ sql_compare v c = Eq).
Proof.
  intros Hm. unfold create_metadata_categorical in Hm.
  apply bind_ok in Hm as (table & Htable & Hm).
  apply bind_ok in Hm as (column_name & Hname & Hm).
  apply bind_ok in Hm as (rows & Hrows & Hm).
  injection Hm as <-.
  destruct (select_distinct_ordered_spec (mjoin rows)) as (Hs & Hsub & Hrep).
  exists table, column_name, rows, (select_distinct_ordered (mjoin rows)).
  cbn. repeat split; try assumption; try apply Hsub; auto.
Qed.

(** ** Codes and categories *)

Lemma dict_of_items_lookup_inv {V} (items : list (string * V)) (k : string)
    (v : V) :
  dict_of_items items !! k = Some v -> (k, v) ∈ items.
Proof.
  unfold dict_of_items.
  assert (Hgen : forall m : gmap string V,
             foldl (fun m kv => <[kv.1 := kv.2]> m) m items !! k = Some v ->
             m !! k = Some v \/ (k, v) ∈ items).
  { induction items as [|[k' v'] items IH]; intros m Hm; [now left |].
    cbn in Hm. apply IH in Hm as [Hm | Hm].
    - destruct (decide (k' = k)) as [-> | Hne].
      + rewrite lookup_insert_eq in Hm. injection Hm as ->.
        right. apply list_elem_of_here.
      + rewrite lookup_insert_ne in Hm by done. now left.
    - right. now apply list_elem_of_further. }
  intros Hm. apply Hgen in Hm as [Hm | Hm]; [| done].
  by rewrite lookup_empty in Hm.
Qed.

Lemma zip_range_elem {A} (l : list A) (c : A) (z : Z) :
  (c, z) ∈ zip l (range (length l)) ->
  exists i : nat, l !! i = Some c /\ z = Z.of_nat i.
Proof.
  intros Hin. apply list_elem_of_lookup in Hin as [i Hi].
  apply lookup_zip_with_Some in Hi as (c' & z' & Heq & Hc & Hz).
  injection Heq as -> ->. exists i. split; [done |].
  rewrite range_lookup in Hz by (now apply lookup_lt_Some in Hc).
  now injection Hz.
Qed.

Lemma range_zip_elem {A} (l : list A) (c : A) (z : Z) :
  (z, c) ∈ zip (range (length l)) l ->
  exists i : nat, l !! i = Some c /\ z = Z.of_nat i.
Proof.
  intros Hin. apply list_elem_of_lookup in Hin as [i Hi].
  apply lookup_zip_with_Some in Hi as (z' & c' & Heq & Hz & Hc).
  injection Heq as -> ->. exists i. split; [done |].
  rewrite range_lookup in Hz by (now apply lookup_lt_Some in Hc).
  now injection Hz.
Qed.

Lemma categorical_value_in_codes `{PyFloats} (codes : list pyval)
    (key : string) (v : pyval) :
  value_to_code (categorical_metadata codes) !! key = Some v -> In v codes.
Proof.
  intros Hlook. apply dict_of_items_lookup_inv in Hlook.
  apply list_elem_of_fmap in Hlook as ([z c] & Heq & Hin).
  injection Heq as _ ->. cbn in Hin.
  apply range_zip_elem in Hin as (n & Hn & _).
  apply list_elem_of_In, list_elem_of_lookup. eauto.
Qed.

(** X7.  Decoding never invents a category: on a categorical column whose
    code map was built from the values [codes], whatever code the engine
    hands back, [crosscat_code_to_value] gives null or one of [codes], or
    raises. *)
Theorem crosscat_code_to_value_known `{PyFloats} (db : store)
    (generator_id colno cc : Z) (M_c : metadata) (codes : list pyval)
    (code : pyfloat) (v : pyval) :
  bayesdb_generator_column_stattype db generator_id colno
    = Ok "categorical" ->
  crosscat_cc_colno db generator_id colno = Ok cc ->
  py_index (column_metadata_list M_c) cc = Ok (categorical_metadata codes) ->
  crosscat_code_to_value db generator_id M_c colno code = Ok v ->
  (v = PNone /\ code = FNaN) \/ (In v codes /\ code <> FNaN).
Proof.
  intros Hst Hcc Hcm Hdec. unfold crosscat_code_to_value in Hdec.
  rewrite Hst in Hdec. cbn [bind] in Hdec.
  rewrite bool_decide_eq_true_2 in Hdec by done.
  destruct code as [|q]; cbn [isnan] in Hdec.
  - injection Hdec as <-. now left.
  - right. split; [| discriminate].
    rewrite Hcc in Hdec. cbn [bind] in Hdec.
    apply bind_ok in Hdec as (i & _ & Hdec).
    rewrite Hcm in Hdec. cbn [bind] in Hdec.
    destruct (value_to_code (categorical_metadata codes) !! unicode (PInt i))
      as [v'|] eqn:Hlook; [| discriminate].
    injection Hdec as ->. eapply categorical_value_in_codes, Hlook.
Qed.

(** X8.  The code of a category is a whole number below the number of
    categories: on a categorical column whose code map was built from
    [codes], [crosscat_value_to_code] gives NaN for null and otherwise
    the position in [codes] of a value with the same text, or raises. *)
Theorem crosscat_value_to_code_range `{PyFloats} (db : store)
    (generator_id colno cc : Z) (M_c : metadata) (codes : list pyval)
    (value : pyval) (code : pyfloat) :
  bayesdb_generator_column_stattype db generator_id colno
    = Ok "categorical" ->
  crosscat_cc_colno db generator_id colno = Ok cc ->
  py_index (column_metadata_list M_c) cc = Ok (categorical_metadata codes) ->
  crosscat_value_to_code db generator_id M_c colno value = Ok code ->
  (value = PNone /\ code = FNaN) \/
  (exists (i : nat) (c : pyval),
     code = float_of_Z (Z.of_nat i) /\ (i < length codes)%nat /\
     codes !! i = Some c /\ json_key c = unicode value).
Proof.
  intros Hst Hcc Hcm Henc. unfold crosscat_value_to_code in Henc.
  rewrite Hst in Henc. cbn [bind] in Henc.
  rewrite bool_decide_eq_true_2 in Henc by done.
  assert (Hnn : forall key,
             (let* cc := crosscat_cc_colno db generator_id colno in
              let* cm := py_index (column_metadata_list M_c) cc in
              let* code := or_raise (code_to_value cm !! key) KeyError in
              Ok (float_of_Z code)) = Ok code ->
             exists (i : nat) (c : pyval),
               code = float_of_Z (Z.of_nat i) /\ (i < length codes)%nat /\
               codes !! i = Some c /\ json_key c = key).
  { intros key Hk. rewrite Hcc in Hk. cbn [bind] in Hk.
    rewrite Hcm in Hk. cbn [bind] in Hk.
    destruct (code_to_value (categorical_metadata codes) !! key)
      as [z|] eqn:Hlook; [| discriminate].
    injection Hk as <-.
    apply dict_of_items_lookup_inv in Hlook.
    apply list_elem_of_fmap in Hlook as ([c z'] & Heq & Hin).
    injection Heq as -> ->. cbn in Hin.
    apply zip_range_elem in Hin as (i & Hi & ->).
    exists i, c. repeat split; try done. now apply lookup_lt_Some in Hi. }
  destruct value; [left; now injection Henc as <- | right; now apply Hnn..].
Qed.

(** X9.  The round trip from the side of the codes: with distinct text
    forms, the code [i] of a categorical column decodes to the [i]-th
    value, and that value (not null, with one text form as key and under
    [unicode()]) encodes back to [i]. *)
Theorem code_round_trip `{PyFloats} (db : store) (generator_id colno cc : Z)
    (M_c : metadata) (codes : list pyval) (i : nat) (v : pyval) :
  bayesdb_generator_column_stattype db generator_id colno
    = Ok "categorical" ->
  crosscat_cc_colno db generator_id colno = Ok cc ->
  py_index (column_metadata_list M_c) cc = Ok (categorical_metadata codes) ->
  NoDup (json_key <$> codes) ->
  codes !! i = Some v ->
  v <> PNone ->
  json_key v = unicode v ->
  crosscat_code_to_value db generator_id M_c colno
    (float_of_Z (Z.of_nat i)) = Ok v /\
  crosscat_value_to_code db generator_id M_c colno v
    = Ok (float_of_Z (Z.of_nat i)).
Proof.
  intros Hst Hcc Hcm Hnd Hi Hnn Hkey.
  pose proof (categorical_code_to_value codes Hnd i v Hi) as Hfwd.
  pose proof (categorical_value_to_code codes i v Hi) as Hbwd.
  rewrite Hkey in Hfwd. split.
  - unfold crosscat_code_to_value. rewrite Hst. cbn [bind].
    rewrite bool_decide_eq_true_2 by done.
    cbn [isnan float_of_Z]. rewrite Hcc. cbn [bind].
    fold (float_of_Z (Z.of_nat i)). rewrite int_of_float_of_Z. cbn [bind].
    rewrite Hcm. cbn [bind unicode]. now rewrite Hbwd.
  - unfold crosscat_value_to_code. rewrite Hst. cbn [bind].
    rewrite bool_decide_eq_true_2 by done.
    destruct v; try done; rewrite Hcc; cbn [bind]; rewrite Hcm;
      cbn [bind]; now rewrite Hfwd.
Qed.

(** ** Column dependence, whatever the models hold *)

Lemma py_index_raise {A} (l : list A) (i : Z) (e : pyerr) :
  py_index l i = Raise e -> e = IndexError.
Proof.
  unfold py_index. intros Hi.
  destruct (0 <=? i);
    [| destruct (0 <=? Z.of_nat (length l) + i); [| congruence]];
    (match type of Hi with
     | or_raise ?o _ = _ => destruct o; cbn in Hi; congruence
     end).
Qed.

Lemma dependence_loop_sym (cc0 cc1 : Z) (cells : list sqlarg) :
  forall count nmodels : Z,
    dependence_loop cc0 cc1 cells count nmodels
      = dependence_loop cc1 cc0 cells count nmodels.
Proof.
  induction cells as [|cell cells IH]; intros count nmodels; [reflexivity |].
  cbn [dependence_loop].
  destruct (json_loads_theta cell) as [t|e]; [| reflexivity]. cbn [bind].
  destruct (py_index (column_partition_assignments (X_L t)) cc0)
    as [a0|e0] eqn:E0;
    destruct (py_index (column_partition_assignments (X_L t)) cc1)
      as [a1|e1] eqn:E1; cbn [bind].
  - rewrite (Z.eqb_sym a1 a0).
    destruct (a0 =? a1) eqn:Ea; cbn [negb]; [| apply IH].
    apply Z.eqb_eq in Ea as ->.
    destruct (py_index (X_D t) a1) as [clusters|e]; [| reflexivity].
    cbn [bind]. destruct (_ <=? 1); apply IH.
  - reflexivity.
  - reflexivity.
  - apply py_index_raise in E0, E1. congruence.
Qed.

Lemma dependence_loop_counts (cc0 cc1 : Z) (cells : list sqlarg) :
  forall count nmodels count' nmodels' : Z,
    dependence_loop cc0 cc1 cells count nmodels = Ok (count', nmodels') ->
    nmodels' = nmodels + Z.of_nat (length cells) /\
    count <= count' /\ count' - count <= nmodels' - nmodels.
Proof.
  induction cells as [|cell cells IH];
    intros count nmodels count' nmodels' Hloop.
  - injection Hloop as <- <-. cbn. lia.
  - cbn [dependence_loop] in Hloop.
    apply bind_ok in Hloop as (t & _ & Hloop).
    apply bind_ok in Hloop as (a0 & _ & Hloop).
    apply bind_ok in Hloop as (a1 & _ & Hloop).
    cbn [length]. 
    destruct (negb (a0 =? a1)).
    + apply IH in Hloop. lia.
    + apply bind_ok in Hloop as (a & _ & Hloop).
      apply bind_ok in Hloop as (clusters & _ & Hloop).
      destruct (_ <=? 1); apply IH in Hloop; lia.
Qed.

(** X10.  [column_dependence_probability] does not depend on the order of
    its two columns: the value is the same, and when one order raises so
    does the other, with an exception of the same class. *)
Theorem column_dependence_probability_symmetric (db : store)
    (generator_id colno0 colno1 : Z) :
  column_dependence_probability db generator_id colno0 colno1
    = column_dependence_probability db generator_id colno1 colno0.
Proof.
  unfold column_dependence_probability. rewrite (Z.eqb_sym colno1 colno0).
  destruct (colno0 =? colno1); [reflexivity |].
  destruct (crosscat_cc_colno db generator_id colno0) as [cc0|e0] eqn:E0;
    destruct (crosscat_cc_colno db generator_id colno1) as [cc1|e1] eqn:E1;
    cbn [bind]; try reflexivity.
  - now rewrite dependence_loop_sym.
  - unfold crosscat_cc_colno, or_raise in E0, E1.
    destruct (_ <$> _) in E0; [discriminate |].
    destruct (_ <$> _) in E1; [discriminate |]. congruence.
Qed.

(** X11.  What [column_dependence_probability] returns is the integer 1
    (for a column with itself), NaN (for two columns of a generator with
    no stored model) or a float between 0 and 1: nothing else, whatever
    the stored models hold. *)
Theorem column_dependence_probability_range (db : store)
    (generator_id colno0 colno1 : Z) (v : pyval) :
  column_dependence_probability db generator_id colno0 colno1 = Ok v ->
  (colno0 = colno1 /\ v = PInt 1) \/
  (colno0 <> colno1 /\ crosscat_theta_cells db generator_id = [] /\
   v = PFloat FNaN) \/
  (colno0 <> colno1 /\ crosscat_theta_cells db generator_id <> [] /\
   exists q : Q, v = PFloat (FNum q) /\ (0 <= q)%Q /\ (q <= 1)%Q).
Proof.
  unfold column_dependence_probability. intros Hcdp.
  destruct (colno0 =? colno1) eqn:Ec.
  { left. apply Z.eqb_eq in Ec. injection Hcdp as <-. done. }
  right. apply Z.eqb_neq in Ec.
  apply bind_ok in Hcdp as (cc0 & _ & Hcdp).
  apply bind_ok in Hcdp as (cc1 & _ & Hcdp).
  apply bind_ok in Hcdp as ([count nmodels] & Hloop & Hcdp).
  apply dependence_loop_counts in Hloop as (Hn & Hlo & Hhi).
  rewrite Z.add_0_l in Hn.
  destruct (nmodels =? 0) eqn:En.
  - left. apply Z.eqb_eq in En. injection Hcdp as <-.
    repeat split; try done.
    destruct (crosscat_theta_cells db generator_id); [done | cbn in Hn; lia].
  - right. apply Z.eqb_neq in En.
    rewrite float_div_of_Z in Hcdp by done. injection Hcdp as <-.
    split; [done |]. split.
    { intros Hnil. rewrite Hnil in Hn. cbn in Hn. lia. }
    eexists. split; [reflexivity |].
    assert (Hpos : (0 < inject_Z nmodels)%Q).
    { unfold Qlt. cbn. lia. }
    split.
    + apply Qle_shift_div_l; [done |]. rewrite Qmult_0_l.
      unfold Qle. cbn. lia.
    + apply Qle_shift_div_r; [done |]. rewrite Qmult_1_l.
      unfold Qle. cbn. lia.
Qed.

(** ** What [analyze] leaves alone *)

Lemma update_theta_sql_noop (db : store) (p1 p2 : sqlarg) (t : theta) :
  update_theta_sql db p1 p2 (AJson t) = db.
Proof.
  apply store_ext; try reflexivity. apply update_theta_sql_json.
Qed.

Lemma update_iterations_sql_frame (db : store) (p1 p2 p3 : Z) :
  with_generator_model (update_iterations_sql db p1 p2 p3)
    (bayesdb_generator_model db) = db /\
  (fun m => (gm_generator_id m, gm_modelno m))
    <$> bayesdb_generator_model (update_iterations_sql db p1 p2 p3)
  = (fun m => (gm_generator_id m, gm_modelno m))
      <$> bayesdb_generator_model db.
Proof.
  split; [now destruct db |].
  unfold update_iterations_sql.
  cbn [with_generator_model bayesdb_generator_model].
  rewrite <- list_fmap_compose. apply list_fmap_ext.
  intros i m _. cbn. now case_bool_decide.
Qed.

Lemma with_generator_model_trans (a b c : store) :
  with_generator_model b (bayesdb_generator_model a) = a ->
  with_generator_model c (bayesdb_generator_model b) = b ->
  with_generator_model c (bayesdb_generator_model a) = a.
Proof.
  destruct a, b, c. unfold with_generator_model. cbn.
  intros [= -> -> -> -> -> -> -> ->] [= -> -> -> -> -> -> -> ->].
  reflexivity.
Qed.

Lemma analyze_updates_frame (generator_id n_steps : Z)
    (items : list (Z * theta * XL * XD)) :
  forall db : store,
    with_generator_model (analyze_updates db generator_id n_steps items)
      (bayesdb_generator_model db) = db /\
    (fun m => (gm_generator_id m, gm_modelno m))
      <$> bayesdb_generator_model
            (analyze_updates db generator_id n_steps items)
    = (fun m => (gm_generator_id m, gm_modelno m))
        <$> bayesdb_generator_model db.
Proof.
  induction items as [|[[[modelno th] xl] xd] items IH]; intros db.
  - split; [now destruct db | reflexivity].
  - cbn [analyze_updates]. rewrite update_theta_sql_noop.
    destruct (IH (update_iterations_sql db generator_id modelno n_steps))
      as [Hframe Hkeys].
    destruct (update_iterations_sql_frame db generator_id modelno n_steps)
      as [Hframe1 Hkeys1].
    split; [| congruence].
    eapply with_generator_model_trans; eassumption.
Qed.

Lemma analyze_batch_frame `{CrosscatEngine} (M_c : metadata)
    (T : data_matrix) (generator_id : Z) (modelnos : option (list Z))
    (n_steps : Z) (db db' : store) (r : result unit) :
  savepoint (analyze_batch M_c T generator_id modelnos n_steps) db
    = (r, db') ->
  with_generator_model db' (bayesdb_generator_model db) = db /\
  (fun m => (gm_generator_id m, gm_modelno m)) <$> bayesdb_generator_model db'
  = (fun m => (gm_generator_id m, gm_modelno m))
      <$> bayesdb_generator_model db.
Proof.
  unfold savepoint.
  destruct (analyze_batch M_c T generator_id modelnos n_steps db)
    as [[u d]|e] eqn:Hbatch; intros [= <- <-];
    [| split; [now destruct db | reflexivity]].
  unfold analyze_batch in Hbatch.
  apply bind_ok in Hbatch as ([ums thetas] & _ & Hbatch).
  destruct (negb (0 <? Z.of_nat (length thetas))); [discriminate |].
  apply bind_ok in Hbatch as (theta0 & _ & Hbatch).
  apply bind_ok in Hbatch as ([xls xds] & _ & Hbatch).
  apply bind_ok in Hbatch as (ums' & _ & Hbatch).
  injection Hbatch as Hd. subst d. apply analyze_updates_frame.
Qed.

Lemma analyze_loop_frame `{CrosscatEngine} (clock : nat -> Q)
    (M_c : metadata) (T : data_matrix) (generator_id : Z)
    (modelnos : option (list Z)) (max_seconds deadline : option Q) :
  forall (fuel tick : nat) (iterations : option Z) (db db' : store)
         (batches bs : list Z) (r : result unit),
    analyze_loop fuel clock tick M_c T generator_id modelnos iterations
      max_seconds deadline db batches = Some (r, db', bs) ->
    with_generator_model db' (bayesdb_generator_model db) = db /\
    (fun m => (gm_generator_id m, gm_modelno m))
      <$> bayesdb_generator_model db'
    = (fun m => (gm_generator_id m, gm_modelno m))
        <$> bayesdb_generator_model db.
Proof.
  assert (Hrefl : forall db : store,
             with_generator_model db (bayesdb_generator_model db) = db)
    by (now intros []).
  induction fuel as [|fuel IH]; intros tick its db db' batches bs r Hloop;
    [discriminate |].
  cbn [analyze_loop] in Hloop.
  destruct (negb _); [injection Hloop as <- <- <-; auto |].
  destruct (match deadline with
            | Some d => (negb (Qle_bool d (clock tick)), S tick)
            | None => (true, tick)
            end) as [in_time tick'].
  destruct in_time; cbn [negb] in Hloop;
    [| injection Hloop as <- <- <-; auto].
  destruct (savepoint _ db) as [[u|e] db1] eqn:Hsave;
    apply analyze_batch_frame in Hsave as [Hframe Hkeys].
  - apply IH in Hloop as [Hframe' Hkeys']. split; [| congruence].
    eapply with_generator_model_trans; eassumption.
  - injection Hloop as <- <- <-. auto.
Qed.

(** X12.  Whatever the engine computes and however the call ends,
    [analyze] changes nothing but iteration counters: the store it leaves
    differs from the one it started from in [bayesdb_generator_model]
    only, where the rows keep their generator and model numbers.  In
    particular no theta it computed is stored. *)
Theorem analyze_changes_counters_only `{PyFloats} `{CrosscatEngine}
    (fuel : nat) (clock : nat -> Q) (db db' : store) (generator_id : Z)
    (modelnos : option (list Z)) (iterations : option Z)
    (max_seconds : option Q) (r : result unit) (bs : list Z) :
  analyze fuel clock db generator_id modelnos iterations max_seconds
    = Some (r, db', bs) ->
  with_generator_model db' (bayesdb_generator_model db) = db /\
  bayesdb_crosscat_theta db' = bayesdb_crosscat_theta db /\
  (fun m => (gm_generator_id m, gm_modelno m)) <$> bayesdb_generator_model db'
  = (fun m => (gm_generator_id m, gm_modelno m))
      <$> bayesdb_generator_model db.
Proof.
  unfold analyze. intros Hrun.
  assert (Hsame : forall e : pyerr,
             Some (Raise e, db, @nil Z) = Some (r, db', bs) ->
             with_generator_model db' (bayesdb_generator_model db) = db /\
             bayesdb_crosscat_theta db' = bayesdb_crosscat_theta db /\
             (fun m => (gm_generator_id m, gm_modelno m))
               <$> bayesdb_generator_model db'
             = (fun m => (gm_generator_id m, gm_modelno m))
                 <$> bayesdb_generator_model db).
  { intros e [= <- <- <-]. now destruct db. }
  destruct (crosscat_metadata db generator_id) as [M_c|e]; [| eauto].
  destruct (crosscat_data db generator_id M_c) as [T|e]; [| eauto].
  destruct (match max_seconds with
            | Some s => (Some (clock O + s)%Q, 1%nat)
            | None => (None, O)
            end) as [deadline tick].
  pose proof (analyze_loop_frame _ _ _ _ _ _ _ _ _ _ _ _ _ _ _ Hrun)
    as [Hframe Hkeys].
  pose proof (analyze_loop_theta _ _ _ _ _ _ _ _ _ _ _ _ _ _ _ Hrun)
    as Htheta.
  auto.
Qed.

(** ** The batches [analyze] runs *)

Lemma analyze_loop_batches `{CrosscatEngine} (clock : nat -> Q)
    (M_c : metadata) (T : data_matrix) (generator_id : Z)
    (modelnos : option (list Z)) (max_seconds deadline : option Q) :
  forall (fuel tick : nat) (iterations : option Z) (db db' : store)
         (batches bs : list Z) (r : result unit),
    analyze_loop fuel clock tick M_c T generator_id modelnos iterations
      max_seconds deadline db batches = Some (r, db', bs) ->
    exists new : list Z,
      bs = batches ++ new /\
      Forall (fun n => 0 < n) new /\
      (max_seconds <> None -> Forall (fun n => n = 1) new) /\
      (forall i, iterations = Some i -> foldr Z.add 0 new <= Z.max 0 i) /\
      (r = Ok tt \/ exists n, last new = Some n).
Proof.
  induction fuel as [|fuel IH]; intros tick its db db' batches bs r Hloop;
    [discriminate |].
  cbn [analyze_loop] in Hloop.
  assert (Hnone : Some (Ok tt, db, batches) = Some (r, db', bs) ->
                  exists new : list Z,
                    bs = batches ++ new /\
                    Forall (fun n => 0 < n) new /\
                    (max_seconds <> None -> Forall (fun n => n = 1) new) /\
                    (forall i, its = Some i ->
                               foldr Z.add 0 new <= Z.max 0 i) /\
                    (r = Ok tt \/ exists n, last new = Some n)).
  { intros [= <- <- <-]. exists []. rewrite app_nil_r.
    repeat split; auto. intros i _. cbn. lia. }
  destruct (negb match its with
                 | Some i => 0 <? i
                 | None => true
                 end) eqn:Ebudget; [auto |].
  destruct (match deadline with
            | Some d => (negb (Qle_bool d (clock tick)), S tick)
            | None => (true, tick)
            end) as [in_time tick'].
  destruct in_time; cbn [negb] in Hloop; [| auto].
  set (n_steps := match its, max_seconds with
                  | Some i, None => i
                  | _, _ => 1
                  end) in *.
  assert (Hpos : 0 < n_steps).
  { subst n_steps. destruct its as [i|]; [| lia].
    apply negb_false_iff, Z.ltb_lt in Ebudget.
    destruct max_seconds; lia. }
  assert (Hone : max_seconds <> None -> n_steps = 1).
  { subst n_steps. destruct its, max_seconds; congruence. }
  assert (Hle : forall i, its = Some i -> n_steps <= i).
  { intros i ->. subst n_steps.
    apply negb_false_iff, Z.ltb_lt in Ebudget.
    destruct max_seconds; lia. }
  destruct (savepoint _ db) as [[u|e] db1].
  - apply IH in Hloop as (new & -> & Hall & Hones & Hsum & Hlast).
    exists (n_steps :: new). rewrite <- app_assoc.
    split; [reflexivity |]. split; [now constructor |].
    split; [intros Hmax; constructor; auto |].
    split.
    + intros i ->. cbn. specialize (Hsum (i - n_steps) eq_refl).
      specialize (Hle i eq_refl). lia.
    + destruct Hlast as [-> | [n Hn]]; [now left | right].
      destruct new as [|m new]; [discriminate |]. exists n. exact Hn.
  - injection Hloop as <- <- <-. exists [n_steps].
    split; [reflexivity |]. split; [repeat constructor; done |].
    split; [intros Hmax; repeat constructor; auto |].
    split; [| right; now exists n_steps].
    intros i Hi. cbn. specialize (Hle i Hi). lia.
Qed.

(** X13.  [analyze] never runs more steps than its iteration budget: the
    steps of the batches it entered sum to at most [max(0, iterations)],
    so none is entered when the budget is zero or negative.  Every batch
    has at least one step, and exactly one when a time bound is given. *)
Theorem analyze_batches `{PyFloats} `{CrosscatEngine} (fuel : nat)
    (clock : nat -> Q) (db db' : store) (generator_id : Z)
    (modelnos : option (list Z)) (iterations : option Z)
    (max_seconds : option Q) (r : result unit) (bs : list Z) :
  analyze fuel clock db generator_id modelnos iterations max_seconds
    = Some (r, db', bs) ->
  Forall (fun n => 0 < n) bs /\
  (max_seconds <> None -> Forall (fun n => n = 1) bs) /\
  (forall i, iterations = Some i -> foldr Z.add 0 bs <= Z.max 0 i).
Proof.
  unfold analyze. intros Hrun.
  assert (Hnone : forall e : pyerr,
             Some (Raise e, db, @nil Z) = Some (r, db', bs) ->
             Forall (fun n => 0 < n) bs /\
             (max_seconds <> None -> Forall (fun n => n = 1) bs) /\
             (forall i, iterations = Some i ->
                        foldr Z.add 0 bs <= Z.max 0 i)).
  { intros e [= <- <- <-]. repeat split; auto. intros i _. cbn. lia. }
  destruct (crosscat_metadata db generator_id) as [M_c|e]; [| eauto].
  destruct (crosscat_data db generator_id M_c) as [T|e]; [| eauto].
  destruct (match max_seconds with
            | Some s => (Some (clock O + s)%Q, 1%nat)
            | None => (None, O)
            end) as [deadline tick].
  apply analyze_loop_batches in Hrun as (new & -> & Hall & Hones & Hsum & _).
  auto.
Qed.

(** ** Batches that cannot run *)

Lemma analyze_first_batch_raises `{PyFloats} `{CrosscatEngine} (fuel : nat)
    (clock : nat -> Q) (db : store) (generator_id : Z)
    (modelnos : option (list Z)) (k : Z) (M_c : metadata) (T : data_matrix)
    (e : pyerr) :
  crosscat_metadata db generator_id = Ok M_c ->
  crosscat_data db generator_id M_c = Ok T ->
  0 < k ->
  analyze_batch M_c T generator_id modelnos k db = Raise e ->
  analyze (S fuel) clock db generator_id modelnos (Some k) None
    = Some (Raise e, db, [k]).
Proof.
  intros Hmeta Hdata Hk Hbatch. unfold analyze. rewrite Hmeta, Hdata.
  cbn [analyze_loop]. apply Z.ltb_lt in Hk. rewrite Hk. cbn [negb].
  unfold savepoint. now rewrite Hbatch.
Qed.

(** X14.  A generator without a model cannot be analyzed: with a
    positive iteration budget, [analyze] over all models enters its first
    batch, fails the assertion [0 < len(thetas)] there and leaves the
    store as it found it. *)
Theorem analyze_without_models `{PyFloats} `{CrosscatEngine} (fuel : nat)
    (clock : nat -> Q) (db : store) (generator_id k : Z) (M_c : metadata)
    (T : data_matrix) :
  crosscat_metadata db generator_id = Ok M_c ->
  crosscat_data db generator_id M_c = Ok T ->
  models_sql db generator_id = [] ->
  0 < k ->
  analyze (S fuel) clock db generator_id None (Some k) None
    = Some (Raise AssertionError, db, [k]).
Proof.
  intros Hmeta Hdata Hmodels Hk.
  apply (analyze_first_batch_raises fuel clock db generator_id None k M_c T);
    try done.
  unfold analyze_batch. now rewrite Hmodels.
Qed.

(** X15.  [analyze] of chosen models never completes a batch: the query
    that loads a chosen model names the column [theta], which
    [bayesdb_crosscat_theta] does not have, so the first batch raises
    [OperationalError]; with an empty list of models the assertion
    [0 < len(thetas)] fails instead.  The store is left as it was. *)
Theorem analyze_modelnos_raises `{PyFloats} `{CrosscatEngine} (fuel : nat)
    (clock : nat -> Q) (db : store) (generator_id k : Z)
    (modelnos : list Z) (M_c : metadata) (T : data_matrix) :
  crosscat_metadata db generator_id = Ok M_c ->
  crosscat_data db generator_id M_c = Ok T ->
  0 < k ->
  analyze (S fuel) clock db generator_id (Some modelnos) (Some k) None
    = Some (Raise (match modelnos with
                   | [] => AssertionError
                   | _ :: _ => OperationalError "no such column"
                   end), db, [k]).
Proof.
  intros Hmeta Hdata Hk.
  apply (analyze_first_batch_raises fuel clock db generator_id
           (Some modelnos) k M_c T); try done.
  unfold analyze_batch. now destruct modelnos.
Qed.

(** ** What [insertmany] leaves when it succeeds *)

Lemma rows_appended_refl (table : string) (db : store) :
  rows_appended table 0 db db.
Proof.
  split; [now destruct db |]. split; [done |].
  destruct (user_tables db !! table) as [t|] eqn:Ht; [| done].
  exists []. split; [done |]. rewrite app_nil_r. now destruct t.
Qed.

Lemma rows_appended_trans (table : string) (n m : nat) (a b c : store) :
  rows_appended table n a b -> rows_appended table m b c ->
  rows_appended table (n + m) a c.
Proof.
  intros (Hab & Hoab & Htab) (Hbc & Hobc & Htbc). split; [| split].
  - destruct a, b, c. unfold with_user_tables in *. cbn in *.
    injection Hab as -> -> -> -> -> -> -> ->.
    injection Hbc as -> -> -> -> -> -> -> ->. reflexivity.
  - intros other Hne. now rewrite Hobc, Hoab.
  - destruct (user_tables a !! table) as [t|].
    + destruct Htab as (new & Hlen & Hb). rewrite Hb in Htbc.
      destruct Htbc as (new' & Hlen' & Hc). cbn in Hc.
      exists (new ++ new'). split; [rewrite length_app; lia |].
      now rewrite app_assoc.
    + now rewrite Htab in Htbc.
Qed.

Lemma insert_row_appended (db db' : store) (table : string)
    (names : list string) (row : list pyval) :
  insert_row db table names row = Ok db' -> rows_appended table 1 db db'.
Proof.
  unfold insert_row. destruct names as [|n names]; [discriminate |].
  intros Hins. apply bind_ok in Hins as (t & Ht & Hins).
  apply bind_ok in Hins as (idxs & _ & Hins).
  case_bool_decide; [| discriminate]. injection Hins as <-.
  unfold user_table_of in Ht.
  destruct (user_tables db !! table) as [t0|] eqn:Hlook; [| discriminate].
  injection Ht as ->.
  split; [now destruct db |]. cbn [with_user_tables user_tables]. split.
  - intros other Hne. now rewrite lookup_insert_ne.
  - rewrite Hlook. eexists [_]. split; [reflexivity |].
    now rewrite lookup_insert_eq.
Qed.

Lemma insertmany_rows_appended (table : string) (names : list string)
    (rows : list (list pyval)) :
  forall db db' : store,
    insertmany_rows db table names rows = Ok db' ->
    rows_appended table (length rows) db db'.
Proof.
  induction rows as [|row rows IH]; intros db db' Hins; cbn in Hins.
  - injection Hins as <-. apply rows_appended_refl.
  - destruct (negb _); [discriminate |].
    apply bind_ok in Hins as (db1 & Hrow & Hins).
    apply insert_row_appended in Hrow. apply IH in Hins.
    exact (rows_appended_trans table 1 (length rows) db db1 db' Hrow Hins).
Qed.

(** X16.  [insertmany] is all or nothing, and never updates a model.
    When it raises, the store is the one it started from.  When it
    returns, the generator had no model, every row given was appended to
    the generator's table, and no other table changed. *)
Theorem insertmany_outcome `{PyFloats} `{CrosscatEngine} (db db' : store)
    (generator_id : Z) (rows : list (list pyval)) (r : result unit) :
  insertmany db generator_id rows = (r, db') ->
  match r with
  | Raise _ => db' = db
  | Ok _ =>
      models_sql db generator_id = [] /\
      exists table : string,
        bayesdb_generator_table db generator_id = Ok table /\
        rows_appended table (length rows) db db'
  end.
Proof.
  destruct r as [u|e]; [| apply savepoint_raise].
  unfold insertmany, savepoint.
  match goal with
  | |- context [match ?b with Ok _ => _ | Raise _ => _ end] =>
      destruct b as [[u' d]|e] eqn:Hbody
  end; [| discriminate].
  intros [= -> ->].
  apply bind_ok in Hbody as (table_name & Htable & Hbody).
  apply bind_ok in Hbody as (db1 & Hrows & Hbody).
  apply bind_ok in Hbody as (remap & _ & Hbody).
  destruct (negb _); [discriminate |].
  apply bind_ok in Hbody as (M_c & _ & Hbody).
  apply bind_ok in Hbody as (modelled_rows & _ & Hbody).
  apply bind_ok in Hbody as (T & _ & Hbody).
  apply bind_ok in Hbody as (X_L_list & Hxl & Hbody).
  apply bind_ok in Hbody as (X_D_list & _ & Hbody).
  apply bind_ok in Hbody as ([[xls xds] T1] & _ & Hbody).
  apply bind_ok in Hbody as (T' & _ & Hbody).
  destruct (negb _); [discriminate |].
  destruct (zip4 _ _ _ _); [| discriminate].
  assert (db1 = db') as -> by congruence.
  apply mapM_raise_all in Hxl. apply fmap_nil_inv in Hxl.
  rewrite (insertmany_rows_models _ _ _ _ _ _ Hrows) in Hxl.
  split; [exact Hxl |]. exists table_name. split; [exact Htable |].
  eapply insertmany_rows_appended, Hrows.
Qed.

(** ** The indices of the modelled columns *)

Section Remap.
Variables modelled_column_names sql_column_names : list string.

Lemma remap_invariant_mono (j j' : Z) (remap : list Z) :
  j <= j' ->
  remap_invariant modelled_column_names sql_column_names j remap ->
  remap_invariant modelled_column_names sql_column_names j' remap.
Proof.
  intros Hj (Hlen & Hgood & Hinc). split; [done |]. split; [| done].
  intros k i Hk. destruct (Hgood k i Hk) as [Hi Hex]. split; [lia | done].
Qed.

Lemma insertmany_remap_invariant :
  forall (names pre : list string) (remap : list Z),
    sql_column_names = pre ++ names ->
    remap_invariant modelled_column_names sql_column_names
      (Z.of_nat (length pre)) remap ->
    exists remap' : list Z,
      insertmany_remap modelled_column_names
        (enumerate_from (Z.of_nat (length pre)) names) remap = Ok remap' /\
      remap_invariant modelled_column_names sql_column_names
      (Z.of_nat (length sql_column_names)) remap'.
Proof.
  induction names as [|name names IH]; intros pre remap Hnames Hinv.
  - exists remap. split; [reflexivity |].
    replace (length sql_column_names) with (length pre); [exact Hinv |].
    now rewrite Hnames, app_nil_r.
  - assert (Hend : Z.of_nat (length pre)
                   <= Z.of_nat (length sql_column_names)).
    { rewrite Hnames, length_app. lia. }
    cbn [enumerate_from insertmany_remap].
    destruct (Z.of_nat (length modelled_column_names)
              <=? Z.of_nat (length remap)) eqn:Efull.
    { exists remap. split; [reflexivity |].
      eapply remap_invariant_mono; eassumption. }
    apply Z.leb_gt in Efull.
    destruct (lookup_lt_is_Some_2 modelled_column_names (length remap))
      as [modelled Hmodelled]; [lia |].
    rewrite py_index_nat, Hmodelled. cbn [or_raise bind].
    replace (Z.of_nat (length pre) + 1)
      with (Z.of_nat (length (pre ++ [name])))
      by (rewrite length_app; cbn; lia).
    assert (Hnames' : sql_column_names = (pre ++ [name]) ++ names)
      by (now rewrite <- app_assoc).
    case_bool_decide as Ename; apply IH; try done.
    + destruct Hinv as (Hlen & Hgood & Hinc).
      split; [rewrite length_app; cbn; lia |]. split.
      * intros k i Hk. apply lookup_app_Some in Hk as [Hk | [Hge Hk]].
        -- destruct (Hgood k i Hk) as [Hi Hex].
           split; [rewrite length_app; cbn; lia | done].
        -- apply list_lookup_singleton_Some in Hk as [Hk0 <-].
           replace k with (length remap) by lia.
           split; [rewrite length_app; cbn; lia |].
           exists name, modelled. rewrite Nat2Z.id.
           split; [| done]. rewrite Hnames. apply list_lookup_middle. done.
      * intros k k' i i' Hlt Hk Hk'.
        apply lookup_app_Some in Hk as [Hk | [Hge Hk]];
          apply lookup_app_Some in Hk' as [Hk' | [Hge' Hk']].
        -- eapply Hinc; eassumption.
        -- apply list_lookup_singleton_Some in Hk' as [_ <-].
           destruct (Hgood k i Hk). lia.
        -- apply lookup_lt_Some in Hk'. lia.
        -- apply list_lookup_singleton_Some in Hk as [Hk0 _].
           apply list_lookup_singleton_Some in Hk' as [Hk0' _]. lia.
    + eapply remap_invariant_mono; [| exact Hinv].
      rewrite length_app. cbn. lia.
Qed.

End Remap.

(** X17.  The loop of [insertmany] that finds the modelled columns among
    the table's columns never raises, and what it finds is in order: the
    [k]-th index it returns is the position of a table column whose name
    matches the [k]-th modelled column under [casefold], the indices
    are strictly increasing, and there are at most as many as modelled
    columns. *)
Theorem insertmany_remap_spec
    (modelled_column_names sql_column_names : list string) :
  exists remap : list Z,
    insertmany_remap modelled_column_names (enumerate sql_column_names) []
      = Ok remap /\
    (length remap <= length modelled_column_names)%nat /\
    (forall (k : nat) (i : Z),
       remap !! k = Some i ->
       0 <= i < Z.of_nat (length sql_column_names) /\
       exists name modelled : string,
         sql_column_names !! Z.to_nat i = Some name /\
         modelled_column_names !! k = Some modelled /\
         casefold name = casefold modelled) /\
    (forall (k k' : nat) (i i' : Z),
       (k < k')%nat -> remap !! k = Some i -> remap !! k' = Some i' ->
       i < i').
Proof.
  apply (insertmany_remap_invariant modelled_column_names sql_column_names
           sql_column_names [] []); [done |].
  split; [cbn; lia |]. split; intros k; intros; by destruct k.
Qed.

(** ** The shape of the data matrix *)

Lemma select_columns_shape (db : store) (table : string)
    (names : list string) (rows : list (list pyval)) :
  select_columns db table names = Ok rows ->
  names <> [] /\
  exists t : user_table,
    user_tables db !! table = Some t /\
    length rows = length (ut_rows t) /\
    Forall (fun row => length row = length names) rows.
Proof.
  unfold select_columns. destruct names as [|n names]; [discriminate |].
  intros Hsel. split; [discriminate |].
  apply bind_ok in Hsel as (t & Ht & Hsel).
  apply bind_ok in Hsel as (idxs & Hidxs & Hsel). injection Hsel as <-.
  unfold user_table_of in Ht.
  destruct (user_tables db !! table) as [t0|]; [| discriminate].
  injection Ht as ->. exists t. split; [done |].
  split; [apply length_fmap |].
  apply Forall_fmap, Forall_forall. intros row _. cbn.
  rewrite length_fmap. exact (mapM_length _ _ _ Hidxs).
Qed.

(** X18.  The matrix [crosscat_data] returns has one row of codes for
    each row of the generator's table, in the order of the table, and in
    each row one code for each column of the generator.  A generator
    without columns has no matrix: the call raises. *)
Theorem crosscat_data_shape `{PyFloats} (db : store) (generator_id : Z)
    (M_c : metadata) (T : data_matrix) :
  crosscat_data db generator_id M_c = Ok T ->
  exists (table : string) (t : user_table),
    bayesdb_generator_table db generator_id = Ok table /\
    user_tables db !! table = Some t /\
    columns_sql db generator_id <> [] /\
    length T = length (ut_rows t) /\
    Forall (fun codes => length codes = length (columns_sql db generator_id))
      T.
Proof.
  unfold crosscat_data. intros Hdata.
  apply bind_ok in Hdata as (table & Htable & Hdata).
  apply bind_ok in Hdata as (rows & Hrows & Hdata).
  apply select_columns_shape in Hrows as (Hne & t & Ht & Hlen & Hwidth).
  rewrite length_fmap in Hwidth.
  exists table, t. split; [done |]. split; [done |].
  split; [intros Hnil; now rewrite Hnil in Hne |].
  split; [rewrite <- Hlen; exact (mapM_length _ _ _ Hdata) |].
  apply Forall_lookup. intros i codes Hi.
  destruct (lookup_lt_is_Some_2 rows i) as [row Hrow].
  { rewrite <- (mapM_length _ _ _ Hdata). now apply lookup_lt_Some in Hi. }
  destruct (mapM_lookup _ _ _ Hdata i row Hrow) as (codes' & Hi' & Hcodes).
  assert (codes' = codes) as -> by congruence.
  rewrite (mapM_length _ _ _ Hcodes), length_zip.
  rewrite Forall_lookup in Hwidth. specialize (Hwidth i row Hrow).
  cbn in Hwidth. lia.
Qed.

(** ** The two numberings of the columns *)

Lemma cursor_next_filter_elem {A} (P : A -> Prop) `{forall x, Decision (P x)}
    (l : list A) (r : A) :
  cursor_next (filter P l) = Some r -> P r /\ r ∈ l.
Proof.
  unfold cursor_next. intros Hhead.
  assert (Hin : r ∈ filter P l).
  { destruct (filter P l) as [|r' l']; [discriminate |].
    injection Hhead as ->. apply list_elem_of_here. }
  now apply list_elem_of_filter in Hin.
Qed.

Lemma cursor_next_filter_some {A} (P : A -> Prop)
    `{forall x, Decision (P x)} (l : list A) (x : A) :
  x ∈ l -> P x -> exists r, cursor_next (filter P l) = Some r.
Proof.
  intros Hin HP. unfold cursor_next.
  assert (Hx : x ∈ filter P l) by now apply list_elem_of_filter.
  destruct (filter P l) as [|r l']; [by apply elem_of_nil in Hx |].
  now exists r.
Qed.

Lemma NoDup_fmap_key {A B} (f : A -> B) (l : list A) (x y : A) :
  NoDup (f <$> l) -> x ∈ l -> y ∈ l -> f x = f y -> x = y.
Proof.
  intros Hnd Hx Hy Hxy.
  apply list_elem_of_lookup in Hx as [i Hi].
  apply list_elem_of_lookup in Hy as [j Hj].
  assert (Hij : i = j).
  { eapply NoDup_lookup; [exact Hnd | |].
    - rewrite list_lookup_fmap, Hi. reflexivity.
    - rewrite list_lookup_fmap, Hj. cbn. now rewrite Hxy. }
  subst j. congruence.
Qed.

(** X19.  Under the two uniqueness constraints of
    [bayesdb_crosscat_column], [crosscat_gen_colno] is the inverse of
    [crosscat_cc_colno]: a column has the compacted number [cc] exactly
    when [cc] maps back to the column. *)
Theorem crosscat_gen_colno_inverse (db : store) (generator_id colno cc : Z) :
  crosscat_column_keys_unique db ->
  crosscat_cc_colno db generator_id colno = Ok cc <->
  crosscat_gen_colno db generator_id cc = Ok colno.
Proof.
  intros [Hcolno Hcc]. unfold crosscat_cc_colno, crosscat_gen_colno.
  split; intros Hfound.
  - destruct (cursor_next
                (filter (fun r => ccol_generator_id r = generator_id /\
                                  ccol_colno r = colno)
                   (bayesdb_crosscat_column db)))
      as [r|] eqn:Hr; [| discriminate].
    injection Hfound as <-.
    apply cursor_next_filter_elem in Hr as [[Hg Hc] Hin].
    destruct (cursor_next_filter_some
                (fun r' => ccol_generator_id r' = generator_id /\
                           ccol_cc_colno r' = ccol_cc_colno r)
                (bayesdb_crosscat_column db) r Hin) as [r' Hr']; [done |].
    rewrite Hr'. cbn. f_equal.
    apply cursor_next_filter_elem in Hr' as [[Hg' Hc'] Hin'].
    rewrite <- Hc. f_equal.
    apply (NoDup_fmap_key _ _ _ _ Hcc Hin' Hin). congruence.
  - destruct (cursor_next
                (filter (fun r => ccol_generator_id r = generator_id /\
                                  ccol_cc_colno r = cc)
                   (bayesdb_crosscat_column db)))
      as [r|] eqn:Hr; [| discriminate].
    injection Hfound as <-.
    apply cursor_next_filter_elem in Hr as [[Hg Hc] Hin].
    destruct (cursor_next_filter_some
                (fun r' => ccol_generator_id r' = generator_id /\
                           ccol_colno r' = ccol_colno r)
                (bayesdb_crosscat_column db) r Hin) as [r' Hr']; [done |].
    rewrite Hr'. cbn. f_equal.
    apply cursor_next_filter_elem in Hr' as [[Hg' Hc'] Hin'].
    rewrite <- Hc. f_equal.
    apply (NoDup_fmap_key _ _ _ _ Hcolno Hin' Hin). congruence.
Qed.

(** X20.  A compacted number that no column of the generator has does
    not give the [ValueError] the function means to raise: the handler
    reads [colno], a name the function never binds, so the call raises
    [NameError]. *)
Theorem crosscat_gen_colno_missing (db : store) (generator_id cc : Z) :
  (forall r, r ∈ bayesdb_crosscat_column db ->
             ccol_generator_id r = generator_id -> ccol_cc_colno r <> cc) ->
  crosscat_gen_colno db generator_id cc = Raise (NameError "colno").
Proof.
  intros Hnone. unfold crosscat_gen_colno.
  destruct (cursor_next _) as [r|] eqn:Hr; [| reflexivity].
  apply cursor_next_filter_elem in Hr as [[Hg Hc] Hin].
  now destruct (Hnone r Hin Hg).
Qed.

(** ** Initializing models *)

Lemma zip_fst_prefix {A B} (l : list A) :
  forall k : list B, exists rest : list A, l = (zip l k).*1 ++ rest.
Proof.
  induction l as [|a l IH]; intros k; [now exists [] |].
  destruct k as [|b k]; [now exists (a :: l) |].
  destruct (IH k) as [rest Hrest]. exists rest. cbn. now f_equal.
Qed.

Lemma initialize_thetas_appends (generator_id : Z) (config : model_config) :
  forall (items : list (Z * (XL * XD))) (db db' : store) (r : result unit),
    initialize_thetas db generator_id config items = (r, db') ->
    exists (done rest : list (Z * (XL * XD)))
           (rows : list crosscat_theta_row),
      items = done ++ rest /\
      db' = with_crosscat_theta db (bayesdb_crosscat_theta db ++ rows) /\
      Forall2 (fun item row =>
                 th_generator_id row = generator_id /\
                 th_modelno row = item.1 /\
                 exists t : theta,
                   th_theta_json row = AJson t /\
                   X_L t = item.2.1 /\ X_D t = item.2.2 /\
                   iterations t = 0 /\ theta_config t = config)
        done rows /\
      match rest with
      | [] => r = Ok tt
      | item :: _ =>
          r = Raise (IntegrityError "PRIMARY KEY must be unique") /\
          Exists (fun row => th_generator_id row = generator_id /\
                             th_modelno row = item.1)
            (bayesdb_crosscat_theta db ++ rows)
      end.
Proof.
  induction items as [|[modelno [xl xd]] items IH]; intros db db' r Hinit.
  - injection Hinit as <- <-. exists [], [], [].
    split; [reflexivity |].
    split; [rewrite app_nil_r; now destruct db |].
    split; [constructor | done].
  - cbn [initialize_thetas] in Hinit.
    destruct (insert_theta_sql db generator_id modelno _) as [db1|e] eqn:Hins.
    + apply IH in Hinit as (done & rest & rows & -> & -> & Hrows & Hend).
      unfold insert_theta_sql in Hins.
      case_bool_decide; [discriminate |]. injection Hins as <-.
      eexists ((modelno, (xl, xd)) :: done), rest, (_ :: rows).
      split; [reflexivity |]. split.
      { cbn [with_crosscat_theta bayesdb_crosscat_theta
               bayesdb_generator bayesdb_column bayesdb_generator_column
               bayesdb_generator_model user_tables bayesdb_crosscat_metadata
               bayesdb_crosscat_column bayesdb_crosscat_column_codemap].
        now rewrite <- app_assoc. }
      split.
      { constructor; [| exact Hrows]. cbn.
        split; [reflexivity |]. split; [reflexivity |]. eauto 10. }
      destruct rest as [|item rest]; [exact Hend |].
      destruct Hend as [-> Htaken]. split; [reflexivity |].
      cbn [with_crosscat_theta bayesdb_crosscat_theta] in Htaken.
      now rewrite <- app_assoc in Htaken.
    + injection Hinit as <- <-. exists [], ((modelno, (xl, xd)) :: items), [].
      split; [reflexivity |].
      split; [rewrite app_nil_r; now destruct db |].
      split; [constructor |].
      unfold insert_theta_sql in Hins.
      case_bool_decide as Htaken; [| discriminate]. injection Hins as <-.
      split; [reflexivity |]. now rewrite app_nil_r.
Qed.

(** X21.  However it ends, [initialize] only appends to
    [bayesdb_crosscat_theta]: the rows it adds belong to the generator,
    are numbered by the first of [modelnos] in their order, and hold a
    theta at iteration 0 with the configuration given (the default one
    for [None]).  It opens no savepoint.  Once the engine has given the
    initial states, the models are stored one by one, each with its state
    from the engine, until a model number is met whose key
    [(generator_id, modelno)] the table holds already, be it from before
    the call or from a row this call has just added: there the call
    raises [IntegrityError], and the rows added before it are in the
    store it leaves.  It returns only when every model was stored. *)
Theorem initialize_appends `{PyFloats} `{CrosscatSampler} (db db' : store)
    (generator_id : Z) (modelnos : list Z) (config : option model_config)
    (r : result unit) :
  initialize db generator_id modelnos config = (r, db') ->
  (exists (rows : list crosscat_theta_row) (rest : list Z),
     db' = with_crosscat_theta db (bayesdb_crosscat_theta db ++ rows) /\
     modelnos = (th_modelno <$> rows) ++ rest /\
     Forall (fun row =>
               th_generator_id row = generator_id /\
               exists t : theta,
                 th_theta_json row = AJson t /\ iterations t = 0 /\
                 theta_config t = default default_model_config config)
       rows) /\
  (forall (M_c : metadata) (T : data_matrix)
          (states : init_result (length modelnos)),
     crosscat_metadata db generator_id = Ok M_c ->
     crosscat_data db generator_id M_c = Ok T ->
     engine_initialize M_c T (length modelnos)
       (initialization (default default_model_config config))
       (row_initialization (default default_model_config config))
       = Ok states ->
     exists (done rest : list (Z * (XL * XD)))
            (rows : list crosscat_theta_row),
       zip modelnos
         (zip (initial_states (length modelnos) states).1
            (initial_states (length modelnos) states).2) = done ++ rest /\
       db' = with_crosscat_theta db (bayesdb_crosscat_theta db ++ rows) /\
       Forall2 (fun item row =>
                  th_generator_id row = generator_id /\
                  th_modelno row = item.1 /\
                  exists t : theta,
                    th_theta_json row = AJson t /\
                    X_L t = item.2.1 /\ X_D t = item.2.2 /\
                    iterations t = 0 /\
                    theta_config t = default default_model_config config)
         done rows /\
       match rest with
       | [] => r = Ok tt
       | item :: _ =>
           r = Raise (IntegrityError "PRIMARY KEY must be unique") /\
           Exists (fun row => th_generator_id row = generator_id /\
                              th_modelno row = item.1)
             (bayesdb_crosscat_theta db ++ rows)
       end).
Proof.
  unfold initialize. intros Hinit. split.
  - assert (Hnone : forall e : pyerr,
               (@Raise unit e, db) = (r, db') ->
               exists (rows : list crosscat_theta_row) (rest : list Z),
                 db' = with_crosscat_theta db
                         (bayesdb_crosscat_theta db ++ rows) /\
                 modelnos = (th_modelno <$> rows) ++ rest /\
                 Forall (fun row =>
                           th_generator_id row = generator_id /\
                           exists t : theta,
                             th_theta_json row = AJson t /\
                             iterations t = 0 /\
                             theta_config t
                               = default default_model_config config)
                   rows).
    { intros e [= <- <-]. exists [], modelnos.
      split; [rewrite app_nil_r; now destruct db |].
      split; [reflexivity | constructor]. }
    destruct (crosscat_metadata db generator_id) as [M_c|e]; [| eauto].
    destruct (crosscat_data db generator_id M_c) as [T|e]; [| eauto].
    destruct (engine_initialize _ _ _ _ _) as [states|e]; [| eauto].
    destruct (initial_states (length modelnos) states)
      as [X_L_list X_D_list].
    apply initialize_thetas_appends in Hinit
      as (done & rest & rows & Hitems & -> & Hrows & _).
    destruct (zip_fst_prefix modelnos (zip X_L_list X_D_list))
      as [rest' Hprefix].
    exists rows, (rest.*1 ++ rest'). split; [reflexivity |]. split.
    + rewrite Hprefix at 1. rewrite Hitems, fmap_app, <- app_assoc.
      f_equal. clear -Hrows.
      induction Hrows as [|item row done rows (_ & Hno & _) _ IH];
        [reflexivity |].
      cbn. now rewrite Hno, IH.
    + clear -Hrows.
      induction Hrows
        as [|item row done rows (Hg & _ & t & Ht & _ & _ & Hit & Hcfg) _ IH];
        constructor; eauto 10.
  - intros M_c T states Hmeta Hdata Hengine.
    rewrite Hmeta, Hdata, Hengine in Hinit.
    destruct (initial_states (length modelnos) states)
      as [X_L_list X_D_list].
    apply initialize_thetas_appends in Hinit
      as (done & rest & rows & Hitems & -> & Hrows & Hend).
    exists done, rest, rows. auto.
Qed.

(** X22.  Models cannot be initialized twice: when [initialize] has
    returned after adding a theta, the same call on the store it left
    raises [IntegrityError], the keys of [bayesdb_crosscat_theta] being
    taken, and changes nothing. *)
Theorem initialize_twice `{PyFloats} `{CrosscatSampler} (db db' : store)
    (generator_id : Z) (modelnos : list Z) (config : option model_config) :
  initialize db generator_id modelnos config = (Ok tt, db') ->
  bayesdb_crosscat_theta db' <> bayesdb_crosscat_theta db ->
  initialize db' generator_id modelnos config
    = (Raise (IntegrityError "PRIMARY KEY must be unique"), db').
Proof.
  unfold initialize. intros Hinit Hnew.
  destruct (crosscat_metadata db generator_id) as [M_c|e] eqn:Hmeta;
    [| discriminate].
  destruct (crosscat_data db generator_id M_c) as [T|e] eqn:Hdata;
    [| discriminate].
  destruct (engine_initialize _ _ _ _ _) as [states|e] eqn:Hengine;
    [| discriminate].
  destruct (initial_states (length modelnos) states)
    as [X_L_list X_D_list] eqn:Hstates.
  apply initialize_thetas_appends in Hinit
    as (done & rest & rows & Hitems & -> & Hrows & Hend).
  destruct rest as [|item rest]; [| destruct Hend; discriminate].
  rewrite app_nil_r in Hitems. clear Hend.
  change (crosscat_metadata (with_crosscat_theta db _) generator_id)
    with (crosscat_metadata db generator_id).
  rewrite Hmeta.
  change (crosscat_data (with_crosscat_theta db ?x) generator_id M_c)
    with (crosscat_data db generator_id M_c).
  rewrite Hdata, Hengine, Hstates, Hitems.
  destruct Hrows as [|item row done rows (Hg & Hno & _) _].
  { exfalso. apply Hnew. cbn. apply app_nil_r. }
  destruct item as [modelno [xl xd]]. cbn [initialize_thetas].
  unfold insert_theta_sql. rewrite bool_decide_eq_true_2; [reflexivity |].
  cbn [with_crosscat_theta bayesdb_crosscat_theta].
  apply Exists_exists. exists row. split; [| done].
  apply elem_of_app. right. apply list_elem_of_here.
Qed.

(** ** Rows that are not there *)

Lemma select_row_missing (db : store) (table : string)
    (names : list string) (rows : list (list pyval)) (rowid : Z) :
  select_columns db table names = Ok rows ->
  rowid < 1 \/ Z.of_nat (length rows) < rowid ->
  select_row db table names rowid = Ok [].
Proof.
  intros Hrows Hout. unfold select_row. rewrite Hrows. cbn [bind].
  destruct (1 <=? rowid) eqn:E; [| reflexivity].
  apply Z.leb_le in E. rewrite lookup_ge_None_2; [reflexivity | lia].
Qed.

(** X23.  [infer] of a null cell of a row the table does not have: the
    [ValueError] the function means to raise is never built, its message
    formatting [repr(rowid)] with [%d], so the call raises [TypeError]. *)
Theorem infer_missing_row `{PyFloats} `{CrosscatSampler} (db : store)
    (generator_id colno rowid numsamples : Z) (threshold : pyfloat)
    (M_c : metadata) (table : string) (rows : list (list pyval)) :
  crosscat_metadata db generator_id = Ok M_c ->
  bayesdb_generator_table db generator_id = Ok table ->
  select_columns db table (bayesdb_generator_column_names db generator_id)
    = Ok rows ->
  rowid < 1 \/ Z.of_nat (length rows) < rowid ->
  infer db generator_id colno rowid PNone threshold numsamples
    = Raise (TypeError "%d format: a number is required, not str").
Proof.
  intros Hmeta Htable Hrows Hout. unfold infer.
  rewrite Hmeta. cbn [bind]. rewrite Htable. cbn [bind].
  now rewrite (select_row_missing _ _ _ _ _ Hrows Hout).
Qed.

(** X24.  [infer] on a categorical column never invents a category: a
    value that is not null is returned as it is, and for a null cell the
    answer is null or one of the values the column's code map was built
    from. *)
Theorem infer_categorical_known `{PyFloats} `{CrosscatSampler} (db : store)
    (generator_id colno rowid numsamples cc : Z) (threshold : pyfloat)
    (M_c : metadata) (codes : list pyval) :
  crosscat_metadata db generator_id = Ok M_c ->
  bayesdb_generator_column_stattype db generator_id colno
    = Ok "categorical" ->
  crosscat_cc_colno db generator_id colno = Ok cc ->
  py_index (column_metadata_list M_c) cc = Ok (categorical_metadata codes) ->
  (forall value : pyval,
     value <> PNone ->
     infer db generator_id colno rowid value threshold numsamples
       = Ok value) /\
  (forall v : pyval,
     infer db generator_id colno rowid PNone threshold numsamples = Ok v ->
     v = PNone \/ In v codes).
Proof.
  intros Hmeta Hst Hcc Hcm. split.
  - intros value Hvalue. now destruct value.
  - intros v Hinfer. unfold infer in Hinfer.
    rewrite Hmeta in Hinfer. cbn [bind] in Hinfer.
    apply bind_ok in Hinfer as (table & _ & Hinfer).
    apply bind_ok in Hinfer as (cursor & _ & Hinfer).
    destruct cursor as [|row [|row' cursor]].
    + apply bind_ok in Hinfer as (g & _ & Hinfer). discriminate.
    + apply bind_ok in Hinfer as (cc' & _ & Hinfer).
      apply bind_ok in Hinfer as (X_L_list & _ & Hinfer).
      apply bind_ok in Hinfer as (X_D_list & _ & Hinfer).
      apply bind_ok in Hinfer as (Y & _ & Hinfer).
      apply bind_ok in Hinfer as ([code confidence] & _ & Hinfer).
      destruct (float_geb confidence threshold);
        [| injection Hinfer as <-; now left].
      unfold crosscat_code_to_value in Hinfer.
      rewrite Hst in Hinfer. cbn [bind] in Hinfer.
      rewrite bool_decide_eq_true_2 in Hinfer by done.
      destruct (isnan code); [injection Hinfer as <-; now left |].
      rewrite Hcc in Hinfer. cbn [bind] in Hinfer.
      apply bind_ok in Hinfer as (i & _ & Hinfer).
      rewrite Hcm in Hinfer. cbn [bind] in Hinfer.
      destruct (value_to_code (categorical_metadata codes)
                  !! unicode (PInt i)) as [v'|] eqn:Hlook; [| discriminate].
      injection Hinfer as ->. right.
      eapply categorical_value_in_codes, Hlook.
    + apply bind_ok in Hinfer as (g & _ & Hinfer). discriminate.
Qed.

(** X25.  [simulate] over a table without rows: [MAX(_rowid_)] is null,
    so [max_rowid + 1] adds 1 to [None] and the call raises [TypeError],
    whatever is asked for. *)
Theorem simulate_empty_table `{PyFloats} `{CrosscatSampler} (db : store)
    (generator_id numpredictions : Z)
    (constraints : option (list (Z * pyval))) (colnos : list Z)
    (M_c : metadata) (table : string) (t : user_table) :
  crosscat_metadata db generator_id = Ok M_c ->
  bayesdb_generator_table db generator_id = Ok table ->
  user_tables db !! table = Some t ->
  ut_rows t = [] ->
  simulate db generator_id constraints colnos numpredictions
    = Raise (TypeError "unsupported operand type(s) for +").
Proof.
  intros Hmeta Htable Ht Hrows. unfold simulate.
  rewrite Hmeta. cbn [bind]. rewrite Htable. cbn [bind].
  unfold select_max_rowid, user_table_of. rewrite Ht. cbn [or_raise bind].
  now rewrite Hrows.
Qed.

(** X26.  A stored value the code map does not know is treated in two
    ways: [row_column_predictive_probability] of its cell lets the
    [KeyError] of [crosscat_value_to_code] through, where
    [column_value_probability] of the same value answers 0. *)
Theorem row_column_predictive_probability_unknown `{PyFloats}
    `{CrosscatEngine} (db : store) (generator_id rowid colno : Z)
    (M_c : metadata) (table colname : string) (value : pyval) :
  crosscat_metadata db generator_id = Ok M_c ->
  bayesdb_generator_table db generator_id = Ok table ->
  bayesdb_generator_column_name db generator_id colno = Ok colname ->
  select_row db table [colname] rowid = Ok [[value]] ->
  crosscat_value_to_code db generator_id M_c colno value = Raise KeyError ->
  row_column_predictive_probability db generator_id rowid colno
    = Raise KeyError /\
  column_value_probability db generator_id colno value = Ok (PInt 0).
Proof.
  intros Hmeta Htable Hname Hrow Hcode. split.
  - unfold row_column_predictive_probability.
    rewrite Hmeta. cbn [bind]. rewrite Htable. cbn [bind].
    rewrite Hname. cbn [bind]. rewrite Hrow.
    cbn [bind or_raise cursor_next head].
    rewrite bool_decide_eq_true_2 by done. cbn [negb].
    change (py_index [value] 0) with (Ok value). cbn [bind].
    now rewrite Hcode.
  - unfold column_value_probability. rewrite Hmeta. cbn [bind].
    now rewrite Hcode.
Qed.

(** X27.  [row_column_predictive_probability] of a row the table does
    not have raises [ValueError]: the engine is not asked. *)
Theorem row_column_predictive_probability_missing_row `{PyFloats}
    `{CrosscatEngine} (db : store) (generator_id rowid colno : Z)
    (M_c : metadata) (table colname : string) (rows : list (list pyval)) :
  crosscat_metadata db generator_id = Ok M_c ->
  bayesdb_generator_table db generator_id = Ok table ->
  bayesdb_generator_column_name db generator_id colno = Ok colname ->
  select_columns db table [colname] = Ok rows ->
  rowid < 1 \/ Z.of_nat (length rows) < rowid ->
  row_column_predictive_probability db generator_id rowid colno
    = Raise (ValueError "No such row").
Proof.
  intros Hmeta Htable Hname Hrows Hout.
  unfold row_column_predictive_probability.
  rewrite Hmeta. cbn [bind]. rewrite Htable. cbn [bind].
  rewrite Hname. cbn [bind].
  now rewrite (select_row_missing _ _ _ _ _ Hrows Hout).
Qed.

(** ** The rest of the module on the examples *)

Section MoreExamples.
#[local] Existing Instance example_floats.
#[local] Existing Instance example_engine.
#[local] Existing Instance example_sampler.

Ltac evaluate := vm_compute; reflexivity.

(** X2 at the example: dropping generator 2 leaves what generator 1 would
    read, and the user tables. *)
Lemma drop_generator_frame_witness :
  crosscat_metadata (drop_generator ignore_generator 2).2 1
    = crosscat_metadata ignore_generator 1 /\
  user_tables (drop_generator ignore_generator 2).2
    = user_tables ignore_generator.
Proof.
  pose proof (drop_generator_frame ignore_generator
                (drop_generator ignore_generator 2).2 2 1
                (drop_generator ignore_generator 2).1
                ltac:(evaluate) ltac:(discriminate))
    as (Hmeta & _ & _ & _ & _ & _ & _ & _ & Htables).
  split; [exact Hmeta | exact Htables].
Defined.

(** X3 at the example: dropping generator 1 gives back the store it was
    created in. *)
Lemma create_then_drop_witness :
  drop_generator example_generator 1 = (Ok tt, example_catalogue).
Proof.
  refine (create_then_drop example_catalogue example_generator 1
            example_columns _ _); [| evaluate].
  repeat split; apply Forall_nil_2.
Defined.

(** X4 at the example: generator 1 created a second time. *)
Lemma create_generator_twice_witness :
  create_generator example_generator 1 example_columns
    = (Raise (IntegrityError "PRIMARY KEY must be unique"), example_generator).
Proof.
  refine (create_generator_twice example_catalogue example_generator 1
            example_columns _); evaluate.
Defined.

(** X5 at the example: the statistical type [nominal] has no creator. *)
Lemma create_generator_unsupported_stattype_witness :
  create_generator example_catalogue 1 [(0, "color", "nominal")]
    = (Raise KeyError, example_catalogue).
Proof.
  refine (proj2 (create_generator_unsupported_stattype example_catalogue 1 0
                   "color" "nominal" [] _)).
  vm_compute. intros [E|[E|[E|[E|[E|[]]]]]]; discriminate E.
Defined.

(** X6 at the example: the colours of the table are [a] and [b]. *)
Lemma create_metadata_categorical_codes_witness :
  exists codes : list pyval,
    create_metadata_categorical example_catalogue 1 0
      = Ok {| raw_modeltype := "symmetric_dirichlet_discrete";
              raw_value_to_code := zip (range (length codes)) codes;
              raw_code_to_value := zip codes (range (length codes)) |} /\
    sql_ascending codes /\
    (forall c, c ∈ codes -> sql_not_null c = true).
Proof.
  destruct (create_metadata_categorical_codes example_catalogue 1 0
              {| raw_modeltype := "symmetric_dirichlet_discrete";
                 raw_value_to_code := [(0, PStr "a"); (1, PStr "b")];
                 raw_code_to_value := [(PStr "a", 0); (PStr "b", 1)] |}
              ltac:(evaluate))
    as (table & column_name & rows & codes & _ & _ & _ & Hvc & Hcv & Hasc
        & Hin & _).
  exists codes. cbn [raw_value_to_code raw_code_to_value] in Hvc, Hcv.
  rewrite <- Hvc, <- Hcv. split; [evaluate |]. split; [exact Hasc |].
  intros c Hc. exact (proj2 (Hin c Hc)).
Defined.

(** X7 at the example: the code 1 of the column [color] is [b]. *)
Lemma crosscat_code_to_value_known_witness :
  (PStr "b" = PNone /\ FNum 1 = FNaN) \/
  (In (PStr "b") [PStr "a"; PStr "b"] /\ FNum 1 <> FNaN).
Proof.
  refine (crosscat_code_to_value_known example_generator 1 0 0 example_M_c
            [PStr "a"; PStr "b"] (FNum 1) (PStr "b") _ _ _ _); evaluate.
Defined.

(** X8 at the example: the colour [b] has the code 1. *)
Lemma crosscat_value_to_code_range_witness :
  (PStr "b" = PNone /\ FNum 1 = FNaN) \/
  (exists (i : nat) (c : pyval),
     FNum 1 = float_of_Z (Z.of_nat i) /\
     (i < length [PStr "a"; PStr "b"])%nat /\
     [PStr "a"; PStr "b"] !! i = Some c /\
     json_key c = unicode (PStr "b")).
Proof.
  refine (crosscat_value_to_code_range example_generator 1 0 0 example_M_c
            [PStr "a"; PStr "b"] (PStr "b") (FNum 1) _ _ _ _); evaluate.
Defined.

(** X9 at the example: the code 1 and the colour [b]. *)
Lemma code_round_trip_witness :
  crosscat_code_to_value example_generator 1 example_M_c 0
    (float_of_Z (Z.of_nat 1)) = Ok (PStr "b") /\
  crosscat_value_to_code example_generator 1 example_M_c 0 (PStr "b")
    = Ok (float_of_Z (Z.of_nat 1)).
Proof.
  refine (code_round_trip example_generator 1 0 0 example_M_c
            [PStr "a"; PStr "b"] 1 (PStr "b") _ _ _ _ _ _ _);
    [evaluate | evaluate | evaluate | | reflexivity | discriminate
     | reflexivity].
  cbn. apply NoDup_cons_2; [| apply NoDup_singleton].
  intros Hin. apply list_elem_of_singleton in Hin. discriminate.
Defined.

(** X11 at the example: one model of two has the columns dependent. *)
Lemma column_dependence_probability_range_witness :
  (0 = 1 /\ PFloat (FNum (1 # 2)) = PInt 1) \/
  (0 <> 1 /\ crosscat_theta_cells example_models 1 = [] /\
   PFloat (FNum (1 # 2)) = PFloat FNaN) \/
  (0 <> 1 /\ crosscat_theta_cells example_models 1 <> [] /\
   exists q : Q,
     PFloat (FNum (1 # 2)) = PFloat (FNum q) /\ (0 <= q)%Q /\ (q <= 1)%Q).
Proof.
  refine (column_dependence_probability_range example_models 1 0 1
            (PFloat (FNum (1 # 2))) _); evaluate.
Defined.

(** X12 at the example: two batches under a time bound. *)
Lemma analyze_changes_counters_only_witness :
  with_generator_model example_analyzed
    (bayesdb_generator_model example_models) = example_models /\
  bayesdb_crosscat_theta example_analyzed
    = bayesdb_crosscat_theta example_models.
Proof.
  assert (Hrun : analyze 9 example_clock example_models 1 None None
                   (Some 3%Q) = Some (Ok tt, example_analyzed, [1; 1]))
    by evaluate.
  pose proof (analyze_changes_counters_only 9 example_clock example_models
                example_analyzed 1 None None (Some 3%Q) (Ok tt) [1; 1] Hrun)
    as (Hframe & Htheta & _).
  split; [exact Hframe | exact Htheta].
Defined.

(** X13 at the example: the same two batches, of one step each. *)
Lemma analyze_batches_witness :
  Forall (fun n => 0 < n) [1; 1] /\ Forall (fun n => n = 1) [1; 1].
Proof.
  assert (Hrun : analyze 9 example_clock example_models 1 None None
                   (Some 3%Q) = Some (Ok tt, example_analyzed, [1; 1]))
    by evaluate.
  pose proof (analyze_batches 9 example_clock example_models
                example_analyzed 1 None None (Some 3%Q) (Ok tt) [1; 1] Hrun)
    as (Hpos & Hone & _).
  split; [exact Hpos | apply Hone; discriminate].
Defined.

(** X14 at the example: the generator before any model is initialized. *)
Lemma analyze_without_models_witness :
  analyze 1 example_clock example_generator 1 None (Some 5) None
    = Some (Raise AssertionError, example_generator, [5]).
Proof.
  refine (analyze_without_models O example_clock example_generator 1 5
            example_M_c example_matrix _ _ _ _);
    [evaluate | evaluate | evaluate | lia].
Defined.

(** X15 at the example: model 0 chosen. *)
Lemma analyze_modelnos_raises_witness :
  analyze 1 example_clock example_models 1 (Some [0]) (Some 5) None
    = Some (Raise (OperationalError "no such column"), example_models, [5]).
Proof.
  refine (analyze_modelnos_raises O example_clock example_models 1 5 [0]
            example_M_c example_matrix _ _ _); [evaluate | evaluate | lia].
Defined.

(** X16 at the example: one row into the generator without models. *)
Lemma insertmany_outcome_witness :
  models_sql example_generator 1 = [] /\
  exists table : string,
    bayesdb_generator_table example_generator 1 = Ok table /\
    rows_appended table 1 example_generator
      (insertmany example_generator 1 [example_row]).2.
Proof.
  refine (insertmany_outcome example_generator
            (insertmany example_generator 1 [example_row]).2 1 [example_row]
            (Ok tt) _).
  evaluate.
Defined.

(** X18 at the example: three rows, two modelled columns. *)
Lemma crosscat_data_shape_witness :
  exists (table : string) (t : user_table),
    bayesdb_generator_table example_generator 1 = Ok table /\
    user_tables example_generator !! table = Some t /\
    columns_sql example_generator 1 <> [] /\
    length example_matrix = length (ut_rows t) /\
    Forall (fun codes =>
              length codes = length (columns_sql example_generator 1))
      example_matrix.
Proof.
  refine (crosscat_data_shape example_generator 1 example_M_c example_matrix
            _); evaluate.
Defined.

(** X19 at the example: the column [height] of generator 2. *)
Lemma crosscat_gen_colno_inverse_witness :
  crosscat_cc_colno ignore_generator 2 1 = Ok 1 <->
  crosscat_gen_colno ignore_generator 2 1 = Ok 1.
Proof.
  refine (crosscat_gen_colno_inverse ignore_generator 2 1 1 _).
  split; vm_compute; (apply NoDup_cons_2; [| apply NoDup_singleton]);
    intros Hin; apply list_elem_of_singleton in Hin; discriminate.
Defined.

(** X20 at the example: generator 2 has no compacted column 7. *)
Lemma crosscat_gen_colno_missing_witness :
  crosscat_gen_colno ignore_generator 2 7 = Raise (NameError "colno").
Proof.
  refine (crosscat_gen_colno_missing ignore_generator 2 7 _).
  intros r Hin _. apply list_elem_of_In in Hin. vm_compute in Hin.
  destruct Hin as [<- | [<- | []]]; discriminate.
Defined.

(** X21 at the example: models 1 and 0 where model 0 is initialized
    already.  Model 1 is stored, model 0 raises, and the theta of model 1
    stays in the store. *)
Lemma initialize_appends_witness :
  (initialize example_initialized 1 [1; 0] None).1
    = Raise (IntegrityError "PRIMARY KEY must be unique") /\
  th_modelno <$>
    bayesdb_crosscat_theta (initialize example_initialized 1 [1; 0] None).2
    = [0; 1] /\
  exists (done rest : list (Z * (XL * XD)))
         (rows : list crosscat_theta_row),
    length done = 1%nat /\ length rest = 1%nat /\ length rows = 1%nat /\
    (initialize example_initialized 1 [1; 0] None).2
      = with_crosscat_theta example_initialized
          (bayesdb_crosscat_theta example_initialized ++ rows).
Proof.
  assert (Hrun : initialize example_initialized 1 [1; 0] None
                 = ((initialize example_initialized 1 [1; 0] None).1,
                    (initialize example_initialized 1 [1; 0] None).2))
    by evaluate.
  assert (Hmeta : crosscat_metadata example_initialized 1 = Ok example_M_c)
    by evaluate.
  assert (Hdata : crosscat_data example_initialized 1 example_M_c
                  = Ok example_matrix) by evaluate.
  assert (Hengine :
            engine_initialize example_M_c example_matrix
              (length [1; 0])
              (initialization (default default_model_config None))
              (row_initialization (default default_model_config None))
            = Ok (([example_initial_XL; example_initial_XL],
                   [[[0; 0; 0]]; [[0; 0; 0]]]) : init_result 2))
    by evaluate.
  destruct (proj2 (initialize_appends example_initialized _ 1 [1; 0] None _
                     Hrun) _ _ _ Hmeta Hdata Hengine)
    as (done & rest & rows & Hitems & Hstore & Hrows & Hend).
  assert (Hleft : th_modelno <$>
                    bayesdb_crosscat_theta
                      (initialize example_initialized 1 [1; 0] None).2
                  = [0; 1]) by evaluate.
  assert (Hraised : (initialize example_initialized 1 [1; 0] None).1
                    = Raise (IntegrityError "PRIMARY KEY must be unique"))
    by evaluate.
  split; [exact Hraised |]. split; [exact Hleft |].
  exists done, rest, rows.
  assert (Hbefore : length (bayesdb_crosscat_theta example_initialized)
                    = 1%nat) by evaluate.
  assert (Hlen : length rows = 1%nat).
  { rewrite Hstore in Hleft.
    cbn [with_crosscat_theta bayesdb_crosscat_theta] in Hleft.
    apply (f_equal length) in Hleft.
    rewrite length_fmap, length_app, Hbefore in Hleft.
    cbn [length] in Hleft. lia. }
  pose proof (Forall2_length _ _ _ Hrows) as Hdone.
  apply (f_equal length) in Hitems. rewrite length_app in Hitems.
  change (length (zip [1; 0] _)) with 2%nat in Hitems.
  split; [lia |]. split; [lia |]. split; [exact Hlen | exact Hstore].
Defined.

(** X22 at the example: the same two models a second time. *)
Lemma initialize_twice_witness :
  initialize (initialize example_registered 1 [0; 1] None).2 1 [0; 1] None
    = (Raise (IntegrityError "PRIMARY KEY must be unique"),
       (initialize example_registered 1 [0; 1] None).2).
Proof.
  refine (initialize_twice example_registered
            (initialize example_registered 1 [0; 1] None).2 1 [0; 1] None
            _ _); [evaluate | vm_compute; discriminate].
Defined.

(** X23 at the example: row 9 of a table of three rows. *)
Lemma infer_missing_row_witness :
  infer example_models 1 0 9 PNone (FNum 0) 1
    = Raise (TypeError "%d format: a number is required, not str").
Proof.
  refine (infer_missing_row example_models 1 0 9 1 (FNum 0) example_M_c "t"
            [ [PStr "b"; PFloat (FNum (3 # 2))]; [PStr "a"; PStr "3.5"];
              [PStr "a"; PInt 2] ] _ _ _ _);
    [evaluate | evaluate | evaluate | right; cbn; lia].
Defined.

(** X24 at the example: the colour of row 1, given and asked for. *)
Lemma infer_categorical_known_witness :
  infer example_models 1 0 1 (PStr "a") (FNum 0) 1 = Ok (PStr "a") /\
  (PStr "b" = PNone \/ In (PStr "b") [PStr "a"; PStr "b"]).
Proof.
  assert (Hmeta : crosscat_metadata example_models 1 = Ok example_M_c)
    by evaluate.
  assert (Hst : bayesdb_generator_column_stattype example_models 1 0
                = Ok "categorical") by evaluate.
  assert (Hcc : crosscat_cc_colno example_models 1 0 = Ok 0) by evaluate.
  assert (Hcm : py_index (column_metadata_list example_M_c) 0
                = Ok (categorical_metadata [PStr "a"; PStr "b"]))
    by evaluate.
  pose proof (infer_categorical_known example_models 1 0 1 1 0 (FNum 0)
                example_M_c [PStr "a"; PStr "b"] Hmeta Hst Hcc Hcm)
    as [Hgiven Hasked].
  split; [apply Hgiven; discriminate | apply Hasked; evaluate].
Defined.

(** X25 at the example: the table without rows. *)
Lemma simulate_empty_table_witness :
  simulate empty_table_generator 1 None [0] 1
    = Raise (TypeError "unsupported operand type(s) for +").
Proof.
  refine (simulate_empty_table empty_table_generator 1 1 None [0]
            example_M_c "t"
            {| ut_columns := ["color"; "height"; "name"]; ut_rows := [] |}
            _ _ _ _); evaluate.
Defined.

(** X26 at the example: the colour [c] came into the table after the
    generator was created. *)
Lemma row_column_predictive_probability_unknown_witness :
  row_column_predictive_probability unknown_category_generator 1 1 0
    = Raise KeyError /\
  column_value_probability unknown_category_generator 1 0 (PStr "c")
    = Ok (PInt 0).
Proof.
  refine (row_column_predictive_probability_unknown
            unknown_category_generator 1 1 0 example_M_c "t" "color"
            (PStr "c") _ _ _ _ _); evaluate.
Defined.

(** X27 at the example: row 9 of a table of three rows. *)
Lemma row_column_predictive_probability_missing_row_witness :
  row_column_predictive_probability example_generator 1 9 0
    = Raise (ValueError "No such row").
Proof.
  refine (row_column_predictive_probability_missing_row example_generator
            1 9 0 example_M_c "t" "color"
            [ [PStr "b"]; [PStr "a"]; [PStr "a"] ] _ _ _ _ _);
    [evaluate | evaluate | evaluate | evaluate | right; cbn; lia].
Defined.

End MoreExamples.
